(** * generate_premium_report.py: a shallow embedding

    The script assembles a fixed market-research report: it defines a
    colour palette, four custom flowables, six chart generators, one
    content builder per chapter and an assembler that hands the story to
    the layout engine.

    Conventions of the embedding:
    - Python numbers used as lengths, coordinates and colour channels are
      exact rationals ([Q]); counters and table coordinates are [Z].
    - Python [str] is [string]; non-ASCII text is carried as its UTF-8
      bytes (the labels that are split and measured are ASCII).
    - A canvas is the sequence of drawing calls issued on it, oldest first.
    - ReportLab, matplotlib, [tempfile] and [os] are not part of the
      repository. Their data constructors are plain constructors here, font
      metrics are an interface ([FontMetrics]), and their effects on the
      file system are interpreted in an explicit world (see [World]). *)

From Stdlib Require Import QArith ZArith List String Ascii Lia Lqa.
From stdpp Require Import gmap strings list pretty.

Import ListNotations.
Local Open Scope Q_scope.

(** ** Python built-ins *)

(** [if s:] on a string. *)
Definition truthy (s : string) : bool := negb (String.eqb s "").

(** [str.isspace] on one ASCII character: TAB, LF, VT, FF, CR, FS, GS, RS,
    US and SPACE. *)
Definition isspace (c : ascii) : bool :=
  match nat_of_ascii c with
  | 9%nat | 10%nat | 11%nat | 12%nat | 13%nat
  | 28%nat | 29%nat | 30%nat | 31%nat | 32%nat => true
  | _ => false
  end.

(** [s.split()] with no separator: maximal runs of non-blank characters.
    [cur] is the run being read. *)
Fixpoint split_from (cur : string) (s : string) : list string :=
  match s with
  | EmptyString => if truthy cur then [cur] else []
  | String c s' =>
      if isspace c
      then (if truthy cur then cur :: split_from "" s' else split_from "" s')
      else split_from (cur ++ String c "")%string s'
  end.

Definition split (s : string) : list string := split_from "" s.

(** [" ".join(ws)] *)
Fixpoint join (ws : list string) : string :=
  match ws with
  | [] => ""
  | [w] => w
  | w :: ws' => (w ++ " " ++ join ws')%string
  end.

(** [range(n)] *)
Definition range (n : nat) : list Z := map Z.of_nat (seq 0 n).

(** [l.append(x)] and [l.extend(k)], as the new value of [l]. *)
Definition append {A} (l : list A) (x : A) : list A := l ++ [x].
Definition extend {A} (l k : list A) : list A := l ++ k.

(** [a < b] on numbers. *)
Definition Qltb (a b : Q) : bool := negb (Qle_bool b a).

(** ** reportlab.lib.colors *)

Record Color := mkColor { red : Q; green : Q; blue : Q }.

(** [colors.HexColor('#RRGGBB')]: the three bytes scaled to [0, 1]. The
    argument is the number the hexadecimal string denotes. *)
Definition HexColor (val : N) : Color :=
  let chan (shift : N) := Z.of_N (N.land (N.shiftr val shift) 255) # 255 in
  mkColor (chan 16%N) (chan 8%N) (chan 0%N).

Module PremiumColors.
(* Primary colors *)
Definition NAVY_DARK := HexColor 0x0A1628.
Definition NAVY := HexColor 0x1B2838.
Definition NAVY_LIGHT := HexColor 0x2D4156.
(* Accent colors *)
Definition GOLD := HexColor 0xC9A227.
Definition GOLD_LIGHT := HexColor 0xE8D48B.
Definition TEAL := HexColor 0x0891B2.
Definition TEAL_LIGHT := HexColor 0x67E8F9.
(* Neutral colors *)
Definition WHITE := HexColor 0xFFFFFF.
Definition GRAY_100 := HexColor 0xF8FAFC.
Definition GRAY_200 := HexColor 0xE2E8F0.
Definition GRAY_300 := HexColor 0xCBD5E1.
Definition GRAY_500 := HexColor 0x64748B.
Definition GRAY_700 := HexColor 0x334155.
Definition GRAY_900 := HexColor 0x0F172A.
(* Chart colors *)
Definition CHART_1 := HexColor 0x0891B2.
Definition CHART_2 := HexColor 0xC9A227.
Definition CHART_3 := HexColor 0x059669.
Definition CHART_4 := HexColor 0x7C3AED.
Definition CHART_5 := HexColor 0xDC2626.
End PremiumColors.

(** ** The canvas *)

Inductive CanvasOp :=
| saveState
| restoreState
| setFillColor (c : Color)
| setFillColorRGB (r g b : Q)
| setStrokeColor (c : Color)
| setLineWidth (w : Q)
| setFont (name : string) (size : Q)
| rect (x y w h : Q) (fill stroke : Z)
| roundRect (x y w h radius : Q) (fill stroke : Z)
| line (x1 y1 x2 y2 : Q)
| circle (x y r : Q) (fill stroke : Z)
| drawString (x y : Q) (text : string)
| drawCentredString (x y : Q) (text : string)
| drawRightString (x y : Q) (text : string).

Definition Canvas := list CanvasOp.

(** [canvas.stringWidth(text, fontName, fontSize)]: the font metrics are
    owned by the rendering library. *)
Class FontMetrics := { stringWidth : string -> string -> Q -> Q }.

(** ** Custom flowables *)

Module GradientRect.
Record t := mk {
  width : Q; height : Q; color1 : Color; color2 : Color; direction : string
}.

Definition __init__ (width height : Q) (color1 color2 : Color)
    (direction : string) : t :=
  mk width height color1 color2 direction.

(** One pass of the loop body for step [i]. *)
Definition draw_step (self : t) (steps : Z) (canv : Canvas) (i : Z) : Canvas :=
  let ratio := inject_Z i / inject_Z steps in
  let r := red (color1 self) + (red (color2 self) - red (color1 self)) * ratio in
  let g := green (color1 self) + (green (color2 self) - green (color1 self)) * ratio in
  let b := blue (color1 self) + (blue (color2 self) - blue (color1 self)) * ratio in
  let canv := append canv (setFillColorRGB r g b) in
  if String.eqb (direction self) "horizontal" then
    let x := inject_Z i * width self / inject_Z steps in
    append canv (rect x 0 (width self / inject_Z steps + 1) (height self) 1 0)
  else
    let y := inject_Z i * height self / inject_Z steps in
    append canv (rect 0 y (width self) (height self / inject_Z steps + 1) 1 0).

Definition draw (self : t) (canv : Canvas) : Canvas :=
  (* Simulate gradient with multiple rectangles *)
  let steps := 50%nat in
  fold_left (draw_step self (Z.of_nat steps)) (range steps) canv.
End GradientRect.

Module KeyMetricBox.
Record t := mk {
  value : string; label : string;
  box_width : Q; box_height : Q; accent_color : Color
}.

Definition default_width : Q := 120.
Definition default_height : Q := 80.

(** [accent_color or PremiumColors.GOLD]: [None] selects the default. *)
Definition __init__ (value label : string) (width height : Q)
    (accent_color : option Color) : t :=
  mk value label width height
     (match accent_color with Some c => c | None => PremiumColors.GOLD end).

Definition wrap (self : t) (availWidth availHeight : Q) : Q * Q :=
  (box_width self, box_height self).

Section Draw.
Context `{FontMetrics}.

(** One pass of the word-wrap loop; the state is [(lines, current_line)]. *)
Definition wrap_step (self : t) (st : list string * string) (word : string)
    : list string * string :=
  let '(lines, current_line) := st in
  let test_line :=
    if truthy current_line then (current_line ++ " " ++ word)%string else word in
  if Qltb (stringWidth test_line "Helvetica" 9) (box_width self - 16) then
    (lines, test_line)
  else
    let lines :=
      if truthy current_line then append lines current_line else lines in
    (lines, word).

(** The value of [lines] when the drawing loop is reached. *)
Definition label_lines (self : t) : list string :=
  let words := split (label self) in
  let '(lines, current_line) := fold_left (wrap_step self) words ([], "") in
  if truthy current_line then append lines current_line else lines.

Definition draw (self : t) (canv : Canvas) : Canvas :=
  (* Background *)
  let canv := append canv (setFillColor PremiumColors.GRAY_100) in
  let canv := append canv (roundRect 0 0 (box_width self) (box_height self) 8 1 0) in
  (* Accent bar at top *)
  let canv := append canv (setFillColor (accent_color self)) in
  let canv := append canv (rect 0 (box_height self - 4) (box_width self) 4 1 0) in
  (* Value *)
  let canv := append canv (setFillColor PremiumColors.NAVY_DARK) in
  let canv := append canv (setFont "Helvetica-Bold" 20) in
  let canv := append canv
    (drawCentredString (box_width self / 2) (box_height self - 35) (value self)) in
  (* Label *)
  let canv := append canv (setFillColor PremiumColors.GRAY_500) in
  let canv := append canv (setFont "Helvetica" 9) in
  (* Word wrap label *)
  let lines := label_lines self in
  let y_pos := box_height self - 55 in
  let '(canv, y_pos) :=
    fold_left
      (fun '(canv, y_pos) line =>
         let canv := append canv (drawCentredString (box_width self / 2) y_pos line) in
         (canv, y_pos - 12))
      (firstn 2 lines) (* Max 2 lines *)
      (canv, y_pos) in
  canv.
End Draw.
End KeyMetricBox.

Module SectionDivider.
Record t := mk { div_width : Q; text : string }.

Definition __init__ (width : Q) (text : string) : t := mk width text.

Definition wrap (self : t) (availWidth availHeight : Q) : Q * Q :=
  (div_width self, 30).

Definition draw (self : t) (canv : Canvas) : Canvas :=
  (* Draw line *)
  let canv := append canv (setStrokeColor PremiumColors.GOLD) in
  let canv := append canv (setLineWidth 2) in
  let canv := append canv (line 0 15 (div_width self) 15) in
  (* Draw decorative elements *)
  let canv := append canv (setFillColor PremiumColors.GOLD) in
  let canv := append canv (circle 0 15 4 1 0) in
  let canv := append canv (circle (div_width self) 15 4 1 0) in
  canv.
End SectionDivider.

(** [str(n)] on an integer. *)
Definition str_of_Z (n : Z) : string := pretty n.

Module ChapterHeader.
Record t := mk { number : Z; title : string; header_width : Q }.

Definition __init__ (number : Z) (title : string) (width : Q) : t :=
  mk number title width.

Definition wrap (self : t) (availWidth availHeight : Q) : Q * Q :=
  (header_width self, 60).

Definition draw `{FontMetrics} (self : t) (canv : Canvas) : Canvas :=
  (* Chapter number box *)
  let canv := append canv (setFillColor PremiumColors.NAVY) in
  let canv := append canv (roundRect 0 20 40 40 4 1 0) in
  (* Chapter number *)
  let canv := append canv (setFillColor PremiumColors.GOLD) in
  let canv := append canv (setFont "Helvetica-Bold" 20) in
  let canv := append canv (drawCentredString 20 32 (str_of_Z (number self))) in
  (* Chapter title *)
  let canv := append canv (setFillColor PremiumColors.NAVY_DARK) in
  let canv := append canv (setFont "Helvetica-Bold" 22) in
  let canv := append canv (drawString 55 32 (title self)) in
  (* Underline *)
  let canv := append canv (setStrokeColor PremiumColors.GOLD) in
  let canv := append canv (setLineWidth 3) in
  let canv := append canv
    (line 55 18 (55 + stringWidth (title self) "Helvetica-Bold" 22) 18) in
  canv.
End ChapterHeader.

(** ** More built-ins, used by the content builders *)

(** The one-character string holding a double quote. *)
Definition dq : string := String (ascii_of_nat 34) EmptyString.

(** [s * n] on a string. *)
Definition str_mul (s : string) (n : Z) : string :=
  fold_right String.append EmptyString (repeat s (Z.to_nat n)).

(** [s[:n]] for a non-negative [n]. *)
Definition str_prefix (s : string) (n : Z) : string :=
  substring 0 (Z.to_nat n) s.

(** ** reportlab.lib.styles *)

Inductive Alignment := TA_LEFT | TA_CENTER | TA_RIGHT | TA_JUSTIFY.

Inductive StyleValue :=
| SNum (n : Q)
| SStr (s : string)
| SColor (c : Color)
| SAlign (a : Alignment).

(** A paragraph style is the keyword arguments it was built from; the
    defaults of the other attributes belong to the library. *)
Record Style := ParagraphStyle { style_kwargs : list (string * StyleValue) }.

(** The [name] keyword, under which [StyleSheet1.add] files the style. *)
Definition style_name (s : Style) : string :=
  match List.find (fun kv => String.eqb (fst kv) "name") (style_kwargs s) with
  | Some (_, SStr n) => n
  | _ => EmptyString
  end.

Abbreviation StyleSheet := (gmap string Style).

(** [styles[key]]. The script only looks up names it has added itself (see
    [premium_styles_defined]), so the [KeyError] of a missing key cannot
    occur; that case yields the style with no attributes. *)
Definition getitem (styles : StyleSheet) (key : string) : Style :=
  match styles !! key with
  | Some s => s
  | None => ParagraphStyle []
  end.

(** ** reportlab.platypus *)

Inductive CmdArg :=
| CColor (c : Color)
| CStr (s : string)
| CNum (n : Q)
| CColors (cs : list Color).

(** A table style command: name, first cell, last cell, arguments. *)
Abbreviation TableCmd := (string * (Z * Z) * (Z * Z) * list CmdArg)%type.

Definition TableStyle (cmds : list TableCmd) : list TableCmd := cmds.

#[local] Set Warnings "-register-all".

Inductive Flowable :=
| Paragraph (text : string) (style : Style)
| Spacer (width height : Q)
| PageBreak
| Image (filename : string) (width height : Q)
| Table (data : list (list (string + Flowable))) (colWidths : list Q)
    (style : list TableCmd)
| OfGradientRect (g : GradientRect.t)
| OfKeyMetricBox (b : KeyMetricBox.t)
| OfSectionDivider (d : SectionDivider.t)
| OfChapterHeader (h : ChapterHeader.t).

Abbreviation Cell := (string + Flowable)%type.

(** [table.setStyle(tblstyle)]: the commands are added to the table's own. *)
Definition setStyle (table : Flowable) (tblstyle : list TableCmd) : Flowable :=
  match table with
  | Table data colWidths style => Table data colWidths (style ++ tblstyle)
  | other => other
  end.

(** [reportlab.lib.units] and [reportlab.lib.pagesizes.A4]. *)
Definition inch : Q := 72.
Definition cm : Q := inch / 2.54.
Definition mm : Q := cm * 0.1.
Definition A4 : Q * Q := (210 * mm, 297 * mm).

Record SimpleDocTemplate := mkSimpleDocTemplate {
  filename : string;
  pagesize : Q * Q;
  rightMargin : Q;
  leftMargin : Q;
  topMargin : Q;
  bottomMargin : Q
}.

(** What a page callback can read of the document: the page number. *)
Record DocState := { page : Z }.

Abbreviation PageCallback := (Canvas -> DocState -> Canvas).

(** ** Page templates *)

(** Creates the premium cover page. *)
Definition create_cover_page (canvas : Canvas) (doc : DocState) : Canvas :=
  let canvas := append canvas saveState in
  let '(width, height) := A4 in
  (* Full page navy background *)
  let canvas := append canvas (setFillColor PremiumColors.NAVY_DARK) in
  let canvas := append canvas (rect 0 0 width height 1 0) in
  (* Geometric accent pattern (top right) *)
  let canvas := append canvas (setFillColor PremiumColors.NAVY) in
  let canvas := append canvas (rect (width - 200) (height - 300) 200 300 1 0) in
  (* Gold accent lines *)
  let canvas := append canvas (setStrokeColor PremiumColors.GOLD) in
  let canvas := append canvas (setLineWidth 3) in
  let canvas := append canvas (line 50 (height - 120) (width - 50) (height - 120)) in
  let canvas := append canvas (line 50 120 (width - 50) 120) in
  (* Gold accent rectangle *)
  let canvas := append canvas (setFillColor PremiumColors.GOLD) in
  let canvas := append canvas (rect 50 (height - 140) 80 4 1 0) in
  (* Report type label *)
  let canvas := append canvas (setFillColor PremiumColors.GOLD) in
  let canvas := append canvas (setFont "Helvetica" 12) in
  let canvas := append canvas
    (drawString 50 (height - 100) "STRATEGIC MARKET INTELLIGENCE REPORT") in
  (* Main title *)
  let canvas := append canvas (setFillColor PremiumColors.WHITE) in
  let canvas := append canvas (setFont "Helvetica-Bold" 36) in
  let canvas := append canvas (drawString 50 (height - 200) "Global Antenna") in
  let canvas := append canvas (drawString 50 (height - 245) "Market Strategy") in
  (* Year badge *)
  let canvas := append canvas (setFillColor PremiumColors.GOLD) in
  let canvas := append canvas (setFont "Helvetica-Bold" 72) in
  let canvas := append canvas (drawString 50 (height - 340) "2026") in
  (* Subtitle *)
  let canvas := append canvas (setFillColor PremiumColors.GRAY_300) in
  let canvas := append canvas (setFont "Helvetica" 16) in
  let canvas := append canvas
    (drawString 50 (height - 400) "IoT and Robotics/Autonomous Systems Focus") in
  (* Target audience *)
  let canvas := append canvas (setFillColor PremiumColors.TEAL_LIGHT) in
  let canvas := append canvas (setFont "Helvetica-Oblique" 13) in
  let canvas := append canvas
    (drawString 50 (height - 430)
       "For German IoT Components Distributor & Systems Integrator") in
  (* Bottom section - Key highlights *)
  let canvas := append canvas (setFillColor PremiumColors.GRAY_200) in
  let canvas := append canvas (setFont "Helvetica-Bold" 11) in
  let canvas := append canvas (drawString 50 200 "KEY MARKET HIGHLIGHTS") in
  let canvas := append canvas (setFont "Helvetica" 10) in
  let canvas := append canvas (setFillColor PremiumColors.GRAY_300) in
  let highlights :=
    [ "$15B+ IoT Antenna Market by 2026";
      "20% CAGR Growth Through 2030";
      "Germany: $2.34B Robotics Market by 2032";
      "5G & mmWave Technology Acceleration" ] in
  let y_pos := 175 in
  let '(canvas, y_pos) :=
    fold_left
      (fun '(canvas, y_pos) h =>
         let canvas := append canvas (setFillColor PremiumColors.GOLD) in
         let canvas := append canvas (circle 55 (y_pos + 3) 3 1 0) in
         let canvas := append canvas (setFillColor PremiumColors.GRAY_300) in
         let canvas := append canvas (drawString 70 y_pos h) in
         (canvas, y_pos - 18))
      highlights (canvas, y_pos) in
  (* Footer *)
  let canvas := append canvas (setFillColor PremiumColors.GRAY_500) in
  let canvas := append canvas (setFont "Helvetica" 9) in
  let canvas := append canvas
    (drawString 50 50
       "December 2025  |  Strategic Planning Document  |  Classification: Confidential") in
  (* Company branding area *)
  let canvas := append canvas (setFillColor PremiumColors.NAVY_LIGHT) in
  let canvas := append canvas (roundRect (width - 200) 30 150 65 5 1 0) in
  let canvas := append canvas (setFillColor PremiumColors.GOLD) in
  let canvas := append canvas (setFont "Helvetica-Bold" 11) in
  let canvas := append canvas (drawCentredString (width - 125) 72 "CRIMSON SUN") in
  let canvas := append canvas (setFillColor PremiumColors.WHITE) in
  let canvas := append canvas (setFont "Helvetica-Bold" 9) in
  let canvas := append canvas (drawCentredString (width - 125) 58 "TECHNOLOGIES") in
  let canvas := append canvas (setFillColor PremiumColors.GRAY_300) in
  let canvas := append canvas (setFont "Helvetica" 7) in
  let canvas := append canvas
    (drawCentredString (width - 125) 42 "An Interstates & Vagabonds Company") in
  append canvas restoreState.

(** Adds header and footer to content pages. *)
Definition page_header_footer (canvas : Canvas) (doc : DocState) : Canvas :=
  let canvas := append canvas saveState in
  let '(width, height) := A4 in
  (* Header bar *)
  let canvas := append canvas (setFillColor PremiumColors.NAVY_DARK) in
  let canvas := append canvas (rect 0 (height - 40) width 40 1 0) in
  (* Header text *)
  let canvas := append canvas (setFillColor PremiumColors.WHITE) in
  let canvas := append canvas (setFont "Helvetica" 9) in
  let canvas := append canvas
    (drawString 50 (height - 27) "Global Antenna Market Strategy Report 2026") in
  (* Gold accent *)
  let canvas := append canvas (setFillColor PremiumColors.GOLD) in
  let canvas := append canvas (rect 0 (height - 43) width 3 1 0) in
  (* Footer *)
  let canvas := append canvas (setStrokeColor PremiumColors.GRAY_200) in
  let canvas := append canvas (setLineWidth 0.5) in
  let canvas := append canvas (line 50 45 (width - 50) 45) in
  let canvas := append canvas (setFillColor PremiumColors.GRAY_500) in
  let canvas := append canvas (setFont "Helvetica" 8) in
  let canvas := append canvas
    (drawString 50 30
       "Crimson Sun Technologies  |  IoT & Robotics/Autonomous Systems  |  German Market Focus") in
  (* Page number *)
  let canvas := append canvas (setFillColor PremiumColors.NAVY) in
  let canvas := append canvas (setFont "Helvetica-Bold" 10) in
  let canvas := append canvas
    (drawRightString (width - 50) 30 ("Page " ++ str_of_Z (page doc))%string) in
  (* Confidential watermark (subtle) *)
  let canvas := append canvas (setFillColor PremiumColors.GRAY_200) in
  let canvas := append canvas (setFont "Helvetica" 7) in
  let canvas := append canvas (drawRightString (width - 50) (height - 27) "CONFIDENTIAL") in
  append canvas restoreState.

(** ** Content builders *)

(** Builds table of contents. *)
Definition build_toc (styles : StyleSheet) : list Flowable :=
  let story := [] in
  let story := append story (Paragraph "Table of Contents" (getitem styles "ExecTitle")) in
  let story := append story (Spacer 1 20) in
  let toc_items :=
    [ ("1", "Executive Summary", "3");
      ("2", "Market Overview and Sizing", "4");
      (EmptyString, "Total Addressable Market", "4");
      (EmptyString, "Market Drivers and Growth Catalysts", "5");
      ("3", "Technology Trends and Product Evolution", "7");
      (EmptyString, "Antenna Type Segmentation", "7");
      (EmptyString, "Frequency Band Prioritization", "8");
      (EmptyString, "Key Technology Innovations", "9");
      ("4", "Competitive Landscape Analysis", "10");
      (EmptyString, "Global Manufacturers Ecosystem", "10");
      (EmptyString, "Market Share Dynamics", "12");
      ("5", "Regional Insights: Germany-Specific Opportunities", "13");
      (EmptyString, "German Industrial Robotics and IoT Market", "13");
      (EmptyString, "Regulatory Environment", "14");
      ("6", "Strategic Recommendations for 2026", "15");
      (EmptyString, "Product Portfolio Architecture", "15");
      (EmptyString, "Market Segmentation and Vertical Focus", "16");
      (EmptyString, "Distribution and Channel Strategy", "17");
      (EmptyString, "Technical Capability Development", "18");
      (EmptyString, "Partnerships and Strategic Alliances", "19");
      (EmptyString, "Pricing and Margin Strategy", "20");
      (EmptyString, "Marketing and Brand Positioning", "21");
      ("7", "Risk Analysis and Mitigation", "22");
      ("8", "Implementation Timeline", "23");
      ("9", "Success Metrics and KPIs", "24");
      ("10", "Conclusion", "25");
      (EmptyString, "References", "26") ] in
  let story :=
    fold_left
      (fun story '(num, title, page) =>
         let '(style, prefix) :=
           if truthy num then ((getitem styles "TOCSection"), ("<b>" ++ num ++ ".</b> ")%string)
           else ((getitem styles "TOCEntry"), "     ") in
         let text := (prefix ++ title ++ " " ++ (str_mul "." 50%Z) ++ " " ++ page)%string in
         let story := append story (Paragraph (str_prefix text 80%Z) style) in
         story)
      toc_items story in
  let story := append story PageBreak in
  story.

(** Builds the executive summary section. *)
Definition build_executive_summary (styles : StyleSheet) : list Flowable :=
  let story := [] in
  let story := append story (OfChapterHeader (ChapterHeader.__init__ 1%Z "Executive Summary" 450)) in
  let story := append story (Spacer 1 20) in
  let metrics_data : list (list Cell) :=
    [ [inr (OfKeyMetricBox (KeyMetricBox.__init__ "$15B+" "IoT Antenna Market 2026" KeyMetricBox.default_width KeyMetricBox.default_height (Some PremiumColors.TEAL)));
       inr (OfKeyMetricBox (KeyMetricBox.__init__ "20%" "CAGR Through 2030" KeyMetricBox.default_width KeyMetricBox.default_height (Some PremiumColors.GOLD)));
       inr (OfKeyMetricBox (KeyMetricBox.__init__ "$3.5B" "Drone Antenna Market 2033" KeyMetricBox.default_width KeyMetricBox.default_height (Some PremiumColors.CHART_3)));
       inr (OfKeyMetricBox (KeyMetricBox.__init__ "16.4%" "German Robotics CAGR" KeyMetricBox.default_width KeyMetricBox.default_height (Some PremiumColors.CHART_4)))] ] in
  let metrics_table := Table metrics_data [125; 125; 125; 125] [] in
  let metrics_table := setStyle metrics_table (TableStyle [
      ("ALIGN", (0%Z, 0%Z), ((-1)%Z, (-1)%Z), [CStr "CENTER"]);
      ("VALIGN", (0%Z, 0%Z), ((-1)%Z, (-1)%Z), [CStr "MIDDLE"]) ]) in
  let story := append story metrics_table in
  let story := append story (Spacer 1 25) in
  let exec_text := "The global antenna market for Internet of Things (IoT) and autonomous systems is
    experiencing unprecedented growth, presenting significant strategic opportunities for German
    components distributors and systems integrators entering 2026. The IoT antenna segment alone
    is projected to exceed USD 15 billion by 2026, growing at a compound annual growth rate (CAGR)
    of over 20% through 2030." in
  let story := append story (Paragraph exec_text (getitem styles "PremiumBody")) in
  let exec_text2 := "When combined with the robotics, autonomous mobile robots (AMR), and drone
    communication segments, the addressable market spans multiple high-growth verticals with
    distinct technology requirements and regional opportunities. This report provides a comprehensive
    analysis specifically tailored for a German distributor seeking to maximize market share in 2026." in
  let story := append story (Paragraph exec_text2 (getitem styles "PremiumBody")) in
  let story := append story (Spacer 1 15) in
  let story := append story (Paragraph "<b>KEY FINDINGS</b>" (getitem styles "SubsectionHeader")) in
  let findings :=
    [ "Global IoT antenna market projected at <b>$1.73 billion in 2026</b>, accelerating to $3.58 billion by 2030";
      "Drone/UAV antenna market growing at <b>12.5% CAGR</b>, reaching $3.5 billion by 2033";
      "Autonomous mobile robot communication segment expanding at <b>15% CAGR</b>, driven by warehouse automation";
      "Germany-specific industrial robotics market: <b>$0.82B (2024) → $2.34B (2032)</b> at 16.4% CAGR";
      "5G and sub-6 GHz spectrum adoption accelerating IoT device proliferation";
      "Phased array antennas (MIMO, beamforming) becoming essential for high-bandwidth autonomous applications";
      "Regulatory environment increasingly favorable for autonomous systems with standardized EU framework" ] in
  let story :=
    fold_left
      (fun story finding =>
         let bullet_para := Paragraph ("• " ++ finding)%string (getitem styles "BulletText") in
         let story := append story bullet_para in
         story)
      findings story in
  let story := append story PageBreak in
  story.

(** Builds the market overview section. *)
Definition build_market_overview (styles : StyleSheet) : list Flowable :=
  let story := [] in
  let story := append story (OfChapterHeader (ChapterHeader.__init__ 2%Z "Market Overview and Sizing" 450)) in
  let story := append story (Spacer 1 20) in
  let story := append story (Paragraph "Total Addressable Market (TAM)" (getitem styles "SubsectionHeader")) in
  let tam_text := "The antenna market encompasses diverse applications and frequency bands. The broader
    antenna market (all segments) is valued at USD 25.31 billion in 2025 and projected to reach
    USD 36.93 billion by 2030 at a CAGR of 7.85%. Within this landscape, three primary segments
    are highly relevant for your organization." in
  let story := append story (Paragraph tam_text (getitem styles "PremiumBody")) in
  let story := append story (Spacer 1 15) in
  let story := append story (Paragraph "Primary Market Segments" (getitem styles "H3Header")) in
  let segments_data : list (list Cell) :=
    [ [inr (Paragraph "<b>Segment</b>" (getitem styles "TableHeader"));
       inr (Paragraph "<b>2024 Size</b>" (getitem styles "TableHeader"));
       inr (Paragraph "<b>2026 Projected</b>" (getitem styles "TableHeader"));
       inr (Paragraph "<b>2030+ Target</b>" (getitem styles "TableHeader"));
       inr (Paragraph "<b>CAGR</b>" (getitem styles "TableHeader"))];
      [inl "IoT Antennas"; inl "$1.2B"; inl "$1.73B"; inl "$3.58B (2030)"; inl "20%"];
      [inl "Drone/UAV Antennas"; inl "$1.2B"; inl "$1.52B"; inl "$3.5B (2033)"; inl "12.5%"];
      [inl "AMR Systems"; inl "$0.5B"; inl "$0.67B"; inl "$1.17B (2030)"; inl "15%"] ] in
  let segments_table := Table segments_data [120; 80; 90; 100; 60] [] in
  let segments_table := setStyle segments_table (TableStyle [
      ("BACKGROUND", (0%Z, 0%Z), ((-1)%Z, 0%Z), [CColor PremiumColors.NAVY]);
      ("TEXTCOLOR", (0%Z, 0%Z), ((-1)%Z, 0%Z), [CColor PremiumColors.WHITE]);
      ("ALIGN", (0%Z, 0%Z), ((-1)%Z, (-1)%Z), [CStr "CENTER"]);
      ("FONTNAME", (0%Z, 0%Z), ((-1)%Z, 0%Z), [CStr "Helvetica-Bold"]);
      ("FONTSIZE", (0%Z, 0%Z), ((-1)%Z, (-1)%Z), [CNum 9]);
      ("BOTTOMPADDING", (0%Z, 0%Z), ((-1)%Z, 0%Z), [CNum 12]);
      ("TOPPADDING", (0%Z, 0%Z), ((-1)%Z, 0%Z), [CNum 12]);
      ("BACKGROUND", (0%Z, 1%Z), ((-1)%Z, (-1)%Z), [CColor PremiumColors.GRAY_100]);
      ("ROWBACKGROUNDS", (0%Z, 1%Z), ((-1)%Z, (-1)%Z), [CColors [PremiumColors.WHITE; PremiumColors.GRAY_100]]);
      ("GRID", (0%Z, 0%Z), ((-1)%Z, (-1)%Z), [CNum 0.5; CColor PremiumColors.GRAY_200]);
      ("VALIGN", (0%Z, 0%Z), ((-1)%Z, (-1)%Z), [CStr "MIDDLE"]);
      ("BOTTOMPADDING", (0%Z, 1%Z), ((-1)%Z, (-1)%Z), [CNum 8]);
      ("TOPPADDING", (0%Z, 1%Z), ((-1)%Z, (-1)%Z), [CNum 8]) ]) in
  let story := append story segments_table in
  let story := append story (Paragraph "Source: Multiple industry analysts (see References)" (getitem styles "Caption")) in
  let callout_text := (dq ++ "The combined addressable market for IoT, robotics, and autonomous systems antennas
    is estimated at approximately <b>USD 5.5 billion globally in 2024</b>, projected to grow to
    <b>USD 8+ billion by 2028</b>, representing a compound opportunity of USD 18-20 billion over
    the next four years." ++ dq)%string in
  let story := append story (Spacer 1 10) in
  let story := append story (Paragraph callout_text (getitem styles "Callout")) in
  let story := append story (Spacer 1 20) in
  let story := append story (Paragraph "Market Drivers and Growth Catalysts" (getitem styles "SubsectionHeader")) in
  let story := append story (Paragraph "<b>1. Industry 4.0 and Digital Transformation</b>" (getitem styles "H3Header")) in
  let driver1_text := "Germany's industrial sector is undergoing systematic digital transformation driven
    by the Industry 4.0 initiative. This creates substantial demand for connected sensors and IoT devices
    on production lines, real-time communication systems for automated warehouses, and high-reliability,
    low-latency connectivity for autonomous robots." in
  let story := append story (Paragraph driver1_text (getitem styles "PremiumBody")) in
  let story := append story (Paragraph "<b>2. 5G Deployment and Spectrum Harmonization</b>" (getitem styles "H3Header")) in
  let driver2_text := "European 5G rollout is accelerating with harmonized spectrum bands now standardized.
    The 3.4-3.8 GHz band provides primary 5G coverage with 400 MHz harmonized across EU, while the
    26 GHz band enables high-capacity mmWave for industrial applications." in
  let story := append story (Paragraph driver2_text (getitem styles "PremiumBody")) in
  let spectrum_data : list (list Cell) :=
    [ [inr (Paragraph "<b>Band</b>" (getitem styles "TableHeader"));
       inr (Paragraph "<b>Frequency</b>" (getitem styles "TableHeader"));
       inr (Paragraph "<b>Application</b>" (getitem styles "TableHeader"))];
      [inl "Primary 5G"; inl "3.4-3.8 GHz"; inl "Industrial IoT, main coverage"];
      [inl "mmWave"; inl "26 GHz"; inl "High-capacity industrial automation"];
      [inl "Sub-6 GHz"; inl "700 MHz, 2.6 GHz"; inl "Nationwide IoT coverage"] ] in
  let spectrum_table := Table spectrum_data [100; 120; 230] [] in
  let spectrum_table := setStyle spectrum_table (TableStyle [
      ("BACKGROUND", (0%Z, 0%Z), ((-1)%Z, 0%Z), [CColor PremiumColors.TEAL]);
      ("TEXTCOLOR", (0%Z, 0%Z), ((-1)%Z, 0%Z), [CColor PremiumColors.WHITE]);
      ("ALIGN", (0%Z, 0%Z), ((-1)%Z, (-1)%Z), [CStr "LEFT"]);
      ("FONTNAME", (0%Z, 0%Z), ((-1)%Z, 0%Z), [CStr "Helvetica-Bold"]);
      ("FONTSIZE", (0%Z, 0%Z), ((-1)%Z, (-1)%Z), [CNum 9]);
      ("BOTTOMPADDING", (0%Z, 0%Z), ((-1)%Z, (-1)%Z), [CNum 8]);
      ("TOPPADDING", (0%Z, 0%Z), ((-1)%Z, (-1)%Z), [CNum 8]);
      ("ROWBACKGROUNDS", (0%Z, 1%Z), ((-1)%Z, (-1)%Z), [CColors [PremiumColors.WHITE; PremiumColors.GRAY_100]]);
      ("GRID", (0%Z, 0%Z), ((-1)%Z, (-1)%Z), [CNum 0.5; CColor PremiumColors.GRAY_200]) ]) in
  let story := append story spectrum_table in
  let story := append story (Spacer 1 15) in
  let story := append story (Paragraph "<b>3. Autonomous Systems Market Expansion</b>" (getitem styles "H3Header")) in
  let driver3_text := "Multiple autonomous system categories are driving antenna demand. The drone market
    is projected at USD 45.8 billion by 2025 growing at 20.5% CAGR, with commercial applications
    (42.7% of market) increasingly dominating over military. The global AMR market is expected to
    grow from $2.01 billion (2024) to $4.56 billion (2030) at 15.1% CAGR." in
  let story := append story (Paragraph driver3_text (getitem styles "PremiumBody")) in
  let story := append story (Paragraph "<b>4. AI-Driven Optimization and Adaptive Antenna Systems</b>" (getitem styles "H3Header")) in
  let driver4_text := ("Emerging trends in phased array and MIMO antenna technology include AI-enabled
    beamforming for optimized signal transmission, adaptive antenna tuning reducing energy consumption,
    and predictive antenna performance optimization for autonomous systems. This creates differentiation
    opportunities for distributors offering " ++ dq ++ "intelligent antenna solutions" ++ dq ++ " with embedded optimization capabilities.")%string in
  let story := append story (Paragraph driver4_text (getitem styles "PremiumBody")) in
  let story := append story (Paragraph "<b>5. Labor Shortages and Automation Imperative</b>" (getitem styles "H3Header")) in
  let driver5_text := "Germany faces structural labor shortage challenges including aging workforce
    demographics, persistent skilled labor shortages across logistics and production, and rising
    labor costs driving ROI optimization on automation. Companies investing in robotics require
    reliable wireless infrastructure to maximize ROI on these capital-intensive investments." in
  let story := append story (Paragraph driver5_text (getitem styles "PremiumBody")) in
  let story := append story PageBreak in
  story.

(** Builds the technology trends section. *)
Definition build_technology_trends (styles : StyleSheet) : list Flowable :=
  let story := [] in
  let story := append story (OfChapterHeader (ChapterHeader.__init__ 3%Z "Technology Trends and Product Evolution" 450)) in
  let story := append story (Spacer 1 20) in
  let intro_text := "The antenna market is evolving toward integrated, multi-functional solutions
    supporting diverse frequency bands and performance requirements. Understanding these technology
    trends is critical for portfolio decisions and competitive positioning." in
  let story := append story (Paragraph intro_text (getitem styles "PremiumBody")) in
  let story := append story (Spacer 1 15) in
  let story := append story (Paragraph "Antenna Type Segmentation" (getitem styles "SubsectionHeader")) in
  let antenna_types :=
    [ ("1. PCB Antennas (Antenna-on-Board)", "Compact, cost-effective, integrated into device PCBs. Best for mass-market IoT devices, wearables, low-power sensors. Entry-level segment with high volume but lower margins.");
      ("2. Chip Antennas and LDS (Laser Direct Structuring)", "Miniaturized, flexible 3D designs with multiple band support. 15-20% CAGR growth as form-factor constraints increase. High-value market with stronger margins for specialized applications.");
      ("3. Phased Array Antennas and MIMO Systems", "Electronic beam steering, beamforming, multiple simultaneous beams. Critical for 5G infrastructure, autonomous vehicles, and high-performance robotics. mmWave segment growing at 21.6% CAGR.");
      ("4. Integrated Antenna Modules (AiP)", "Complete antenna system with RF front-end integrated into single package. Fastest-growing antenna technology segment. Requires deep integration partnerships and technical expertise.");
      ("5. SATCOM Antennas", "Multi-band (L, Ku, C, X), high-performance directional solutions. Niche but high-value for extended-range autonomous systems combining terrestrial and satellite connectivity.") ] in
  let story :=
    fold_left
      (fun story '(title, desc) =>
         let story := append story (Paragraph ("<b>" ++ title ++ "</b>")%string (getitem styles "H3Header")) in
         let story := append story (Paragraph desc (getitem styles "PremiumBody")) in
         story)
      antenna_types story in
  let story := append story (Spacer 1 15) in
  let story := append story (Paragraph "Key Technology Innovations Reshaping the Market" (getitem styles "SubsectionHeader")) in
  let innovations :=
    [ "<b>Beamforming and Adaptive Antenna Control:</b> Electronic beam steering eliminating mechanical repositioning. AI-driven beam optimization reducing power consumption 15-30%.";
      "<b>MIMO and Spatial Multiplexing:</b> Multiple antenna elements enabling parallel data streams. Performance scaling with antenna element count (8x, 16x, 32x arrays increasingly common).";
      "<b>Antenna-in-Package Integration:</b> Reduces system size, power consumption, and manufacturing complexity. Enables faster device design cycles.";
      "<b>Multi-Band Integration:</b> Single antenna supporting 4-8 frequency bands simultaneously. Cost reduction and future-proofing as spectrum allocations evolve.";
      "<b>Energy Efficiency Optimization:</b> Low-power antenna designs extending battery life. Power-efficient beamforming reducing transmit power requirements 20-40%." ] in
  let story :=
    fold_left
      (fun story innovation =>
         let story := append story (Paragraph ("• " ++ innovation)%string (getitem styles "BulletText")) in
         story)
      innovations story in
  let story := append story PageBreak in
  story.

(** Builds the competitive landscape section. *)
Definition build_competitive_landscape (styles : StyleSheet) : list Flowable :=
  let story := [] in
  let story := append story (OfChapterHeader (ChapterHeader.__init__ 4%Z "Competitive Landscape Analysis" 450)) in
  let story := append story (Spacer 1 20) in
  let intro_text := "The antenna manufacturing industry is characterized by large infrastructure companies
    dominating telecom basestation segments, specialized manufacturers serving IoT and vertical applications,
    and emerging pure-play antenna technology companies focusing on advanced solutions." in
  let story := append story (Paragraph intro_text (getitem styles "PremiumBody")) in
  let story := append story (Spacer 1 15) in
  let story := append story (Paragraph "Tier 1 Global Players" (getitem styles "SubsectionHeader")) in
  let competitors_data : list (list Cell) :=
    [ [inr (Paragraph "<b>Company</b>" (getitem styles "TableHeader"));
       inr (Paragraph "<b>HQ</b>" (getitem styles "TableHeader"));
       inr (Paragraph "<b>Specialization</b>" (getitem styles "TableHeader"));
       inr (Paragraph "<b>Market Position</b>" (getitem styles "TableHeader"));
       inr (Paragraph "<b>Strategic Relevance</b>" (getitem styles "TableHeader"))];
      [inl "Huawei";
       inl "China";
       inl "Telecom infrastructure, 5G, IoT modules";
       inl "Market leader (~15% share)";
       inl "Cost competition"];
      [inl "Ericsson";
       inl "Sweden";
       inl "5G macro antennas, beamforming";
       inl "Tier 1 infrastructure";
       inl "Partnership opportunity"];
      [inl "CommScope";
       inl "USA";
       inl "Wireless infrastructure, passive/active";
       inl "Market incumbent";
       inl "Established distribution"];
      [inl "Amphenol";
       inl "USA";
       inl "Diverse portfolio (PCB, chip, LDS)";
       inl "Growing IoT specialist";
       inl "Compatible partner model"];
      [inl "Taoglas";
       inl "Ireland";
       inl "IoT antennas, 5G/LTE, automotive";
       inl "Focused IoT player";
       inl "Technical expertise"];
      [inl "Kathrein";
       inl "Germany";
       inl "Telecom, 5G, automotive";
       inl "European heritage";
       inl "Competitor + potential partner"];
      [inl "Murata";
       inl "Japan";
       inl "Integrated modules, chip antennas, AiP";
       inl "Miniaturization leader";
       inl "Premium positioning"] ] in
  let comp_table := Table competitors_data [70; 50; 130; 100; 100] [] in
  let comp_table := setStyle comp_table (TableStyle [
      ("BACKGROUND", (0%Z, 0%Z), ((-1)%Z, 0%Z), [CColor PremiumColors.NAVY]);
      ("TEXTCOLOR", (0%Z, 0%Z), ((-1)%Z, 0%Z), [CColor PremiumColors.WHITE]);
      ("ALIGN", (0%Z, 0%Z), ((-1)%Z, (-1)%Z), [CStr "LEFT"]);
      ("FONTNAME", (0%Z, 0%Z), ((-1)%Z, 0%Z), [CStr "Helvetica-Bold"]);
      ("FONTSIZE", (0%Z, 0%Z), ((-1)%Z, (-1)%Z), [CNum 8]);
      ("BOTTOMPADDING", (0%Z, 0%Z), ((-1)%Z, (-1)%Z), [CNum 6]);
      ("TOPPADDING", (0%Z, 0%Z), ((-1)%Z, (-1)%Z), [CNum 6]);
      ("ROWBACKGROUNDS", (0%Z, 1%Z), ((-1)%Z, (-1)%Z), [CColors [PremiumColors.WHITE; PremiumColors.GRAY_100]]);
      ("GRID", (0%Z, 0%Z), ((-1)%Z, (-1)%Z), [CNum 0.5; CColor PremiumColors.GRAY_200]);
      ("VALIGN", (0%Z, 0%Z), ((-1)%Z, (-1)%Z), [CStr "TOP"]) ]) in
  let story := append story comp_table in
  let story := append story (Spacer 1 15) in
  let story := append story (Paragraph "Market Share Dynamics (2025)" (getitem styles "SubsectionHeader")) in
  let share_text := "The antenna market is fragmented, with no single company holding >20% global share.
    Regional variations are significant, with North America representing 35% of total market value,
    Europe at 30%, Asia-Pacific at 25%, and emerging markets at 10%." in
  let story := append story (Paragraph share_text (getitem styles "PremiumBody")) in
  let story := append story (Spacer 1 10) in
  let story := append story (Paragraph "Competitive Advantages for German Distributors" (getitem styles "SubsectionHeader")) in
  let advantages :=
    [ "<b>Engineering & Systems Integration Expertise:</b> Differentiate through application-specific antenna design consulting and integration services";
      "<b>Quality and Reliability Standards:</b> German engineering reputation supports premium positioning in European markets";
      "<b>Local Presence:</b> Proximity to major manufacturing clusters (Bavaria, Baden-Württemberg) enables faster support and customization";
      "<b>Industry 4.0 Alignment:</b> Deep understanding of Industry 4.0 requirements positions distributor as trusted advisor";
      "<b>Regulatory Expertise:</b> Familiarity with European spectrum requirements provides advantage over non-European competitors";
      "<b>Sustainability/ESG:</b> German stakeholders increasingly demand environmental compliance and lifecycle sustainability" ] in
  let story :=
    fold_left
      (fun story adv =>
         let story := append story (Paragraph ("• " ++ adv)%string (getitem styles "BulletText")) in
         story)
      advantages story in
  let story := append story PageBreak in
  story.

(** Builds the Germany-specific regional insights section. *)
Definition build_regional_insights (styles : StyleSheet) : list Flowable :=
  let story := [] in
  let story := append story (OfChapterHeader (ChapterHeader.__init__ 5%Z "Regional Insights: Germany" 450)) in
  let story := append story (Spacer 1 20) in
  let story := append story (Paragraph "German Industrial Robotics and IoT Market Context" (getitem styles "SubsectionHeader")) in
  let context_text := "Germany's manufacturing sector is at the epicenter of global robotics and automation
    adoption. The German warehouse robotics market is projected to grow from USD 0.82 billion (2024)
    to USD 2.34 billion (2032) at 16.4% CAGR. The global robotics technology market is projected at
    €150.7 billion by 2028 at 13% CAGR, with Germany as a key hub." in
  let story := append story (Paragraph context_text (getitem styles "PremiumBody")) in
  let story := append story (Spacer 1 15) in
  let story := append story (Paragraph "Geographic Concentration" (getitem styles "H3Header")) in
  let geo_data : list (list Cell) :=
    [ [inr (Paragraph "<b>Region</b>" (getitem styles "TableHeader"));
       inr (Paragraph "<b>Market Share</b>" (getitem styles "TableHeader"));
       inr (Paragraph "<b>Key Industries & Players</b>" (getitem styles "TableHeader"))];
      [inl "Bavaria";
       inl "30%";
       inl "Munich, Nuremberg tech corridors; BMW, Audi, Siemens, Infineon"];
      [inl "Baden-Württemberg";
       inl "25%";
       inl "Stuttgart automotive cluster; Mercedes-Benz, Porsche, Bosch, Festo"];
      [inl "North Rhine-Westphalia";
       inl "20%";
       inl "Industrial manufacturing; chemical industry concentration"];
      [inl "Lower Saxony"; inl "15%"; inl "Volkswagen Wolfsburg; agricultural processing"];
      [inl "Eastern Germany";
       inl "10%";
       inl "Emerging manufacturing centers in Saxony, Thuringia"] ] in
  let geo_table := Table geo_data [130; 80; 240] [] in
  let geo_table := setStyle geo_table (TableStyle [
      ("BACKGROUND", (0%Z, 0%Z), ((-1)%Z, 0%Z), [CColor PremiumColors.GOLD]);
      ("TEXTCOLOR", (0%Z, 0%Z), ((-1)%Z, 0%Z), [CColor PremiumColors.NAVY_DARK]);
      ("FONTNAME", (0%Z, 0%Z), ((-1)%Z, 0%Z), [CStr "Helvetica-Bold"]);
      ("FONTSIZE", (0%Z, 0%Z), ((-1)%Z, (-1)%Z), [CNum 9]);
      ("BOTTOMPADDING", (0%Z, 0%Z), ((-1)%Z, (-1)%Z), [CNum 8]);
      ("TOPPADDING", (0%Z, 0%Z), ((-1)%Z, (-1)%Z), [CNum 8]);
      ("ROWBACKGROUNDS", (0%Z, 1%Z), ((-1)%Z, (-1)%Z), [CColors [PremiumColors.WHITE; PremiumColors.GRAY_100]]);
      ("GRID", (0%Z, 0%Z), ((-1)%Z, (-1)%Z), [CNum 0.5; CColor PremiumColors.GRAY_200]) ]) in
  let story := append story geo_table in
  let story := append story (Spacer 1 20) in
  let story := append story (Paragraph "Regulatory Environment" (getitem styles "SubsectionHeader")) in
  let story := append story (Paragraph "<b>5G Spectrum Allocation (Germany)</b>" (getitem styles "H3Header")) in
  let reg_text := "Germany implements EU-harmonized regulations with additional national requirements.
    The 3.4-3.8 GHz band (300 MHz auctioned to major carriers) is the primary 5G deployment band.
    The 26 GHz band is reserved for high-capacity, local, and vertical applications with increasing
    allocation to private industrial networks." in
  let story := append story (Paragraph reg_text (getitem styles "PremiumBody")) in
  let story := append story (Paragraph "<b>Strategic Implications:</b>" (getitem styles "H3Header")) in
  let implications :=
    [ "Antenna portfolio should prioritize 3.4-3.8 GHz and 26 GHz solutions";
      "Private network antenna systems are emerging vertical opportunity in industrial zones";
      "Sub-6 GHz antennas remain essential for broad IoT device coverage" ] in
  let story :=
    fold_left
      (fun story imp =>
         let story := append story (Paragraph ("• " ++ imp)%string (getitem styles "BulletText")) in
         story)
      implications story in
  let story := append story (Spacer 1 15) in
  let story := append story (Paragraph "<b>Drone and Autonomous Systems Regulation</b>" (getitem styles "H3Header")) in
  let drone_text := ("German law implements EASA standards with national enhancements. Drones under 25kg
    are classified as " ++ dq ++ "open category" ++ dq ++ " requiring operator identification/registration. Autonomous drone
    operations (beyond visual line of sight) are restricted to specific authorized corridors.
    This regulatory complexity creates consulting and integration opportunities.")%string in
  let story := append story (Paragraph drone_text (getitem styles "PremiumBody")) in
  let story := append story PageBreak in
  story.

(** Builds the strategic recommendations section. *)
Definition build_strategic_recommendations (styles : StyleSheet) : list Flowable :=
  let story := [] in
  let story := append story (OfChapterHeader (ChapterHeader.__init__ 6%Z "Strategic Recommendations for 2026" 450)) in
  let story := append story (Spacer 1 20) in
  let story := append story (Paragraph "1. Product Portfolio Architecture" (getitem styles "SubsectionHeader")) in
  let portfolio_text := "A tiered portfolio approach balances volume, margin, and strategic positioning:" in
  let story := append story (Paragraph portfolio_text (getitem styles "PremiumBody")) in
  let portfolio_data : list (list Cell) :=
    [ [inr (Paragraph "<b>Tier</b>" (getitem styles "TableHeader"));
       inr (Paragraph "<b>Focus (%)</b>" (getitem styles "TableHeader"));
       inr (Paragraph "<b>Products</b>" (getitem styles "TableHeader"));
       inr (Paragraph "<b>Margin Target</b>" (getitem styles "TableHeader"))];
      [inl "Tier A: Core High-Volume";
       inl "70%";
       inl "Sub-6 GHz antennas (700 MHz, 2.6 GHz, 3.4-3.8 GHz)";
       inl "20-35%"];
      [inl "Tier B: Differentiated";
       inl "20%";
       inl "26 GHz mmWave, Phased array/MIMO, AiP modules";
       inl "35-50%"];
      [inl "Tier C: Emerging/Specialized";
       inl "10%";
       inl "SATCOM integrated, AI-optimized, multi-band agile";
       inl "40-60%"] ] in
  let portfolio_table := Table portfolio_data [120; 60; 200; 70] [] in
  let portfolio_table := setStyle portfolio_table (TableStyle [
      ("BACKGROUND", (0%Z, 0%Z), ((-1)%Z, 0%Z), [CColor PremiumColors.NAVY]);
      ("TEXTCOLOR", (0%Z, 0%Z), ((-1)%Z, 0%Z), [CColor PremiumColors.WHITE]);
      ("FONTNAME", (0%Z, 0%Z), ((-1)%Z, 0%Z), [CStr "Helvetica-Bold"]);
      ("FONTSIZE", (0%Z, 0%Z), ((-1)%Z, (-1)%Z), [CNum 9]);
      ("BOTTOMPADDING", (0%Z, 0%Z), ((-1)%Z, (-1)%Z), [CNum 8]);
      ("TOPPADDING", (0%Z, 0%Z), ((-1)%Z, (-1)%Z), [CNum 8]);
      ("ROWBACKGROUNDS", (0%Z, 1%Z), ((-1)%Z, (-1)%Z), [CColors [PremiumColors.WHITE; PremiumColors.GRAY_100]]);
      ("GRID", (0%Z, 0%Z), ((-1)%Z, (-1)%Z), [CNum 0.5; CColor PremiumColors.GRAY_200]) ]) in
  let story := append story portfolio_table in
  let story := append story (Spacer 1 20) in
  let story := append story (Paragraph "2. Market Segmentation and Vertical Focus" (getitem styles "SubsectionHeader")) in
  let verticals :=
    [ ("Vertical 1: Warehouse Automation & E-Commerce Logistics", "HIGHEST PRIORITY", "AMR market growing 18.8% CAGR. Target 3PL providers, e-commerce fulfillment, warehouse automation companies. Margin profile: 30-45%.");
      ("Vertical 2: Autonomous Vehicles and Robotics", "HIGH PRIORITY", "Autonomous navigation market $3.27B → $15.91B at 17.1% CAGR. Target automotive suppliers, robotics OEMs. Margin profile: 25-40%.");
      ("Vertical 3: Industrial IoT and Smart Manufacturing", "HIGH PRIORITY", "German Industry 4.0 adoption driving private network deployments. Target precision manufacturing, automotive suppliers. Margin profile: 40-55%.");
      ("Vertical 4: Commercial Drones", "MEDIUM PRIORITY", "Drone market $45.8B growing at 20.5% CAGR. Target drone manufacturers, commercial operators. Margin profile: 35-50%.") ] in
  let story :=
    fold_left
      (fun story '(title, priority, desc) =>
         let story := append story (Paragraph ("<b>" ++ title ++ "</b> <font color='#C9A227'>[" ++ priority ++ "]</font>")%string (getitem styles "H3Header")) in
         let story := append story (Paragraph desc (getitem styles "PremiumBody")) in
         story)
      verticals story in
  let story := append story (Spacer 1 15) in
  let story := append story (Paragraph "3. Distribution and Channel Strategy" (getitem styles "SubsectionHeader")) in
  let channel_data : list (list Cell) :=
    [ [inr (Paragraph "<b>Channel</b>" (getitem styles "TableHeader"));
       inr (Paragraph "<b>Revenue Target</b>" (getitem styles "TableHeader"));
       inr (Paragraph "<b>Focus</b>" (getitem styles "TableHeader"))];
      [inl "Direct Sales";
       inl "40%";
       inl "Tier 1/2 customers, OEMs, major system integrators"];
      [inl "Engineering Partners";
       inl "25%";
       inl "Systems integrators specializing in automation, IIoT"];
      [inl "Reseller Networks"; inl "20%"; inl "Industrial electronics distributors"];
      [inl "OEM Partnerships";
       inl "15%";
       inl "Exclusive/preferred supplier arrangements with drone/robotics OEMs"] ] in
  let channel_table := Table channel_data [120; 90; 240] [] in
  let channel_table := setStyle channel_table (TableStyle [
      ("BACKGROUND", (0%Z, 0%Z), ((-1)%Z, 0%Z), [CColor PremiumColors.TEAL]);
      ("TEXTCOLOR", (0%Z, 0%Z), ((-1)%Z, 0%Z), [CColor PremiumColors.WHITE]);
      ("FONTNAME", (0%Z, 0%Z), ((-1)%Z, 0%Z), [CStr "Helvetica-Bold"]);
      ("FONTSIZE", (0%Z, 0%Z), ((-1)%Z, (-1)%Z), [CNum 9]);
      ("BOTTOMPADDING", (0%Z, 0%Z), ((-1)%Z, (-1)%Z), [CNum 8]);
      ("TOPPADDING", (0%Z, 0%Z), ((-1)%Z, (-1)%Z), [CNum 8]);
      ("ROWBACKGROUNDS", (0%Z, 1%Z), ((-1)%Z, (-1)%Z), [CColors [PremiumColors.WHITE; PremiumColors.GRAY_100]]);
      ("GRID", (0%Z, 0%Z), ((-1)%Z, (-1)%Z), [CNum 0.5; CColor PremiumColors.GRAY_200]) ]) in
  let story := append story channel_table in
  let story := append story (Spacer 1 15) in
  let story := append story (Paragraph "4. Technical Capability Development" (getitem styles "SubsectionHeader")) in
  let capabilities :=
    [ "<b>Antenna Measurement and Testing Lab</b> (€150-300K investment): Network analyzer, anechoic chamber partnership. Enables premium pricing for validated solutions.";
      "<b>RF Design and Integration Consulting</b> (€250-400K annually): 2-3 RF engineers with antenna design background. Enables 40-55% margin on engineering services.";
      "<b>5G Private Network Architecture Expertise</b> (€80-150K training): Advanced training in private 5G network design. High-margin vertical in German industrial market.";
      "<b>Drone Connectivity Consulting</b> (€100-200K development): Extended-range antenna solutions, telemetry optimization. 35-50% margins on system offerings." ] in
  let story :=
    fold_left
      (fun story cap =>
         let story := append story (Paragraph ("• " ++ cap)%string (getitem styles "BulletText")) in
         story)
      capabilities story in
  let story := append story PageBreak in
  let story := append story (Paragraph "5. Partnerships and Strategic Alliances" (getitem styles "SubsectionHeader")) in
  let story := append story (Paragraph "<b>Tier 1 Supplier Relationships:</b>" (getitem styles "H3Header")) in
  let suppliers :=
    [ "Amphenol (primary multi-line supplier): Negotiate exclusive distributor status for German regions/verticals";
      "Taoglas (IoT specialist): Deep technical partnership for IoT antenna integration";
      "Murata (premium/innovation): Technology partnership for advanced antenna modules and AiP solutions" ] in
  let story :=
    fold_left
      (fun story s =>
         let story := append story (Paragraph ("• " ++ s)%string (getitem styles "BulletText")) in
         story)
      suppliers story in
  let story := append story (Paragraph "<b>Industry Partnerships:</b>" (getitem styles "H3Header")) in
  let industry :=
    [ "ZVEI (German Electrical and Electronics Manufacturers Association)";
      "Regional robotics clusters and university research centers (TUM, KIT)";
      "RF simulation software partnerships (Keysight, CST Studio)" ] in
  let story :=
    fold_left
      (fun story i =>
         let story := append story (Paragraph ("• " ++ i)%string (getitem styles "BulletText")) in
         story)
      industry story in
  let story := append story (Spacer 1 15) in
  let story := append story (Paragraph "6. Pricing and Margin Strategy" (getitem styles "SubsectionHeader")) in
  let pricing_data : list (list Cell) :=
    [ [inr (Paragraph "<b>Customer Type</b>" (getitem styles "TableHeader"));
       inr (Paragraph "<b>Volume</b>" (getitem styles "TableHeader"));
       inr (Paragraph "<b>Discount</b>" (getitem styles "TableHeader"));
       inr (Paragraph "<b>Margin</b>" (getitem styles "TableHeader"));
       inr (Paragraph "<b>Service Level</b>" (getitem styles "TableHeader"))];
      [inl "Large OEM (>50k units/yr)";
       inl "50,000+";
       inl "25-35%";
       inl "20-25%";
       inl "Full tech support, dedicated account"];
      [inl "Mid-size integrator";
       inl "5,000-20,000";
       inl "15-20%";
       inl "30-35%";
       inl "Technical support, training"];
      [inl "Small integrator/reseller";
       inl "<5,000";
       inl "5-10%";
       inl "35-45%";
       inl "Standard support, online resources"];
      [inl "Direct project-based";
       inl "Per project";
       inl "10-20%";
       inl "40-55%";
       inl "Full engineering services"] ] in
  let pricing_table := Table pricing_data [100; 70; 60; 55; 165] [] in
  let pricing_table := setStyle pricing_table (TableStyle [
      ("BACKGROUND", (0%Z, 0%Z), ((-1)%Z, 0%Z), [CColor PremiumColors.NAVY]);
      ("TEXTCOLOR", (0%Z, 0%Z), ((-1)%Z, 0%Z), [CColor PremiumColors.WHITE]);
      ("FONTNAME", (0%Z, 0%Z), ((-1)%Z, 0%Z), [CStr "Helvetica-Bold"]);
      ("FONTSIZE", (0%Z, 0%Z), ((-1)%Z, (-1)%Z), [CNum 8]);
      ("BOTTOMPADDING", (0%Z, 0%Z), ((-1)%Z, (-1)%Z), [CNum 6]);
      ("TOPPADDING", (0%Z, 0%Z), ((-1)%Z, (-1)%Z), [CNum 6]);
      ("ROWBACKGROUNDS", (0%Z, 1%Z), ((-1)%Z, (-1)%Z), [CColors [PremiumColors.WHITE; PremiumColors.GRAY_100]]);
      ("GRID", (0%Z, 0%Z), ((-1)%Z, (-1)%Z), [CNum 0.5; CColor PremiumColors.GRAY_200]) ]) in
  let story := append story pricing_table in
  let story := append story (Spacer 1 15) in
  let story := append story (Paragraph "7. Marketing and Brand Positioning" (getitem styles "SubsectionHeader")) in
  let positioning_text := ("<b>Core Positioning:</b> " ++ dq ++ "The trusted German antenna solutions partner for autonomous
    systems and Industrial 4.0 – combining global supply chain reach with local engineering expertise." ++ dq)%string in
  let story := append story (Paragraph positioning_text (getitem styles "PremiumBody")) in
  let story := append story (Paragraph "<b>Key Messages:</b>" (getitem styles "H3Header")) in
  let messages :=
    [ "Engineering Excellence: German engineering heritage applied to modern antenna challenges";
      "Vertical Expertise: Deep understanding of robotics, automation, and autonomous systems";
      "Local Advantage: Proximity to major manufacturing clusters; rapid response";
      "Future-Proof Solutions: Portfolio addressing today's 5G and tomorrow's 6G evolution" ] in
  let story :=
    fold_left
      (fun story m =>
         let story := append story (Paragraph ("• " ++ m)%string (getitem styles "BulletText")) in
         story)
      messages story in
  let story := append story (Spacer 1 10) in
  let marketing_data : list (list Cell) :=
    [ [inr (Paragraph "<b>Channel</b>" (getitem styles "TableHeader"));
       inr (Paragraph "<b>Investment</b>" (getitem styles "TableHeader"));
       inr (Paragraph "<b>Focus</b>" (getitem styles "TableHeader"))];
      [inl "Digital/SEO/SEM"; inl "€80,000/yr"; inl "Lead generation for targeted keywords"];
      [inl "Trade Shows"; inl "€60,000/yr"; inl "HANNOVER MESSE, AUTOMATICA, LogiMAT"];
      [inl "Technical Content"; inl "€40,000/yr"; inl "Whitepapers, case studies, webinars"];
      [inl "Industry Sponsorship";
       inl "€50,000/yr";
       inl "ZVEI, DIN committees, robotics consortia"];
      [inl "Direct Account Mgmt"; inl "€150,000/yr"; inl "Key account development"];
      [inl "Total Budget"; inl "€380,000/yr"; inl EmptyString] ] in
  let mkt_table := Table marketing_data [130; 90; 230] [] in
  let mkt_table := setStyle mkt_table (TableStyle [
      ("BACKGROUND", (0%Z, 0%Z), ((-1)%Z, 0%Z), [CColor PremiumColors.GOLD]);
      ("TEXTCOLOR", (0%Z, 0%Z), ((-1)%Z, 0%Z), [CColor PremiumColors.NAVY_DARK]);
      ("FONTNAME", (0%Z, 0%Z), ((-1)%Z, 0%Z), [CStr "Helvetica-Bold"]);
      ("FONTSIZE", (0%Z, 0%Z), ((-1)%Z, (-1)%Z), [CNum 9]);
      ("BOTTOMPADDING", (0%Z, 0%Z), ((-1)%Z, (-1)%Z), [CNum 6]);
      ("TOPPADDING", (0%Z, 0%Z), ((-1)%Z, (-1)%Z), [CNum 6]);
      ("ROWBACKGROUNDS", (0%Z, 1%Z), ((-1)%Z, (-1)%Z), [CColors [PremiumColors.WHITE; PremiumColors.GRAY_100]]);
      ("GRID", (0%Z, 0%Z), ((-1)%Z, (-1)%Z), [CNum 0.5; CColor PremiumColors.GRAY_200]);
      ("BACKGROUND", (0%Z, (-1)%Z), ((-1)%Z, (-1)%Z), [CColor PremiumColors.NAVY_LIGHT]);
      ("TEXTCOLOR", (0%Z, (-1)%Z), ((-1)%Z, (-1)%Z), [CColor PremiumColors.WHITE]);
      ("FONTNAME", (0%Z, (-1)%Z), ((-1)%Z, (-1)%Z), [CStr "Helvetica-Bold"]) ]) in
  let story := append story mkt_table in
  let story := append story PageBreak in
  story.

(** Builds the risk analysis section. *)
Definition build_risk_analysis (styles : StyleSheet) : list Flowable :=
  let story := [] in
  let story := append story (OfChapterHeader (ChapterHeader.__init__ 7%Z "Risk Analysis and Mitigation" 450)) in
  let story := append story (Spacer 1 20) in
  let intro_text := "A comprehensive risk management framework is essential for navigating the dynamic
    antenna market. The following analysis identifies key risks and provides mitigation strategies." in
  let story := append story (Paragraph intro_text (getitem styles "PremiumBody")) in
  let story := append story (Spacer 1 15) in
  let risks :=
    [ ("Risk 1: Supply Chain Disruptions", "HIGH", "Component shortages leading to delivery delays and revenue loss.", "Maintain dual-source relationships; establish safety stock; develop secondary supplier relationships with Tier 2 manufacturers.");
      ("Risk 2: Aggressive Price Competition", "MEDIUM", "Margin compression from low-cost Asian competitors (Huawei, ZTT).", "Differentiate through value-added services; target premium market segments less price-sensitive.");
      ("Risk 3: Rapid Technology Obsolescence", "MEDIUM", "Inventory write-offs if antenna technology standards shift unexpectedly.", "Active monitoring of standards development (3GPP, IEEE 802.11); focus on broad multi-band solutions.");
      ("Risk 4: Regulatory Changes", "LOW", "Sudden spectrum band reallocation could eliminate market segments.", "Maintain awareness of European spectrum policy; diversify portfolio across multiple frequency bands.");
      ("Risk 5: Customer Concentration", "MEDIUM", "Over-reliance on 1-2 large customers creating vulnerability.", "Diversify customer base across verticals; develop long-term contracts with key accounts.");
      ("Risk 6: Competitive Response", "MEDIUM", "Kathrein or other European competitors may enter same verticals with superior resources.", "Establish market position early in 2026; develop defensible niches through application expertise.") ] in
  let story :=
    fold_left
      (fun story '(title, severity, impact, mitigation) =>
         let sev_color :=
           if (severity =? "HIGH")%string then "#DC2626"
           else if (severity =? "MEDIUM")%string then "#C9A227"
             else "#059669" in
         let story := append story (Paragraph ("<b>" ++ title ++ "</b> <font color='" ++ sev_color ++ "'>[" ++ severity ++ " RISK]</font>")%string (getitem styles "H3Header")) in
         let story := append story (Paragraph ("<b>Impact:</b> " ++ impact)%string (getitem styles "PremiumBody")) in
         let story := append story (Paragraph ("<b>Mitigation:</b> " ++ mitigation)%string (getitem styles "PremiumBody")) in
         let story := append story (Spacer 1 10) in
         story)
      risks story in
  let story := append story PageBreak in
  story.

(** Builds the implementation timeline section. *)
Definition build_implementation_timeline (styles : StyleSheet) : list Flowable :=
  let story := [] in
  let story := append story (OfChapterHeader (ChapterHeader.__init__ 8%Z "Implementation Timeline" 450)) in
  let story := append story (Spacer 1 20) in
  let timeline_data :=
    [ ("Q1 2026 (January-March)", "FOUNDATION", ["Supplier relationship establishment (Amphenol, Taoglas, Murata)"; "Product portfolio definition: Finalize Tier A/B/C offerings"; "Sales team recruitment: 2-3 senior sales engineers"; "Technical capability: RF lab planning and initial equipment procurement"; "Market research completion: Refine vertical market assessments"], "Supplier agreements in place; core team assembled; product roadmap finalized");
      ("Q2 2026 (April-June)", "LAUNCH", ["Market launch: Announce product offerings, establish digital presence"; "HANNOVER MESSE participation: Exhibit at Germany's largest industrial trade show"; "First customer projects: Secure 3-5 initial customers (pilot projects)"; "Training and certification: RF engineers complete advanced training"; "Partnership outreach: Engage 10-15 potential channel partners"], "Market presence established; initial customer references secured");
      ("Q3 2026 (July-September)", "SCALE", ["AUTOMATICA participation: Showcase at automation/robotics trade show"; "Vertical deepening: Develop vertical-specific case studies"; "RF lab operational: Antenna measurement and testing capability live"; "Channel expansion: Onboard 5-8 channel partners"; "Technical content launch: White papers, webinars on antenna selection"], "Technical credibility established; channel network emerging");
      ("Q4 2026 (October-December)", "OPTIMIZE", ["Year-end sales push: Accelerate key account acquisition"; "2027 planning: Assess performance, refine strategy based on market feedback"; "Product expansion: Launch Tier B solutions (26 GHz, MIMO)"; "Partnership deepening: Formalize exclusive arrangements"; "Team scaling: Plan 2027 hiring (additional sales, technical staff)"], "Full-year revenue targets achieved; 2027 growth foundation established") ] in
  let story :=
    fold_left
      (fun story '(quarter, phase, activities, outcome) =>
         let story := append story (Paragraph ("<b>" ++ quarter ++ "</b> <font color='#C9A227'>[" ++ phase ++ "]</font>")%string (getitem styles "SubsectionHeader")) in
         let story :=
           fold_left
             (fun story activity =>
                let story := append story (Paragraph ("• " ++ activity)%string (getitem styles "BulletText")) in
                story)
             activities story in
         let story := append story (Paragraph ("<b>Target Outcome:</b> " ++ outcome)%string (getitem styles "InsightText")) in
         let story := append story (Spacer 1 15) in
         story)
      timeline_data story in
  let story := append story PageBreak in
  story.

(** Builds the success metrics and KPIs section. *)
Definition build_success_metrics (styles : StyleSheet) : list Flowable :=
  let story := [] in
  let story := append story (OfChapterHeader (ChapterHeader.__init__ 9%Z "Success Metrics and KPIs" 450)) in
  let story := append story (Spacer 1 20) in
  let metrics_row1 : list (list Cell) :=
    [ [inr (OfKeyMetricBox (KeyMetricBox.__init__ "€8.5-10.5M" "2026 Revenue Target" KeyMetricBox.default_width KeyMetricBox.default_height (Some PremiumColors.TEAL)));
       inr (OfKeyMetricBox (KeyMetricBox.__init__ "35-40%" "Gross Margin Target" KeyMetricBox.default_width KeyMetricBox.default_height (Some PremiumColors.GOLD)));
       inr (OfKeyMetricBox (KeyMetricBox.__init__ "12-18%" "EBITDA Margin" KeyMetricBox.default_width KeyMetricBox.default_height (Some PremiumColors.CHART_3)));
       inr (OfKeyMetricBox (KeyMetricBox.__init__ "25-35%" "YoY Growth (2027)" KeyMetricBox.default_width KeyMetricBox.default_height (Some PremiumColors.CHART_4)))] ] in
  let metrics_table1 := Table metrics_row1 [125; 125; 125; 125] [] in
  let metrics_table1 := setStyle metrics_table1 (TableStyle [
      ("ALIGN", (0%Z, 0%Z), ((-1)%Z, (-1)%Z), [CStr "CENTER"]);
      ("VALIGN", (0%Z, 0%Z), ((-1)%Z, (-1)%Z), [CStr "MIDDLE"]) ]) in
  let story := append story metrics_table1 in
  let story := append story (Spacer 1 25) in
  let story := append story (Paragraph "Financial Metrics (2026 Target)" (getitem styles "SubsectionHeader")) in
  let financial :=
    [ "Total Revenue: €8.5-10.5 million";
      "Gross Margin: 35-40%";
      "EBITDA Margin: 12-18% (after operating expenses)";
      "Revenue Growth (YoY 2027): 25-35%";
      "Customer Acquisition Cost: <€5,000 per customer (direct) / <€2,000 per customer (channel)";
      "Customer Lifetime Value: >€100,000 (estimated based on 5-year relationship)" ] in
  let story :=
    fold_left
      (fun story f =>
         let story := append story (Paragraph ("• " ++ f)%string (getitem styles "BulletText")) in
         story)
      financial story in
  let story := append story (Spacer 1 15) in
  let story := append story (Paragraph "Operational Metrics" (getitem styles "SubsectionHeader")) in
  let operational :=
    [ "On-time Delivery Rate: >95%";
      "Customer Satisfaction Score (NPS): >50";
      "Technical Support Response Time: <4 hours (critical), <24 hours (standard)";
      "Product Portfolio Breadth: >50 SKUs covering major applications";
      "Supplier Relationship Score: Strong partnerships with 3+ Tier 1 suppliers" ] in
  let story :=
    fold_left
      (fun story o =>
         let story := append story (Paragraph ("• " ++ o)%string (getitem styles "BulletText")) in
         story)
      operational story in
  let story := append story (Spacer 1 15) in
  let story := append story (Paragraph "Market Metrics" (getitem styles "SubsectionHeader")) in
  let market :=
    [ "Market Share in Target Verticals: 3-5% German market by end-2026";
      "Customer Count: 50-80 direct customers; 20-30 channel partners";
      "Vertical Revenue Mix: 35% warehouse/logistics, 30% industrial IoT, 25% autonomous systems, 10% drones";
      "Win Rate vs. Competitors: >25% on bid opportunities" ] in
  let story :=
    fold_left
      (fun story m =>
         let story := append story (Paragraph ("• " ++ m)%string (getitem styles "BulletText")) in
         story)
      market story in
  let story := append story (Spacer 1 15) in
  let story := append story (Paragraph "Strategic Metrics" (getitem styles "SubsectionHeader")) in
  let strategic :=
    [ "Thought Leadership: 2-3 speaking engagements at major conferences";
      "Industry Recognition: Membership/participation in ZVEI, 3GPP vertical groups";
      "Innovation Pipeline: 5-8 new product introductions annually";
      "Partnership Ecosystem: 3+ strategic technology partnerships" ] in
  let story :=
    fold_left
      (fun story s =>
         let story := append story (Paragraph ("• " ++ s)%string (getitem styles "BulletText")) in
         story)
      strategic story in
  let story := append story PageBreak in
  story.

(** Builds the conclusion section. *)
Definition build_conclusion (styles : StyleSheet) : list Flowable :=
  let story := [] in
  let story := append story (OfChapterHeader (ChapterHeader.__init__ 10%Z "Conclusion" 450)) in
  let story := append story (Spacer 1 20) in
  let conclusion_text1 := "The global antenna market for IoT and autonomous systems presents extraordinary
    growth opportunities for German distributors and systems integrators in 2026 and beyond. The combination of
    rapid 5G rollout with harmonized European spectrum, Industry 4.0 digital transformation mandates, explosive
    growth in robotics and commercial drones, and increasing sophistication of antenna technology creates a
    favorable backdrop for market entry and rapid scaling." in
  let story := append story (Paragraph conclusion_text1 (getitem styles "PremiumBody")) in
  let story := append story (Spacer 1 15) in
  let conclusion_text2 := "However, success requires moving beyond pure component distribution toward integrated
    solutions, technical consulting, and application-specific expertise. The German distributor's competitive
    advantage lies in engineering and systems integration capabilities, local presence in manufacturing-concentrated
    regions, understanding of regulatory frameworks, and alignment with Industry 4.0 and sustainability priorities." in
  let story := append story (Paragraph conclusion_text2 (getitem styles "PremiumBody")) in
  let story := append story (Spacer 1 15) in
  let callout_text := (dq ++ "By following the strategic recommendations outlined in this report, a German antenna
    distributor can establish market leadership and capture significant share of the <b>€8-12 billion annual
    market opportunity</b> in IoT and autonomous systems connectivity by 2028." ++ dq)%string in
  let story := append story (Paragraph callout_text (getitem styles "Callout")) in
  let story := append story (Spacer 1 15) in
  let final_text := "<b>The window for market positioning is 2026.</b> The companies establishing credibility,
    customer relationships, and technical depth in this year will define the competitive landscape for the
    remainder of the decade." in
  let story := append story (Paragraph final_text (getitem styles "PremiumBody")) in
  let story := append story PageBreak in
  story.

(** Builds the references section. *)
Definition build_references (styles : StyleSheet) : list Flowable :=
  let story := [] in
  let story := append story (Paragraph "References" (getitem styles "SectionHeader")) in
  let story := append story (Spacer 1 15) in
  let references :=
    [ "[1] IoT Antennas in Electronic Devices Market 2026: Growth Potential and Strategic Opportunities. LinkedIn Pulse, December 2025.";
      "[2] Autonomous Mobile Robots (AMR) Market Analysis. MarketsandMarkets, November 2025.";
      "[3] IoT Analytics. Number of Connected IoT Devices Growing 14% to 21.1 Billion. December 2024.";
      "[4] Drone Tracking Antenna Market Growth 2025–2033 Forecast. LinkedIn Pulse, September 2025.";
      "[5] Germany Warehouse Robotics Market: Size, Share & Growth Analysis. Verified Market Research, June 2025.";
      "[6] Radio Spectrum Policy Group Opinion on 5G Developments and 6G Spectrum. EU RSPG, October 2023.";
      "[7] Phased Array Antenna Market Growth Outlook with AI Innovations. LinkedIn Pulse, December 2025.";
      "[8] Germany Drone Regulations and Autonomous Systems Framework. EASA/German Aviation Act.";
      "[9] Global Antenna Market Size, Share, Trends, Growth & Forecast. Mordor Intelligence, October 2025.";
      "[10] World Antenna Market Landscape: 2024-2032 Analysis. Allied Market Research.";
      "[11] Autonomous Mobile Robots Market Analysis. FactMR, September 2025.";
      "[12] Germany Industrial IoT Software Market: AI and Automation Impact. LinkedIn Pulse, December 2025.";
      "[13] 5G Support for Industrial IoT Applications. PubMed Central/NIH, 2020.";
      "[14] DIGITALEUROPE 5G Spectrum Recommendations. January 2019.";
      "[15] 5G Industrial IoT Demand 2026: Size & Market White Spaces. LinkedIn Pulse, December 2025.";
      "[16] 5G mmWave Antenna Module Strategic Insights. Archive Market Research, May 2024.";
      "[17] Next-Generation Antenna-Based Wireless Technologies Market Analysis. Data-Alliance, October 2025.";
      "[18] Autonomous Aerial Robot Market Global Analysis. Future Market Insights, October 2025.";
      "[19] Autonomous Navigation Market Size, Share & Forecast. Allied Market Research, April 2025.";
      "[20] MmWave Phased Array Antenna Module Market Report. Lucintel.";
      "[21] Top Passive Cellular Antenna Vendors 2025. ABI Research, August 2025.";
      "[22] Defense Integrated Antenna Market Size, Share & Growth. ResearchNester, September 2025.";
      "[23] Germany Police Authority to Neutralize Drones. Reuters, October 2025." ] in
  let ref_style := ParagraphStyle [
      ("name", SStr "Reference");
      ("fontName", SStr "Helvetica");
      ("fontSize", SNum 8);
      ("textColor", SColor PremiumColors.GRAY_700);
      ("spaceAfter", SNum 4);
      ("leading", SNum 10) ] in
  let story :=
    fold_left
      (fun story ref =>
         let story := append story (Paragraph ref ref_style) in
         story)
      references story in
  let story := append story (Spacer 1 30) in
  let story := append story (Paragraph "<b>Document Information</b>" (getitem styles "H3Header")) in
  let doc_info := "
    <b>Prepared for:</b> German IoT Components Distributor & Systems Integrator<br/>
    <b>Prepared by:</b> Crimson Sun Technologies (An Interstates & Vagabonds Company)<br/>
    <b>Report Date:</b> December 2025<br/>
    <b>Classification:</b> Strategic Planning Document - Confidential<br/>
    <b>Validity Period:</b> 2026 Planning Cycle (Q1-Q4 2026)
    " in
  let story := append story (Paragraph doc_info (getitem styles "PremiumBody")) in
  story.

(** ** matplotlib *)

(** The pieces of an f-string that formats a number: the number is kept
    with its format specification instead of being printed. *)
Inductive FPart :=
| FText (s : string)
| FNum (v : Q) (spec : string).

(** Argument values passed to plotting calls. *)
Inductive PyVal :=
| VNone
| VBool (b : bool)
| VNum (n : Q)
| VStr (s : string)
| VFormat (parts : list FPart)
| VList (l : list PyVal)
| VTuple (l : list PyVal)
| VDict (d : list (string * PyVal))
| VObj (cls : string) (args : list PyVal) (kwargs : list (string * PyVal)).

Abbreviation Kwargs := (list (string * PyVal)).

(** The bars returned by [ax.bar] and [ax.barh], as far as the script reads
    them. *)
Record Rectangle := mkRectangle { get_x : Q; get_y : Q; get_width : Q; get_height : Q }.

(** Calls into pyplot and on the axes. The calls whose result the script
    uses have a constructor of their own. *)
Inductive PlotCall :=
| subplots (kwargs : Kwargs)
| ax_bar (x height : list Q) (width : Q) (kwargs : Kwargs)
| ax_barh (y : list string) (width : list Q) (height : Q) (kwargs : Kwargs)
| ax_pie (x : list Q) (kwargs : Kwargs)
| call (target method : string) (args : list PyVal) (kwargs : Kwargs)
| close.

Definition plot_ret (c : PlotCall) : Type :=
  match c with
  | ax_bar _ _ _ _ | ax_barh _ _ _ _ => list Rectangle
  | ax_pie _ _ => list nat
  | _ => unit
  end.

(** [ax.bar] centres each bar on its position; [ax.barh] puts the given
    categories at 0, 1, 2, ... and centres each bar there; [ax.pie] returns
    one text per wedge, named here by its index. *)
Definition plot_reply (c : PlotCall) : plot_ret c :=
  match c with
  | ax_bar x height width _ =>
      zip_with (fun xi hi => mkRectangle (xi - width / 2) 0 width hi) x height
  | ax_barh y width height _ =>
      zip_with (fun i wi => mkRectangle 0 (inject_Z i - height / 2) wi height)
        (range (length y)) width
  | ax_pie x _ => seq 0 (length x)
  | subplots _ => tt
  | call _ _ _ _ => tt
  | close => tt
  end.

(** ** Files *)

(** What a file holds: nothing yet, the PNG rendering of a figure (given by
    the plotting calls that built it and the [savefig] options), or the PDF
    rendering of a story. *)
Inductive FileData :=
| NoData
| PNG (figure : list PlotCall) (savefig_kwargs : Kwargs)
| PDF (doc : SimpleDocTemplate) (flowables : list Flowable).

Inductive Node :=
| Dir
| File (data : FileData).

(** [os.path.join(a, b)] on POSIX paths. *)
Definition os_path_join (a b : string) : string :=
  match b with
  | String "/" _ => b
  | _ =>
      if negb (truthy a) then b
      else match get (String.length a - 1) a with
           | Some "/"%char => (a ++ b)%string
           | _ => (a ++ "/" ++ b)%string
           end
  end.

(** The directories [os.makedirs(name)] walks through: every prefix of
    [name] that ends before a separator, then [name] itself. [acc] is the
    part of the path already read. *)
Fixpoint path_prefixes (acc : string) (name : string) : list string :=
  match name with
  | EmptyString => if truthy acc then [acc] else []
  | String c rest =>
      let next := path_prefixes (acc ++ String c EmptyString)%string rest in
      if Ascii.eqb c "/" then (if truthy acc then acc :: next else next)
      else next
  end.

(** A successful [os.makedirs(name, exist_ok=True)] creates the directories
    that are missing. *)
Definition makedirs (fs : gmap string Node) (name : string) : gmap string Node :=
  fold_left
    (fun fs d => match fs !! d with Some _ => fs | None => <[d := Dir]> fs end)
    (path_prefixes EmptyString name) fs.

(** ** Library calls *)

Inductive Exn := Exception (type msg : string).

(** A call into a library, indexed by the type of its result. *)
Inductive Call : Type -> Type :=
| os_makedirs (name : string) (exist_ok : bool) : Call unit
| getSampleStyleSheet : Call StyleSheet
| stylesheet_add (styles : StyleSheet) (style : Style) : Call StyleSheet
| plt (c : PlotCall) : Call (plot_ret c)
| plt_savefig (kwargs : Kwargs) : Call FileData
| NamedTemporaryFile (suffix : string) (delete : bool) : Call string
| file_write (name : string) (data : FileData) : Call unit
| doc_build (doc : SimpleDocTemplate) (flowables : list Flowable)
    (onFirstPage onLaterPages : PageCallback) : Call unit
| print (s : string) : Call unit.

(** One library call made by the process and whether it raised. *)
Record Event := mkEvent { ev_ret : Type; ev_call : Call ev_ret; ev_exn : option Exn }.

(** The world the process runs in. The script never reads [argv] or
    [environ]; they are here so that runs from different invocations can be
    compared. [figure] is pyplot's current figure, as the calls made on it
    since it was opened. [trace] is the history of library calls, most
    recent first. *)
Record World := mkWorld {
  fs : gmap string Node;
  argv : list string;
  environ : gmap string string;
  stdout : list string;
  figure : list PlotCall;
  trace : list Event
}.

Definition with_fs (w : World) (fs' : gmap string Node) : World :=
  mkWorld fs' (argv w) (environ w) (stdout w) (figure w) (trace w).
Definition with_stdout (w : World) (out : list string) : World :=
  mkWorld (fs w) (argv w) (environ w) out (figure w) (trace w).
Definition with_figure (w : World) (fig : list PlotCall) : World :=
  mkWorld (fs w) (argv w) (environ w) (stdout w) fig (trace w).
Definition record_event (w : World) (ev : Event) : World :=
  mkWorld (fs w) (argv w) (environ w) (stdout w) (figure w) (ev :: trace w).

(** What the script cannot decide: which calls raise, what the sample style
    sheet holds, and which name a new temporary file gets. *)
Record Library := mkLibrary {
  raises : forall R, Call R -> World -> option Exn;
  sample_styles : StyleSheet;
  mkstemp : string -> gmap string Node -> string
}.

(** The result of a call that returns. *)
Definition reply (lib : Library) {R} (c : Call R) (w : World) : R :=
  match c in Call R return R with
  | os_makedirs _ _ => tt
  | getSampleStyleSheet => sample_styles lib
  | stylesheet_add styles style => <[style_name style := style]> styles
  | plt c => plot_reply c
  | plt_savefig kwargs => PNG (figure w) kwargs
  | NamedTemporaryFile suffix _ => mkstemp lib suffix (fs w)
  | file_write _ _ => tt
  | doc_build _ _ _ _ => tt
  | print _ => tt
  end.

(** The change a call that returns makes to the world. *)
Definition effect (lib : Library) {R} (c : Call R) (w : World) : World :=
  match c with
  | os_makedirs name _ => with_fs w (makedirs (fs w) name)
  | plt (subplots kwargs) => with_figure w [subplots kwargs]
  | plt close => with_figure w []
  | plt c => with_figure w (figure w ++ [c])
  | NamedTemporaryFile suffix _ =>
      with_fs w (<[mkstemp lib suffix (fs w) := File NoData]> (fs w))
  | file_write name data => with_fs w (<[name := File data]> (fs w))
  | doc_build doc flowables _ _ =>
      with_fs w (<[filename doc := File (PDF doc flowables)]> (fs w))
  | print s => with_stdout w (stdout w ++ [s])
  | getSampleStyleSheet | stylesheet_add _ _ | plt_savefig _ => w
  end.

(** ** Programs *)

(** A program is a tree of library calls; Python code between two calls is
    ordinary Rocq code in the continuation. There is no construct that
    catches an exception, as the script has no [try]. *)
Inductive Prog (A : Type) : Type :=
| Ret (a : A)
| Do {R : Type} (c : Call R) (k : R -> Prog A).

Arguments Ret {A} a.
Arguments Do {A R} c k.

Fixpoint bind {A B} (p : Prog A) (f : A -> Prog B) : Prog B :=
  match p with
  | Ret a => f a
  | Do c k => Do c (fun r => bind (k r) f)
  end.

Definition perform {R} (c : Call R) : Prog R := Do c Ret.

#[global] Instance Prog_ret : MRet Prog := @Ret.
#[global] Instance Prog_bind : MBind Prog := fun A B f p => bind p f.

(** [for x in xs: body] *)
Fixpoint for_each {X} (xs : list X) (body : X -> Prog unit) : Prog unit :=
  match xs with
  | [] => Ret tt
  | x :: xs' => body x;; for_each xs' body
  end.

Inductive Result (A : Type) :=
| Ok (a : A)
| Raise (e : Exn).

Arguments Ok {A} a.
Arguments Raise {A} e.

(** Running a program: each call is recorded; a call that raises ends the
    run with its exception, a call that returns changes the world and hands
    its result to the rest of the program. *)
Fixpoint exec (lib : Library) {A} (p : Prog A) (w : World) : Result A * World :=
  match p with
  | Ret a => (Ok a, w)
  | Do c k =>
      match raises lib _ c w with
      | Some e => (Raise e, record_event w (mkEvent _ c (Some e)))
      | None =>
          exec lib (k (reply lib c w)) (effect lib c (record_event w (mkEvent _ c None)))
      end
  end.

(** The run in which every call returns. *)
Fixpoint run (lib : Library) {A} (p : Prog A) (w : World) : A * World :=
  match p with
  | Ret a => (a, w)
  | Do c k => run lib (k (reply lib c w)) (effect lib c (record_event w (mkEvent _ c None)))
  end.

(** ** Chart generation *)

(** A line feed, for the labels written with [\n]. *)
Definition nl : string := String (ascii_of_nat 10) EmptyString.

(** [enumerate(xs)] *)
Definition enumerate {X} (xs : list X) : list (Z * X) :=
  combine (range (length xs)) xs.

(** A call of a method on the axes, and of a pyplot function. *)
Definition ax (method : string) (args : list PyVal) (kwargs : Kwargs) : Prog unit :=
  perform (plt (call "ax" method args kwargs)).

Definition pyplot (method : string) (args : list PyVal) (kwargs : Kwargs) : Prog unit :=
  perform (plt (call "plt" method args kwargs)).

(** A call of a method on one of the texts returned by [ax.pie]. *)
Definition on_text (text : nat) (method : string) (args : list PyVal) : Prog unit :=
  perform (plt (call ("texts[" ++ pretty text ++ "]") method args [])).

(** [ax.spines[side].set_visible(False)] *)
Definition hide_spine (side : string) : Prog unit :=
  perform (plt (call ("ax.spines['" ++ side ++ "']") "set_visible" [VBool false] [])).

(** The options every chart is saved with. *)
Definition png_options : Kwargs :=
  [ ("format", VStr "png"); ("dpi", VNum 150); ("bbox_inches", VStr "tight");
    ("facecolor", VStr "white") ].

(** Creates IoT antenna market growth projection chart. *)
Definition create_market_growth_chart : Prog FileData :=
  perform (plt (subplots [("figsize", VTuple [VNum 7; VNum 4])]));;

  let years := ["2024"; "2025"; "2026"; "2027"; "2028"; "2029"; "2030"] in
  let iot_values := [1.2; 1.44; 1.73; 2.08; 2.50; 3.00; 3.58] in
  let drone_values := [1.2; 1.35; 1.52; 1.71; 1.93; 2.17; 2.44] in
  let amr_values := [0.5; 0.58; 0.67; 0.77; 0.89; 1.02; 1.17] in

  let x := range (length years) in
  let width := 0.25 in

  bars1 ← perform (plt (ax_bar (map (fun i => inject_Z i - width) x) iot_values width
                          [("label", VStr "IoT Antennas"); ("color", VStr "#0891B2")]));
  bars2 ← perform (plt (ax_bar (map inject_Z x) drone_values width
                          [("label", VStr "Drone/UAV Antennas"); ("color", VStr "#C9A227")]));
  bars3 ← perform (plt (ax_bar (map (fun i => inject_Z i + width) x) amr_values width
                          [("label", VStr "AMR Antennas"); ("color", VStr "#059669")]));

  ax "set_xlabel" [VStr "Year"] [("fontsize", VNum 10); ("color", VStr "#334155")];;
  ax "set_ylabel" [VStr "Market Size (USD Billion)"]
    [("fontsize", VNum 10); ("color", VStr "#334155")];;
  ax "set_title" [VStr "Antenna Market Growth Projections by Segment"]
    [("fontsize", VNum 14); ("fontweight", VStr "bold"); ("color", VStr "#1B2838");
     ("pad", VNum 20)];;
  ax "set_xticks" [VList (map (fun i => VNum (inject_Z i)) x)] [];;
  ax "set_xticklabels" [VList (map VStr years)] [];;
  ax "legend" []
    [("loc", VStr "upper left"); ("frameon", VBool true); ("fancybox", VBool true)];;
  ax "set_ylim" [VNum 0; VNum 4.5] [];;
  hide_spine "top";;
  hide_spine "right";;
  ax "grid" [] [("axis", VStr "y"); ("alpha", VNum 0.3)];;

  (* Add value labels on bars *)
  for_each [bars1; bars2; bars3] (fun bars =>
    for_each bars (fun bar =>
      let height := get_height bar in
      if Qltb 0.8 height then
        ax "annotate" [VFormat [FText "$"; FNum height ".2f"; FText "B"]]
          [("xy", VTuple [VNum (get_x bar + get_width bar / 2); VNum height]);
           ("xytext", VTuple [VNum 0; VNum 3]);
           ("textcoords", VStr "offset points");
           ("ha", VStr "center"); ("va", VStr "bottom"); ("fontsize", VNum 7);
           ("color", VStr "#334155")]
      else mret tt));;

  pyplot "tight_layout" [] [];;

  (* Save to buffer *)
  buf ← perform (plt_savefig png_options);
  perform (plt close);;

  mret buf.

(** Creates regional market distribution pie chart. *)
Definition create_regional_market_chart : Prog FileData :=
  perform (plt (subplots [("figsize", VTuple [VNum 6; VNum 4])]));;

  let regions :=
    [ "North America" ++ nl ++ "(35%)"; "Europe" ++ nl ++ "(30%)";
      "Asia-Pacific" ++ nl ++ "(25%)"; "Emerging" ++ nl ++ "Markets (10%)" ]%string in
  let sizes := [35; 30; 25; 10] in
  let colors_list := ["#0891B2"; "#C9A227"; "#059669"; "#7C3AED"] in
  let explode := [0.02; 0.02; 0.02; 0.02] in

  texts ← perform (plt (ax_pie sizes
             [("explode", VTuple (map VNum explode)); ("labels", VList (map VStr regions));
              ("colors", VList (map VStr colors_list)); ("autopct", VStr EmptyString);
              ("startangle", VNum 90); ("pctdistance", VNum 0.75)]));

  (* Style labels *)
  for_each texts (fun text =>
    on_text text "set_fontsize" [VNum 9];;
    on_text text "set_color" [VStr "#334155"]);;

  ax "set_title" [VStr "Global Antenna Market by Region (2025)"]
    [("fontsize", VNum 14); ("fontweight", VStr "bold"); ("color", VStr "#1B2838");
     ("pad", VNum 20)];;

  pyplot "tight_layout" [] [];;

  buf ← perform (plt_savefig png_options);
  perform (plt close);;

  mret buf.

(** Creates Germany-specific market opportunity chart. *)
Definition create_germany_market_chart : Prog FileData :=
  perform (plt (subplots [("figsize", VTuple [VNum 7; VNum 4])]));;

  let categories :=
    [ "Warehouse" ++ nl ++ "Robotics"; "Industrial" ++ nl ++ "IoT";
      "Autonomous" ++ nl ++ "Systems"; "Commercial" ++ nl ++ "Drones" ]%string in
  let values_2024 := [0.82; 0.65; 0.45; 0.25] in
  let values_2030 := [2.34; 1.85; 1.20; 0.75] in

  let x := range (length categories) in
  let width := 0.35 in

  bars1 ← perform (plt (ax_bar (map (fun i => inject_Z i - width / 2) x) values_2024 width
                          [("label", VStr "2024"); ("color", VStr "#CBD5E1")]));
  bars2 ← perform (plt (ax_bar (map (fun i => inject_Z i + width / 2) x) values_2030 width
                          [("label", VStr "2030/32 Projected"); ("color", VStr "#C9A227")]));

  ax "set_ylabel" [VStr "Market Size (USD Billion)"]
    [("fontsize", VNum 10); ("color", VStr "#334155")];;
  ax "set_title" [VStr "Germany: Key Market Segments Growth"]
    [("fontsize", VNum 14); ("fontweight", VStr "bold"); ("color", VStr "#1B2838");
     ("pad", VNum 20)];;
  ax "set_xticks" [VList (map (fun i => VNum (inject_Z i)) x)] [];;
  ax "set_xticklabels" [VList (map VStr categories)] [];;
  ax "legend" [] [("loc", VStr "upper left"); ("frameon", VBool true)];;
  hide_spine "top";;
  hide_spine "right";;
  ax "grid" [] [("axis", VStr "y"); ("alpha", VNum 0.3)];;

  (* Add growth percentages *)
  for_each (enumerate (combine values_2024 values_2030)) (fun '(i, (v1, v2)) =>
    let growth := ((v2 - v1) / v1) * 100 in
    ax "annotate" [VFormat [FText "+"; FNum growth ".0f"; FText "%"]]
      [("xy", VTuple [VNum (inject_Z i + width / 2); VNum v2]);
       ("xytext", VTuple [VNum 0; VNum 5]);
       ("textcoords", VStr "offset points");
       ("ha", VStr "center"); ("va", VStr "bottom"); ("fontsize", VNum 9);
       ("fontweight", VStr "bold"); ("color", VStr "#059669")]);;

  pyplot "tight_layout" [] [];;

  buf ← perform (plt_savefig png_options);
  perform (plt close);;

  mret buf.

(** Creates CAGR comparison horizontal bar chart. *)
Definition create_cagr_comparison_chart : Prog FileData :=
  perform (plt (subplots [("figsize", VTuple [VNum 7; VNum 4])]));;

  let segments :=
    [ "IoT Antennas"; "mmWave/Phased Array"; "Germany Warehouse" ++ nl ++ "Robotics";
      "Autonomous Navigation"; "AMR Market"; "Drone/UAV Antennas" ]%string in
  let cagr_values := [20.0; 21.6; 16.4; 17.1; 15.1; 12.5] in
  let colors_list := ["#0891B2"; "#C9A227"; "#059669"; "#7C3AED"; "#DC2626"; "#64748B"] in

  bars ← perform (plt (ax_barh segments cagr_values 0.6
                         [("color", VList (map VStr colors_list))]));

  ax "set_xlabel" [VStr "CAGR (%)"] [("fontsize", VNum 10); ("color", VStr "#334155")];;
  ax "set_title" [VStr "Growth Rates Comparison: Key Market Segments"]
    [("fontsize", VNum 14); ("fontweight", VStr "bold"); ("color", VStr "#1B2838");
     ("pad", VNum 20)];;
  hide_spine "top";;
  hide_spine "right";;
  ax "grid" [] [("axis", VStr "x"); ("alpha", VNum 0.3)];;
  ax "set_xlim" [VNum 0; VNum 25] [];;

  (* Add value labels *)
  for_each (combine bars cagr_values) (fun '(bar, val) =>
    ax "text"
      [VNum (val + 0.5); VNum (get_y bar + get_height bar / 2);
       VFormat [FNum val EmptyString; FText "%"]]
      [("va", VStr "center"); ("fontsize", VNum 10); ("fontweight", VStr "bold");
       ("color", VStr "#334155")]);;

  pyplot "tight_layout" [] [];;

  buf ← perform (plt_savefig png_options);
  perform (plt close);;

  mret buf.

(** Creates implementation timeline visualization. *)
Definition create_timeline_chart : Prog FileData :=
  perform (plt (subplots [("figsize", VTuple [VNum 8; VNum 3])]));;

  (* Timeline data *)
  let quarters := ["Q1 2026"; "Q2 2026"; "Q3 2026"; "Q4 2026"] in
  let phases := ["Foundation"; "Launch"; "Scale"; "Optimize"] in
  let colors_list := ["#0891B2"; "#C9A227"; "#059669"; "#7C3AED"] in

  for_each (enumerate (combine quarters (combine phases colors_list)))
    (fun '(i, (q, (p, c))) =>
      (* Draw rectangle for each phase *)
      let patch :=
        VObj "mpatches.FancyBboxPatch"
          [VTuple [VNum (inject_Z i * 2); VNum 0.3]; VNum 1.8; VNum 0.4]
          [("boxstyle", VStr "round,pad=0.02,rounding_size=0.1");
           ("facecolor", VStr c); ("edgecolor", VStr "none"); ("alpha", VNum 0.9)] in
      ax "add_patch" [patch] [];;

      (* Quarter label *)
      ax "text" [VNum (inject_Z i * 2 + 0.9); VNum 0.1; VStr q]
        [("ha", VStr "center"); ("va", VStr "center"); ("fontsize", VNum 10);
         ("fontweight", VStr "bold"); ("color", VStr "#334155")];;

      (* Phase label *)
      ax "text" [VNum (inject_Z i * 2 + 0.9); VNum 0.5; VStr p]
        [("ha", VStr "center"); ("va", VStr "center"); ("fontsize", VNum 11);
         ("fontweight", VStr "bold"); ("color", VStr "white")];;

      (* Connecting arrow (except last) *)
      if (i <? 3)%Z then
        ax "annotate" [VStr EmptyString]
          [("xy", VTuple [VNum (inject_Z i * 2 + 2); VNum 0.5]);
           ("xytext", VTuple [VNum (inject_Z i * 2 + 1.85); VNum 0.5]);
           ("arrowprops",
            VDict [("arrowstyle", VStr "->"); ("color", VStr "#64748B"); ("lw", VNum 2)])]
      else mret tt);;

  ax "set_xlim" [VNum (-0.2); VNum 8] [];;
  ax "set_ylim" [VNum 0; VNum 1] [];;
  ax "axis" [VStr "off"] [];;
  ax "set_title" [VStr "2026 Implementation Roadmap"]
    [("fontsize", VNum 14); ("fontweight", VStr "bold"); ("color", VStr "#1B2838");
     ("pad", VNum 20)];;

  pyplot "tight_layout" [] [];;

  buf ← perform (plt_savefig png_options);
  perform (plt close);;

  mret buf.

(** Creates product portfolio allocation chart. *)
Definition create_portfolio_allocation_chart : Prog FileData :=
  perform (plt (subplots [("figsize", VTuple [VNum 5; VNum 5])]));;

  let tiers :=
    [ "Tier A: Core" ++ nl ++ "High-Volume" ++ nl ++ "(70%)";
      "Tier B: Differentiated" ++ nl ++ "Solutions" ++ nl ++ "(20%)";
      "Tier C: Emerging/" ++ nl ++ "Specialized" ++ nl ++ "(10%)" ]%string in
  let sizes := [70; 20; 10] in
  let colors_list := ["#0891B2"; "#C9A227"; "#059669"] in

  texts ← perform (plt (ax_pie sizes
             [("labels", VList (map VStr tiers)); ("colors", VList (map VStr colors_list));
              ("startangle", VNum 90); ("wedgeprops", VDict [("width", VNum 0.5)])]));

  for_each texts (fun text =>
    on_text text "set_fontsize" [VNum 9];;
    on_text text "set_color" [VStr "#334155"]);;

  (* Add center text *)
  ax "text" [VNum 0; VNum 0; VStr ("Portfolio" ++ nl ++ "Strategy")]
    [("ha", VStr "center"); ("va", VStr "center"); ("fontsize", VNum 12);
     ("fontweight", VStr "bold"); ("color", VStr "#1B2838")];;

  ax "set_title" [VStr "Recommended Product Portfolio Allocation"]
    [("fontsize", VNum 14); ("fontweight", VStr "bold"); ("color", VStr "#1B2838");
     ("pad", VNum 20)];;

  pyplot "tight_layout" [] [];;

  buf ← perform (plt_savefig png_options);
  perform (plt close);;

  mret buf.

(** The six generators, in the order the script defines them. *)
Definition chart_generators : list (Prog FileData) :=
  [ create_market_growth_chart; create_regional_market_chart;
    create_germany_market_chart; create_cagr_comparison_chart;
    create_timeline_chart; create_portfolio_allocation_chart ].

(** ** Styles *)

(** Returns premium paragraph styles. *)
Definition get_premium_styles : Prog StyleSheet :=
  styles ← perform getSampleStyleSheet;
  styles ← perform (stylesheet_add styles (ParagraphStyle [
    ("name", SStr "ExecTitle");
    ("fontName", SStr "Helvetica-Bold");
    ("fontSize", SNum 28);
    ("textColor", SColor PremiumColors.NAVY_DARK);
    ("spaceAfter", SNum 20);
    ("spaceBefore", SNum 30);
    ("leading", SNum 34) ]));
  styles ← perform (stylesheet_add styles (ParagraphStyle [
    ("name", SStr "SectionHeader");
    ("fontName", SStr "Helvetica-Bold");
    ("fontSize", SNum 22);
    ("textColor", SColor PremiumColors.NAVY_DARK);
    ("spaceAfter", SNum 15);
    ("spaceBefore", SNum 25);
    ("leading", SNum 28) ]));
  styles ← perform (stylesheet_add styles (ParagraphStyle [
    ("name", SStr "SubsectionHeader");
    ("fontName", SStr "Helvetica-Bold");
    ("fontSize", SNum 16);
    ("textColor", SColor PremiumColors.NAVY);
    ("spaceAfter", SNum 10);
    ("spaceBefore", SNum 20);
    ("leading", SNum 20) ]));
  styles ← perform (stylesheet_add styles (ParagraphStyle [
    ("name", SStr "H3Header");
    ("fontName", SStr "Helvetica-Bold");
    ("fontSize", SNum 13);
    ("textColor", SColor PremiumColors.NAVY_LIGHT);
    ("spaceAfter", SNum 8);
    ("spaceBefore", SNum 15);
    ("leading", SNum 16) ]));
  styles ← perform (stylesheet_add styles (ParagraphStyle [
    ("name", SStr "PremiumBody");
    ("fontName", SStr "Helvetica");
    ("fontSize", SNum 10);
    ("textColor", SColor PremiumColors.GRAY_700);
    ("spaceAfter", SNum 10);
    ("spaceBefore", SNum 0);
    ("leading", SNum 15);
    ("alignment", SAlign TA_JUSTIFY) ]));
  styles ← perform (stylesheet_add styles (ParagraphStyle [
    ("name", SStr "BulletText");
    ("fontName", SStr "Helvetica");
    ("fontSize", SNum 10);
    ("textColor", SColor PremiumColors.GRAY_700);
    ("spaceAfter", SNum 5);
    ("spaceBefore", SNum 0);
    ("leading", SNum 14);
    ("leftIndent", SNum 20);
    ("bulletIndent", SNum 10) ]));
  styles ← perform (stylesheet_add styles (ParagraphStyle [
    ("name", SStr "InsightText");
    ("fontName", SStr "Helvetica-Oblique");
    ("fontSize", SNum 11);
    ("textColor", SColor PremiumColors.NAVY);
    ("spaceAfter", SNum 5);
    ("spaceBefore", SNum 5);
    ("leading", SNum 15);
    ("leftIndent", SNum 15);
    ("rightIndent", SNum 15) ]));
  styles ← perform (stylesheet_add styles (ParagraphStyle [
    ("name", SStr "TableHeader");
    ("fontName", SStr "Helvetica-Bold");
    ("fontSize", SNum 9);
    ("textColor", SColor PremiumColors.WHITE);
    ("alignment", SAlign TA_CENTER) ]));
  styles ← perform (stylesheet_add styles (ParagraphStyle [
    ("name", SStr "TableCell");
    ("fontName", SStr "Helvetica");
    ("fontSize", SNum 9);
    ("textColor", SColor PremiumColors.GRAY_700);
    ("alignment", SAlign TA_LEFT) ]));
  styles ← perform (stylesheet_add styles (ParagraphStyle [
    ("name", SStr "TOCEntry");
    ("fontName", SStr "Helvetica");
    ("fontSize", SNum 11);
    ("textColor", SColor PremiumColors.GRAY_700);
    ("spaceAfter", SNum 8);
    ("leading", SNum 16) ]));
  styles ← perform (stylesheet_add styles (ParagraphStyle [
    ("name", SStr "TOCSection");
    ("fontName", SStr "Helvetica-Bold");
    ("fontSize", SNum 12);
    ("textColor", SColor PremiumColors.NAVY);
    ("spaceAfter", SNum 5);
    ("spaceBefore", SNum 15);
    ("leading", SNum 16) ]));
  styles ← perform (stylesheet_add styles (ParagraphStyle [
    ("name", SStr "Caption");
    ("fontName", SStr "Helvetica-Oblique");
    ("fontSize", SNum 9);
    ("textColor", SColor PremiumColors.GRAY_500);
    ("spaceAfter", SNum 15);
    ("spaceBefore", SNum 5);
    ("alignment", SAlign TA_CENTER) ]));
  styles ← perform (stylesheet_add styles (ParagraphStyle [
    ("name", SStr "Callout");
    ("fontName", SStr "Helvetica-Bold");
    ("fontSize", SNum 14);
    ("textColor", SColor PremiumColors.NAVY);
    ("spaceAfter", SNum 10);
    ("spaceBefore", SNum 10);
    ("leading", SNum 20);
    ("leftIndent", SNum 30);
    ("rightIndent", SNum 30);
    ("alignment", SAlign TA_CENTER) ]));
  mret styles.

(** ** Main document builder *)

(** Helper to add a chart to the story. The temporary file is created with
    [delete=False]; leaving the [with] block closes it and nothing removes
    it afterwards. The story is handed back instead of updated in place. *)
Definition add_chart_to_story (story : list Flowable) (chart_func : Prog FileData)
    (width height : Q) (caption : string) (styles : StyleSheet)
    : Prog (list Flowable) :=
  chart_buf ← chart_func;
  tmp ← perform (NamedTemporaryFile ".png" false);
  perform (file_write tmp chart_buf);;
  let tmp_path := tmp in
  let story := append story (Spacer 1 15) in
  let story := append story (Image tmp_path width height) in
  let story := append story (Paragraph caption (getitem styles "Caption")) in
  let story := append story (Spacer 1 10) in
  mret story.

(** Builds the complete premium report. *)
Definition build_premium_report (output_path : string) : Prog string :=
  (* Create document *)
  let doc := mkSimpleDocTemplate output_path A4 50 50 60 60 in

  (* Get styles *)
  styles ← get_premium_styles;

  (* Build story (content) *)
  let story := [] in

  (* Cover page will be added separately via onFirstPage *)
  let story := append story PageBreak in

  (* Table of Contents *)
  let story := extend story (build_toc styles) in

  (* Executive Summary *)
  let story := extend story (build_executive_summary styles) in

  (* Market Overview *)
  let story := extend story (build_market_overview styles) in

  (* Add market growth chart after market overview *)
  story ← add_chart_to_story story create_market_growth_chart 450 250
    "Figure 1: Antenna Market Growth Projections by Segment (2024-2030)" styles;

  let story := append story PageBreak in

  (* Technology Trends *)
  let story := extend story (build_technology_trends styles) in

  (* Add CAGR comparison chart *)
  story ← add_chart_to_story story create_cagr_comparison_chart 450 250
    "Figure 2: Growth Rates Comparison Across Key Market Segments" styles;

  (* Competitive Landscape *)
  let story := extend story (build_competitive_landscape styles) in

  (* Add regional chart *)
  story ← add_chart_to_story story create_regional_market_chart 350 230
    "Figure 3: Global Antenna Market Distribution by Region (2025)" styles;

  (* Regional Insights *)
  let story := extend story (build_regional_insights styles) in

  (* Add Germany market chart *)
  story ← add_chart_to_story story create_germany_market_chart 450 250
    "Figure 4: Germany Key Market Segments Growth Projection" styles;

  (* Strategic Recommendations *)
  let story := extend story (build_strategic_recommendations styles) in

  (* Add portfolio chart before risk section *)
  story ← add_chart_to_story story create_portfolio_allocation_chart 300 300
    "Figure 5: Recommended Product Portfolio Allocation" styles;

  (* Risk Analysis *)
  let story := extend story (build_risk_analysis styles) in

  (* Implementation Timeline *)
  let story := extend story (build_implementation_timeline styles) in

  (* Add timeline chart *)
  story ← add_chart_to_story story create_timeline_chart 480 180
    "Figure 6: 2026 Implementation Roadmap" styles;

  (* Success Metrics *)
  let story := extend story (build_success_metrics styles) in

  (* Conclusion *)
  let story := extend story (build_conclusion styles) in

  (* References *)
  let story := extend story (build_references styles) in

  (* Build PDF *)
  perform (doc_build doc story create_cover_page page_header_footer);;

  perform (print ("Premium report generated: " ++ output_path)%string);;
  mret output_path.

(** ** Entry point *)

Definition output_dir : string := "/Users/philippholke/Crimson Sun/bane/output".

Definition output_file : string :=
  os_path_join output_dir "Global_IoT_Robotics_Antenna_Market_Strategy_2026_Premium.pdf".

(** The body of [if __name__ == "__main__":]. *)
Definition main : Prog string :=
  perform (os_makedirs output_dir true);;
  build_premium_report output_file.

(** ** Reading a run *)

(** The [doc.build] calls in a history, most recent first. *)
Definition build_calls (t : list Event) : list (SimpleDocTemplate * list Flowable) :=
  flat_map (fun ev => match ev_call ev with
                      | doc_build doc flowables _ _ => [(doc, flowables)]
                      | _ => []
                      end) t.

(** The files written through [tmp.write], most recent first. *)
Definition file_writes (t : list Event) : list (string * FileData) :=
  flat_map (fun ev => match ev_call ev with
                      | file_write name data => [(name, data)]
                      | _ => []
                      end) t.

(** The files the images of a story point at, in story order. *)
Definition images (story : list Flowable) : list string :=
  flat_map (fun f => match f with Image filename _ _ => [filename] | _ => [] end) story.

(** The world with further events on top of its history. *)
Definition record_events (w : World) (evs : list Event) : World :=
  mkWorld (fs w) (argv w) (environ w) (stdout w) (figure w) (evs ++ trace w).

(** ** A library in which every call returns *)

(** The length of the longest path in use. *)
Definition longest_name (fs : gmap string Node) : nat :=
  foldr (fun kv n => Nat.max (String.length (fst kv)) n) 0%nat (map_to_list fs).

(** No call raises, the sample style sheet is empty, and a temporary file
    gets a name longer than every path in use. *)
Definition quiet_library : Library :=
  {| raises _ _ _ := None;
     sample_styles := ∅;
     mkstemp suffix fs :=
       ("/tmp/tmp" ++ str_mul "x" (Z.of_nat (S (longest_name fs))) ++ suffix)%string |}.

(** A machine with no files, and one invocation with arguments and
    environment variables that name other output locations. *)
Definition empty_world : World := mkWorld ∅ [] ∅ [] [] [].

Definition busy_world : World :=
  mkWorld
    {[ "/Users" := Dir; "/tmp/notes.txt" := File NoData ]}
    ["generate_premium_report.py"; "--output"; "/tmp/report.pdf"]
    {[ "OUTPUT_DIR" := "/srv/reports"; "TMPDIR" := "/var/tmp" ]}
    ["hello"]
    [call "ax" "plot" [VNum 1] []]
    [].





(** ** What the generators and the style setup produce *)

(** The picture a generator returns and the calls it makes, read off the
    run in which every call returns. *)
Definition chart_data (g : Prog FileData) : FileData :=
  fst (run quiet_library g empty_world).

Definition chart_events (g : Prog FileData) : list Event :=
  trace (snd (run quiet_library g empty_world)).

(** A generator is self-contained when, wherever it is started, it makes
    the same calls and returns the same picture, touches nothing but
    pyplot's current figure, and leaves no figure open. *)
Definition self_contained (g : Prog FileData) : Prop :=
  forall (lib : Library) (w : World),
    run lib g w
    = (chart_data g,
       mkWorld (fs w) (argv w) (environ w) (stdout w) [] (chart_events g ++ trace w)).

(** The style sheet [get_premium_styles] returns and the calls it makes. *)
Definition premium_styles (lib : Library) : StyleSheet :=
  fst (run lib get_premium_styles empty_world).

Definition styles_events (lib : Library) : list Event :=
  trace (snd (run lib get_premium_styles empty_world)).

(** The names the content builders look up. *)
Definition style_names : list string :=
  [ "ExecTitle"; "SectionHeader"; "SubsectionHeader"; "H3Header"; "PremiumBody";
    "BulletText"; "InsightText"; "TableHeader"; "TableCell"; "TOCEntry";
    "TOCSection"; "Caption"; "Callout" ].

(** ** The story, segment by segment *)

(** What [add_chart_to_story] appends for the image file [tmp_path]. *)
Definition chart_block (tmp_path : string) (width height : Q) (caption : string)
    (styles : StyleSheet) : list Flowable :=
  [ Spacer 1 15; Image tmp_path width height;
    Paragraph caption (getitem styles "Caption"); Spacer 1 10 ].

Definition growth_chart_block (styles : StyleSheet) (p : string) :=
  chart_block p 450 250
    "Figure 1: Antenna Market Growth Projections by Segment (2024-2030)" styles.
Definition cagr_chart_block (styles : StyleSheet) (p : string) :=
  chart_block p 450 250
    "Figure 2: Growth Rates Comparison Across Key Market Segments" styles.
Definition regional_chart_block (styles : StyleSheet) (p : string) :=
  chart_block p 350 230
    "Figure 3: Global Antenna Market Distribution by Region (2025)" styles.
Definition germany_chart_block (styles : StyleSheet) (p : string) :=
  chart_block p 450 250
    "Figure 4: Germany Key Market Segments Growth Projection" styles.
Definition portfolio_chart_block (styles : StyleSheet) (p : string) :=
  chart_block p 300 300
    "Figure 5: Recommended Product Portfolio Allocation" styles.
Definition timeline_chart_block (styles : StyleSheet) (p : string) :=
  chart_block p 480 180 "Figure 6: 2026 Implementation Roadmap" styles.

(** The image files of the six charts, in the order they are inserted. *)
Record ChartPaths := mkChartPaths {
  growth_png : string; cagr_png : string; regional_png : string;
  germany_png : string; portfolio_png : string; timeline_png : string
}.

Definition paths_list (ps : ChartPaths) : list string :=
  [ growth_png ps; cagr_png ps; regional_png ps; germany_png ps; portfolio_png ps;
    timeline_png ps ].

(** The segments of the story in the order the specification lists them. *)
Definition listed_segments (styles : StyleSheet) (ps : ChartPaths)
    : list (list Flowable) :=
  [ [PageBreak];
    build_toc styles;
    build_executive_summary styles;
    build_market_overview styles;
    growth_chart_block styles (growth_png ps);
    build_technology_trends styles;
    cagr_chart_block styles (cagr_png ps);
    build_competitive_landscape styles;
    regional_chart_block styles (regional_png ps);
    build_regional_insights styles;
    germany_chart_block styles (germany_png ps);
    build_strategic_recommendations styles;
    portfolio_chart_block styles (portfolio_png ps);
    build_risk_analysis styles;
    build_implementation_timeline styles;
    timeline_chart_block styles (timeline_png ps);
    build_success_metrics styles;
    build_conclusion styles;
    build_references styles ].

(** The segments of the story the assembler builds: the listed ones, with
    the page break the assembler itself puts after the growth chart. *)
Definition story_segments (styles : StyleSheet) (ps : ChartPaths)
    : list (list Flowable) :=
  [ [PageBreak];
    build_toc styles;
    build_executive_summary styles;
    build_market_overview styles;
    growth_chart_block styles (growth_png ps);
    [PageBreak];
    build_technology_trends styles;
    cagr_chart_block styles (cagr_png ps);
    build_competitive_landscape styles;
    regional_chart_block styles (regional_png ps);
    build_regional_insights styles;
    germany_chart_block styles (germany_png ps);
    build_strategic_recommendations styles;
    portfolio_chart_block styles (portfolio_png ps);
    build_risk_analysis styles;
    build_implementation_timeline styles;
    timeline_chart_block styles (timeline_png ps);
    build_success_metrics styles;
    build_conclusion styles;
    build_references styles ].

(** The generators in the order the assembler calls them. *)
Definition inserted_generators : list (Prog FileData) :=
  [ create_market_growth_chart; create_cagr_comparison_chart;
    create_regional_market_chart; create_germany_market_chart;
    create_portfolio_allocation_chart; create_timeline_chart ].

(** ** The files of a run *)

(** Creating and filling one chart file: the name is chosen against the
    files in use at that moment. *)
Definition chart_file (lib : Library) (fs : gmap string Node) : string :=
  mkstemp lib ".png" fs.

Definition with_chart_file (lib : Library) (fs : gmap string Node) (g : Prog FileData)
    : gmap string Node :=
  <[chart_file lib fs := File (chart_data g)]> fs.

(** The file system before each chart is added; [fs0] is the one the
    assembler starts from. *)
Definition fs_before_chart (lib : Library) (fs0 : gmap string Node) (n : nat)
    : gmap string Node :=
  fold_left (with_chart_file lib) (firstn n inserted_generators) fs0.

Definition chart_paths (lib : Library) (fs0 : gmap string Node) : ChartPaths :=
  mkChartPaths
    (chart_file lib (fs_before_chart lib fs0 0))
    (chart_file lib (fs_before_chart lib fs0 1))
    (chart_file lib (fs_before_chart lib fs0 2))
    (chart_file lib (fs_before_chart lib fs0 3))
    (chart_file lib (fs_before_chart lib fs0 4))
    (chart_file lib (fs_before_chart lib fs0 5)).

(** The document object and the story of a run started on [fs0]. *)
Definition report_doc : SimpleDocTemplate :=
  mkSimpleDocTemplate output_file A4 50 50 60 60.

Definition report_story (lib : Library) (fs0 : gmap string Node) : list Flowable :=
  concat (story_segments (premium_styles lib) (chart_paths lib fs0)).

(** The story the specification's list describes, for the same run. *)
Definition listed_story (lib : Library) (fs0 : gmap string Node) : list Flowable :=
  concat (listed_segments (premium_styles lib) (chart_paths lib fs0)).

(** [s.endswith(suffix)] *)
Definition endswith (s suffix : string) : bool :=
  String.eqb
    (substring (String.length s - String.length suffix) (String.length suffix) s)
    suffix
  && (String.length suffix <=? String.length s)%nat.

(** What [tempfile] promises of the names it hands out: the name is not in
    use and carries the suffix asked for. *)
Definition fresh_names (lib : Library) : Prop :=
  forall (suffix : string) (fs : gmap string Node),
    fs !! mkstemp lib suffix fs = None
    /\ endswith (mkstemp lib suffix fs) suffix = true.

(** ** The calls of a run *)

Definition report_message : string :=
  ("Premium report generated: " ++ output_file)%string.

(** The calls [add_chart_to_story] makes for generator [g] when the files in
    use are [fs], most recent first: the write, the creation of the file,
    and the generator's own. *)
Definition chart_insert_events (lib : Library) (fs : gmap string Node)
    (g : Prog FileData) : list Event :=
  mkEvent _ (file_write (chart_file lib fs) (chart_data g)) None
  :: mkEvent _ (NamedTemporaryFile ".png" false) None
  :: chart_events g.

(** The calls of [build_premium_report output_file] started on the files
    [fs0], most recent first. *)
Definition report_events (lib : Library) (fs0 : gmap string Node) : list Event :=
  [ mkEvent _ (print report_message) None;
    mkEvent _ (doc_build report_doc (report_story lib fs0)
                 create_cover_page page_header_footer) None ]
  ++ chart_insert_events lib (fs_before_chart lib fs0 5) create_timeline_chart
  ++ chart_insert_events lib (fs_before_chart lib fs0 4) create_portfolio_allocation_chart
  ++ chart_insert_events lib (fs_before_chart lib fs0 3) create_germany_market_chart
  ++ chart_insert_events lib (fs_before_chart lib fs0 2) create_regional_market_chart
  ++ chart_insert_events lib (fs_before_chart lib fs0 1) create_cagr_comparison_chart
  ++ chart_insert_events lib (fs_before_chart lib fs0 0) create_market_growth_chart
  ++ styles_events lib.

(** The world [build_premium_report output_file] leaves. *)
Definition report_world (lib : Library) (w : World) : World :=
  mkWorld
    (<[output_file := File (PDF report_doc (report_story lib (fs w)))]>
       (fs_before_chart lib (fs w) 6))
    (argv w) (environ w) (stdout w ++ [report_message]) []
    (report_events lib (fs w) ++ trace w).

(** The world a whole run leaves. *)
Definition main_world (lib : Library) (w : World) : World :=
  report_world lib
    (with_fs (record_event w (mkEvent _ (os_makedirs output_dir true) None))
       (makedirs (fs w) output_dir)).

(** The title a picture was given with [ax.set_title]. *)
Definition chart_title (d : FileData) : string :=
  match d with
  | PNG figure _ =>
      match
        flat_map (fun c => match c with
                           | call "ax" "set_title" (VStr title :: _) _ => [title]
                           | _ => []
                           end) figure
      with
      | title :: _ => title
      | [] => EmptyString
      end
  | _ => EmptyString
  end.

(** The numbers of the chapter headers of a story, in story order. *)
Definition chapters (story : list Flowable) : list Z :=
  flat_map (fun f => match f with
                     | OfChapterHeader h => [ChapterHeader.number h]
                     | _ => []
                     end) story.

(** ** The wrapping and the gradient as the specification words them *)

(** Greedy line-fill over words. [cur] holds the words of the line being
    filled. A word joins the line when the line still fits with it;
    otherwise the line is committed (if it has a word) and the word opens
    the next one. *)
Fixpoint greedy_fill (fits : string -> bool) (cur : list string)
    (words : list string) : list (list string) :=
  match words with
  | [] => match cur with [] => [] | _ => [cur] end
  | w :: ws =>
      if fits (join (cur ++ [w])) then greedy_fill fits (cur ++ [w]) ws
      else match cur with
           | [] => greedy_fill fits [w] ws
           | _ => cur :: greedy_fill fits [w] ws
           end
  end.

(** The test of the wrapping loop: the line is strictly narrower, in 9pt
    Helvetica, than the box less its padding. *)
Definition label_fits `{FontMetrics} (self : KeyMetricBox.t) (test_line : string) : bool :=
  Qltb (stringWidth test_line "Helvetica" 9) (KeyMetricBox.box_width self - 16).

(** What the wrapping loop leaves in [lines] once the last line is flushed. *)
Definition flush (st : list string * string) : list string :=
  let '(lines, current_line) := st in
  if truthy current_line then append lines current_line else lines.

(** The calls [KeyMetricBox.draw] issues before it reaches the label lines:
    background, accent bar, value, and the label's colour and font. *)
Definition frame_calls (self : KeyMetricBox.t) : list CanvasOp :=
  let w := KeyMetricBox.box_width self in
  let h := KeyMetricBox.box_height self in
  [ setFillColor PremiumColors.GRAY_100;
    roundRect 0 0 w h 8 1 0;
    setFillColor (KeyMetricBox.accent_color self);
    rect 0 (h - 4) w 4 1 0;
    setFillColor PremiumColors.NAVY_DARK;
    setFont "Helvetica-Bold" 20;
    drawCentredString (w / 2) (h - 35) (KeyMetricBox.value self);
    setFillColor PremiumColors.GRAY_500;
    setFont "Helvetica" 9 ].

(** One centred string per line, the first at height [y], each next one 12
    points lower. *)
Fixpoint label_calls (self : KeyMetricBox.t) (y : Q) (lines : list string)
    : list CanvasOp :=
  match lines with
  | [] => []
  | l :: ls =>
      drawCentredString (KeyMetricBox.box_width self / 2) y l
      :: label_calls self (y - 12) ls
  end.

(** A fixed-pitch stand-in for the font metrics, 0.6 em per character, for
    running the drawing code on concrete boxes. *)
Definition fixed_pitch : FontMetrics :=
  {| stringWidth text fontName fontSize :=
       inject_Z (Z.of_nat (String.length text)) * fontSize * (6 # 10) |}.

(** A box whose label needs three lines at the default width. *)
Definition three_line_box : KeyMetricBox.t :=
  KeyMetricBox.__init__ "<5k" "Customer Acquisition Cost Per Channel Partner"
    KeyMetricBox.default_width KeyMetricBox.default_height None.

(** Linear interpolation at step [i] of 50. *)
Definition lerp (c1 c2 : Q) (i : Z) : Q := c1 + (inject_Z i / 50) * (c2 - c1).

(** The two drawing calls of band [i]: its colour, then its rectangle. *)
Definition gradient_band (self : GradientRect.t) (i : Z) : list CanvasOp :=
  let c1 := GradientRect.color1 self in
  let c2 := GradientRect.color2 self in
  let w := GradientRect.width self in
  let h := GradientRect.height self in
  [ setFillColorRGB (lerp (red c1) (red c2) i) (lerp (green c1) (green c2) i)
      (lerp (blue c1) (blue c2) i);
    if String.eqb (GradientRect.direction self) "horizontal"
    then rect (inject_Z i * w / 50) 0 (w / 50 + 1) h 1 0
    else rect 0 (inject_Z i * h / 50) w (h / 50 + 1) 1 0 ].

(** The text of every [drawCentredString] call, in order. *)
Definition centred_strings (ops : list CanvasOp) : list string :=
  flat_map (fun op => match op with drawCentredString _ _ s => [s] | _ => [] end) ops.

(** ** More ways of reading the canvas, the story and a run *)

(** *** The canvas *)


(** The rectangles painted with [rect], in order: corner and size. *)
Definition rects (ops : list CanvasOp) : list (Q * Q * Q * Q) :=
  flat_map (fun op => match op with rect x y w h _ _ => [(x, y, w, h)] | _ => [] end) ops.

(** The text of every [drawRightString] call, in order. *)
Definition right_strings (ops : list CanvasOp) : list string :=
  flat_map (fun op => match op with drawRightString _ _ s => [s] | _ => [] end) ops.

(** A page callback brackets its drawing when it saves the graphics state
    first, restores it last, and does neither in between. *)
Definition bracketed (draw : PageCallback) (canvas : Canvas) (doc : DocState) : Prop :=
  exists body : list CanvasOp,
    draw canvas doc = canvas ++ saveState :: body ++ [restoreState]
    /\ Forall (fun op => op <> saveState /\ op <> restoreState) body.

(** Where every centred string is drawn, and its text. *)
Definition centred_calls (ops : list CanvasOp) : list (Q * Q * string) :=
  flat_map (fun op => match op with drawCentredString x y s => [(x, y, s)] | _ => [] end) ops.

(** Where every string is anchored, whatever its alignment. *)
Definition string_anchors (ops : list CanvasOp) : list (Q * Q) :=
  flat_map (fun op => match op with
                      | drawString x y _ | drawCentredString x y _
                      | drawRightString x y _ => [(x, y)]
                      | _ => []
                      end) ops.

(** The box a drawing call paints in: left, bottom, right and top. Lines
    are given from left to right. *)
Definition shape_extent (op : CanvasOp) : list (Q * Q * Q * Q) :=
  match op with
  | rect x y w h _ _ | roundRect x y w h _ _ _ => [(x, y, x + w, y + h)]
  | line x1 y1 x2 y2 => [(x1, y1, x2, y2)]
  | circle x y r _ _ => [(x - r, y - r, x + r, y + r)]
  | _ => []
  end.

Definition shape_extents (ops : list CanvasOp) : list (Q * Q * Q * Q) :=
  flat_map shape_extent ops.

(** The box lies inside a flowable of the given size. *)
Definition within (width height : Q) (box : Q * Q * Q * Q) : Prop :=
  let '(x1, y1, x2, y2) := box in
  0 <= x1 /\ x2 <= width /\ 0 <= y1 /\ y2 <= height.

(** [within], decided. *)
Definition withinb (width height : Q) (box : Q * Q * Q * Q) : bool :=
  let '(x1, y1, x2, y2) := box in
  Qle_bool 0 x1 && Qle_bool x2 width && Qle_bool 0 y1 && Qle_bool y2 height.

(** Where band [i] of 50 starts along a side of length [extent], and how
    far it reaches. *)
Definition band_offset (extent : Q) (i : Z) : Q := inject_Z i * extent / 50.

Definition band_size (extent : Q) : Q := extent / 50 + 1.


(** *** Labels *)


(** A string made of blank characters only. *)
Fixpoint blank (s : string) : bool :=
  match s with
  | EmptyString => true
  | String c s' => isspace c && blank s'
  end.

(** *** Styles and builders *)

(** The styles the script adds, read off a run that starts from an empty
    sample sheet. *)
Definition own_styles : StyleSheet := premium_styles quiet_library.

(** The names the content builders and [add_chart_to_story] look up. *)
Definition used_style_names : list string :=
  [ "ExecTitle"; "SectionHeader"; "SubsectionHeader"; "H3Header"; "PremiumBody";
    "BulletText"; "InsightText"; "TableHeader"; "TOCEntry"; "TOCSection";
    "Caption"; "Callout" ].

(** The content builders, in story order. *)
Definition content_builders : list (StyleSheet -> list Flowable) :=
  [ build_toc; build_executive_summary; build_market_overview;
    build_technology_trends; build_competitive_landscape; build_regional_insights;
    build_strategic_recommendations; build_risk_analysis;
    build_implementation_timeline; build_success_metrics; build_conclusion;
    build_references ].

(** The builders of the ten chapters, in story order. *)
Definition chapter_builders : list (StyleSheet -> list Flowable) :=
  [ build_executive_summary; build_market_overview; build_technology_trends;
    build_competitive_landscape; build_regional_insights;
    build_strategic_recommendations; build_risk_analysis;
    build_implementation_timeline; build_success_metrics; build_conclusion ].

(** A library like [quiet_library] whose sample sheet holds two of the
    styles ReportLab ships. *)
Definition sample_library : Library :=
  {| raises _ _ _ := None;
     sample_styles :=
       {[ "Normal" := ParagraphStyle
            [("name", SStr "Normal"); ("fontName", SStr "Helvetica");
             ("fontSize", SNum 10); ("leading", SNum 12)];
          "BodyText" := ParagraphStyle
            [("name", SStr "BodyText"); ("spaceBefore", SNum 6)] ]};
     mkstemp := mkstemp quiet_library |}.

(** *** Runs *)




(** The document [build_premium_report] creates for [output_path]. *)
Definition report_doc_at (output_path : string) : SimpleDocTemplate :=
  mkSimpleDocTemplate output_path A4 50 50 60 60.

(** The message it prints. *)
Definition report_message_at (output_path : string) : string :=
  ("Premium report generated: " ++ output_path)%string.

(** The calls [build_premium_report] makes before it calls [doc.build],
    most recent first: the six chart insertions, and before them the
    style setup. *)
Definition assembly_events (lib : Library) (fs0 : gmap string Node) : list Event :=
  chart_insert_events lib (fs_before_chart lib fs0 5) create_timeline_chart
  ++ chart_insert_events lib (fs_before_chart lib fs0 4) create_portfolio_allocation_chart
  ++ chart_insert_events lib (fs_before_chart lib fs0 3) create_germany_market_chart
  ++ chart_insert_events lib (fs_before_chart lib fs0 2) create_regional_market_chart
  ++ chart_insert_events lib (fs_before_chart lib fs0 1) create_cagr_comparison_chart
  ++ chart_insert_events lib (fs_before_chart lib fs0 0) create_market_growth_chart
  ++ styles_events lib.

(** The lines printed by the calls of a history that returned, most recent
    first. *)
Definition printed (t : list Event) : list string :=
  flat_map (fun ev => match ev_call ev, ev_exn ev with
                      | print s, None => [s]
                      | _, _ => []
                      end) t.

(** *** Pictures *)

(** The plotting calls behind a picture, oldest first. *)
Definition figure_of (d : FileData) : list PlotCall :=
  match d with PNG figure _ => figure | _ => [] end.

(** A plotting call that opens or closes a figure. *)
Definition opens_or_closes (c : PlotCall) : bool :=
  match c with subplots _ | close => true | _ => false end.

(** *** The table of contents, entry by entry *)

(** The entries [build_toc] lists: number (empty for a subsection), title
    and page. *)
Definition toc_items : list (string * string * string) :=
  [ ("1", "Executive Summary", "3");
    ("2", "Market Overview and Sizing", "4");
    (EmptyString, "Total Addressable Market", "4");
    (EmptyString, "Market Drivers and Growth Catalysts", "5");
    ("3", "Technology Trends and Product Evolution", "7");
    (EmptyString, "Antenna Type Segmentation", "7");
    (EmptyString, "Frequency Band Prioritization", "8");
    (EmptyString, "Key Technology Innovations", "9");
    ("4", "Competitive Landscape Analysis", "10");
    (EmptyString, "Global Manufacturers Ecosystem", "10");
    (EmptyString, "Market Share Dynamics", "12");
    ("5", "Regional Insights: Germany-Specific Opportunities", "13");
    (EmptyString, "German Industrial Robotics and IoT Market", "13");
    (EmptyString, "Regulatory Environment", "14");
    ("6", "Strategic Recommendations for 2026", "15");
    (EmptyString, "Product Portfolio Architecture", "15");
    (EmptyString, "Market Segmentation and Vertical Focus", "16");
    (EmptyString, "Distribution and Channel Strategy", "17");
    (EmptyString, "Technical Capability Development", "18");
    (EmptyString, "Partnerships and Strategic Alliances", "19");
    (EmptyString, "Pricing and Margin Strategy", "20");
    (EmptyString, "Marketing and Brand Positioning", "21");
    ("7", "Risk Analysis and Mitigation", "22");
    ("8", "Implementation Timeline", "23");
    ("9", "Success Metrics and KPIs", "24");
    ("10", "Conclusion", "25");
    (EmptyString, "References", "26") ].

(** One pass of the loop of [build_toc]: the paragraph it appends for an
    entry. [text[:80]] counts characters; on ASCII text, as here, they are
    the bytes of the string. *)
Definition toc_entry (styles : StyleSheet) (item : string * string * string) : Flowable :=
  let '(num, title, page) := item in
  let '(style, prefix) :=
    if truthy num then (getitem styles "TOCSection", ("<b>" ++ num ++ ".</b> ")%string)
    else (getitem styles "TOCEntry", "     "%string) in
  (* Create dotted leader line effect *)
  let text := (prefix ++ title ++ " " ++ str_mul "." 50 ++ " " ++ page)%string in
  Paragraph (str_prefix text 80) style.

(** A string of ASCII characters only. *)
Definition ascii_only (s : string) : bool :=
  forallb (fun c => (nat_of_ascii c <? 128)%nat) (list_ascii_of_string s).

(** What comes before the title of an entry. *)
Definition toc_prefix (num : string) : string :=
  if truthy num then ("<b>" ++ num ++ ".</b> ")%string else "     "%string.

Definition paragraph_text (f : Flowable) : string :=
  match f with Paragraph text _ => text | _ => EmptyString end.

(** The entry's paragraph ends with its page number, in full. *)
Definition shows_page (item : string * string * string) : bool :=
  endswith (paragraph_text (toc_entry ∅ item)) (" " ++ snd item).

(** The numbered entries of the table of contents. *)
Definition toc_sections (items : list (string * string * string)) : list (string * string) :=
  flat_map (fun '(num, title, _) => if truthy num then [(num, title)] else []) items.

(** *** Looking into a story *)

(** A flowable and, for a table, the flowables in its cells, at any depth. *)
Fixpoint flowables_in (f : Flowable) : list Flowable :=
  f :: match f with
       | Table data _ _ =>
           flat_map (flat_map (fun cell => match cell with
                                           | inr g => flowables_in g
                                           | inl _ => []
                                           end)) data
       | _ => []
       end.

Definition all_flowables (story : list Flowable) : list Flowable :=
  flat_map flowables_in story.

Definition is_gradient_rect (f : Flowable) : bool :=
  match f with OfGradientRect _ => true | _ => false end.

Definition is_section_divider (f : Flowable) : bool :=
  match f with OfSectionDivider _ => true | _ => false end.

Definition is_key_metric_box (f : Flowable) : bool :=
  match f with OfKeyMetricBox _ => true | _ => false end.

Definition is_chapter_header (f : Flowable) : bool :=
  match f with OfChapterHeader _ => true | _ => false end.

Definition is_table (f : Flowable) : bool :=
  match f with Table _ _ _ => true | _ => false end.

(** How many flowables of a list pass a test. *)
Definition count (test : Flowable -> bool) (l : list Flowable) : nat :=
  length (List.filter test l).

(** An index ReportLab accepts for a table side with [n] cells: [0] to
    [n - 1], or counted from the end, [-1] to [-n]. *)
Definition index_in_range (n : nat) (i : Z) : bool :=
  (- Z.of_nat n <=? i)%Z && (i <? Z.of_nat n)%Z.

(** A table is well formed when it has a row, every row has one cell per
    column width, and every style command names cells of the table. *)
Definition table_ok (f : Flowable) : bool :=
  match f with
  | Table data colWidths cmds =>
      negb (Nat.eqb (length data) 0)
      && forallb (fun row => Nat.eqb (length row) (length colWidths)) data
      && forallb (fun '(_, (c1, r1), (c2, r2), _) =>
                    index_in_range (length colWidths) c1
                    && index_in_range (length data) r1
                    && index_in_range (length colWidths) c2
                    && index_in_range (length data) r2) cmds
  | _ => true
  end.

(** The number and title of every chapter header of a story, in order. *)
Definition chapter_headers (story : list Flowable) : list (Z * string) :=
  flat_map (fun f => match f with
                     | OfChapterHeader h => [(ChapterHeader.number h, ChapterHeader.title h)]
                     | _ => []
                     end) story.


(** * Properties *)

(** ** Lists and loops *)

Lemma fold_left_append_each {A B} (step : list A -> B -> list A)
    (f : B -> list A) (l : list B) (acc : list A) :
  (forall acc x, step acc x = acc ++ f x) ->
  fold_left step l acc = acc ++ concat (map f l).
Proof.
  intros Hstep. revert acc. induction l as [|x l IH]; intros acc; simpl.
  - now rewrite app_nil_r.
  - rewrite IH, Hstep. now rewrite <- app_assoc.
Qed.

Lemma Qmult_swap (a b : Q) : a * b = b * a.
Proof.
  destruct a as [an ad], b as [bn bd]. unfold Qmult. simpl.
  f_equal; [apply Z.mul_comm | apply Pos.mul_comm].
Qed.

(** ** GradientRect *)

Lemma GradientRect_draw_step_band (self : GradientRect.t) (canv : Canvas) (i : Z) :
  GradientRect.draw_step self 50 canv i = canv ++ gradient_band self i.
Proof.
  unfold GradientRect.draw_step, gradient_band, lerp, append.
  rewrite !(Qmult_swap (inject_Z i / 50)).
  destruct (String.eqb _ _); rewrite <- app_assoc; reflexivity.
Qed.

(** C6. [GradientRect.draw] appends exactly 50 bands to the canvas; band
    [i] (for [0 <= i < 50]) sets the fill colour to
    [color1 + (i/50) * (color2 - color1)] on each of the three channels and
    then paints a rectangle starting at [i * width / 50] with extent
    [width/50 + 1] (horizontal) or at [i * height / 50] with extent
    [height/50 + 1] (any other direction). *)
Theorem GradientRect_draw_linear_interpolation (self : GradientRect.t) (canv : Canvas) :
  let bands := map (gradient_band self) (range 50) in
  GradientRect.draw self canv = canv ++ concat bands
  /\ length bands = 50%nat
  /\ forall i : Z, (0 <= i < 50)%Z -> bands !! Z.to_nat i = Some (gradient_band self i).
Proof.
  intros bands. split; [|split].
  - unfold GradientRect.draw. subst bands.
    apply fold_left_append_each. intros acc i.
    apply GradientRect_draw_step_band.
  - reflexivity.
  - intros i Hi. subst bands. rewrite list_lookup_fmap. unfold range.
    rewrite list_lookup_fmap, lookup_seq_lt by lia. simpl.
    now rewrite Z2Nat.id by lia.
Qed.

(** ** Flowable sizes *)

(** C10. Each [wrap] override ignores the space it is offered and returns
    the size stored by the constructor. *)
Theorem wrap_ignores_available_space :
  (forall (self : KeyMetricBox.t) (availWidth availHeight : Q),
      KeyMetricBox.wrap self availWidth availHeight
      = (KeyMetricBox.box_width self, KeyMetricBox.box_height self))
  /\ (forall (self : SectionDivider.t) (availWidth availHeight : Q),
      SectionDivider.wrap self availWidth availHeight
      = (SectionDivider.div_width self, 30))
  /\ (forall (self : ChapterHeader.t) (availWidth availHeight : Q),
      ChapterHeader.wrap self availWidth availHeight
      = (ChapterHeader.header_width self, 60)).
Proof. repeat split. Qed.

(** ** Strings *)

Lemma string_app_assoc' (a b c : string) :
  ((a ++ b) ++ c = a ++ (b ++ c))%string.
Proof.
  induction a as [|ch a IH]; [reflexivity|].
  change (String ch ((a ++ b) ++ c) = String ch (a ++ (b ++ c)))%string.
  now rewrite IH.
Qed.



Lemma truthy_app_l (a b : string) : truthy a = true -> truthy (a ++ b)%string = true.
Proof. destruct a; [discriminate | reflexivity]. Qed.

Lemma truthy_app_r (a b : string) : truthy b = true -> truthy (a ++ b)%string = true.
Proof. destruct a; [trivial | reflexivity]. Qed.

(** Every word returned by [split] is non-empty. *)
Lemma split_from_truthy (s cur : string) :
  Forall (fun w => truthy w = true) (split_from cur s).
Proof.
  revert cur. induction s as [|c s IH]; intros cur; simpl.
  - destruct (truthy cur) eqn:E; auto.
  - destruct (isspace c); [destruct (truthy cur) eqn:E|]; auto.
Qed.

Lemma join_snoc (cur : list string) (w : string) :
  cur <> [] -> join (cur ++ [w]) = (join cur ++ " " ++ w)%string.
Proof.
  induction cur as [|a cur IH]; intros Hne; [congruence|].
  destruct cur as [|b cur].
  - reflexivity.
  - change (join ((a :: b :: cur) ++ [w]))
      with (a ++ " " ++ join ((b :: cur) ++ [w]))%string.
    rewrite IH by discriminate.
    change (join (a :: b :: cur)) with (a ++ " " ++ join (b :: cur))%string.
    now rewrite !string_app_assoc'.
Qed.

Lemma join_truthy (cur : list string) :
  cur <> [] -> Forall (fun w => truthy w = true) cur -> truthy (join cur) = true.
Proof.
  destruct cur as [|a cur]; intros Hne Hall; [congruence|].
  inversion Hall as [|? ? Ha _]; subst.
  destruct cur; [exact Ha | now apply truthy_app_l].
Qed.


(** ** KeyMetricBox: wrapping the label *)

Section LabelWrap.
Context `{FontMetrics}.
Variable self : KeyMetricBox.t.

Lemma wrap_loop_greedy (words : list string) :
  Forall (fun w => truthy w = true) words ->
  forall (lines cur : list string),
    Forall (fun w => truthy w = true) cur ->
    flush (fold_left (KeyMetricBox.wrap_step self) words (lines, join cur))
    = lines ++ map join (greedy_fill (label_fits self) cur words).
Proof.
  induction 1 as [|w ws Hw Hws IH]; intros lines cur Hcur.
  - simpl. destruct cur as [|a cur].
    + simpl. now rewrite app_nil_r.
    + rewrite join_truthy by (auto; discriminate). reflexivity.
  - cbn [fold_left greedy_fill]. unfold KeyMetricBox.wrap_step at 2.
    assert (Htest : (if truthy (join cur) then (join cur ++ " " ++ w)%string else w)
                    = join (cur ++ [w])).
    { destruct cur as [|a cur]; [reflexivity|].
      rewrite join_truthy by (auto; discriminate).
      now rewrite join_snoc by discriminate. }
    rewrite Htest. fold (label_fits self (join (cur ++ [w]))).
    destruct (label_fits self (join (cur ++ [w]))).
    + apply IH. apply Forall_app; auto.
    + destruct cur as [|a cur].
      * simpl (truthy (join [])). cbn iota.
        apply (IH lines [w]). auto.
      * rewrite join_truthy by (auto; discriminate). cbv beta iota zeta.
        etransitivity; [apply (IH (append lines (join (a :: cur))) [w]); auto|].
        unfold append. now rewrite <- app_assoc.
Qed.



Lemma label_lines_flush :
  KeyMetricBox.label_lines self
  = flush (fold_left (KeyMetricBox.wrap_step self) (split (KeyMetricBox.label self)) ([], "")).
Proof.
  unfold KeyMetricBox.label_lines, flush.
  now destruct (fold_left _ _ _).
Qed.

End LabelWrap.


(** ** KeyMetricBox: drawing the label *)

Lemma label_loop_calls (self : KeyMetricBox.t) (lines : list string) :
  forall (canv : Canvas) (y_pos : Q),
    fst (fold_left
           (fun '(canv, y_pos) line =>
              let canv :=
                append canv
                  (drawCentredString (KeyMetricBox.box_width self / 2) y_pos line) in
              (canv, y_pos - 12))
           lines (canv, y_pos))
    = canv ++ label_calls self y_pos lines.
Proof.
  induction lines as [|l ls IH]; intros canv y_pos; simpl.
  - now rewrite app_nil_r.
  - rewrite IH. unfold append. now rewrite <- app_assoc.
Qed.

(** Every run of [draw] adds the frame calls and then one call per line
    among the first two. *)
Lemma KeyMetricBox_draw_calls `{FontMetrics} (self : KeyMetricBox.t) (canv : Canvas) :
  KeyMetricBox.draw self canv
  = canv ++ frame_calls self
      ++ label_calls self (KeyMetricBox.box_height self - 55)
           (firstn 2 (KeyMetricBox.label_lines self)).
Proof.
  unfold KeyMetricBox.draw.
  match goal with
  | |- (let '(c, _) := ?loop in c) = _ =>
      transitivity (fst loop); [now destruct loop|]
  end.
  rewrite label_loop_calls. unfold append, frame_calls.
  rewrite <- !app_assoc. reflexivity.
Qed.

(** C9. When the wrapped label has more than two lines, [draw] issues a
    centred string for the first and for the second line only: after the
    frame calls the canvas receives exactly these two calls, and none for
    the third or any later line. *)
Theorem KeyMetricBox_draw_drops_lines_after_second `{FontMetrics}
    (self : KeyMetricBox.t) (canv : Canvas) :
  (2 < length (KeyMetricBox.label_lines self))%nat ->
  exists (l1 l2 : string) (dropped : list string),
    KeyMetricBox.label_lines self = l1 :: l2 :: dropped
    /\ dropped <> []
    /\ KeyMetricBox.draw self canv
       = canv ++ frame_calls self
           ++ [ drawCentredString (KeyMetricBox.box_width self / 2)
                  (KeyMetricBox.box_height self - 55) l1;
                drawCentredString (KeyMetricBox.box_width self / 2)
                  (KeyMetricBox.box_height self - 55 - 12) l2 ]
    /\ centred_strings (KeyMetricBox.draw self [])
       = [KeyMetricBox.value self; l1; l2].
Proof.
  intros Hlen. rewrite !KeyMetricBox_draw_calls.
  destruct (KeyMetricBox.label_lines self) as [|l1 [|l2 [|l3 rest]]] eqn:E;
    simpl in Hlen; try lia.
  exists l1, l2, (l3 :: rest). repeat split; try discriminate.
Qed.

Lemma KeyMetricBox_draw_drops_lines_after_second_witness :
  (2 < length (KeyMetricBox.label_lines (H := fixed_pitch) three_line_box))%nat
  /\ exists (l1 l2 : string) (dropped : list string),
    KeyMetricBox.label_lines (H := fixed_pitch) three_line_box = l1 :: l2 :: dropped
    /\ dropped <> []
    /\ KeyMetricBox.draw (H := fixed_pitch) three_line_box []
       = [] ++ frame_calls three_line_box
           ++ [ drawCentredString (KeyMetricBox.box_width three_line_box / 2)
                  (KeyMetricBox.box_height three_line_box - 55) l1;
                drawCentredString (KeyMetricBox.box_width three_line_box / 2)
                  (KeyMetricBox.box_height three_line_box - 55 - 12) l2 ]
    /\ centred_strings (KeyMetricBox.draw (H := fixed_pitch) three_line_box [])
       = [KeyMetricBox.value three_line_box; l1; l2].
Proof.
  split.
  - vm_compute. lia.
  - apply (KeyMetricBox_draw_drops_lines_after_second (H := fixed_pitch)
             three_line_box []).
    vm_compute. lia.
Defined.

(** The first metric box of the executive summary, measured with the
    fixed-pitch metrics: the label takes two lines. *)
Example label_of_first_metric_box :
  KeyMetricBox.label_lines (H := fixed_pitch)
    (KeyMetricBox.__init__ "$15B+" "IoT Antenna Market 2026"
       KeyMetricBox.default_width KeyMetricBox.default_height (Some PremiumColors.TEAL))
  = ["IoT Antenna Market"; "2026"].
Proof. vm_compute. reflexivity. Qed.

(** A word wider than the box is put on a line of its own, and no empty
    line is committed before it. *)
Example label_with_a_long_first_word :
  KeyMetricBox.label_lines (H := fixed_pitch)
    (KeyMetricBox.__init__ "v" "Supercalifragilisticexpialidocious ab"
       KeyMetricBox.default_width KeyMetricBox.default_height None)
  = ["Supercalifragilisticexpialidocious"; "ab"].
Proof. vm_compute. reflexivity. Qed.

Example three_line_label :
  KeyMetricBox.label_lines (H := fixed_pitch) three_line_box
  = ["Customer"; "Acquisition Cost"; "Per Channel Partner"].
Proof. vm_compute. reflexivity. Qed.

(** ** Running programs *)

Lemma exec_bind (lib : Library) {A B} (p : Prog A) (f : A -> Prog B) (w : World) :
  exec lib (p ≫= f) w
  = match exec lib p w with
    | (Ok a, w1) => exec lib (f a) w1
    | (Raise e, w1) => (Raise e, w1)
    end.
Proof.
  change (p ≫= f) with (bind p f).
  revert w. induction p as [a | R c k IH]; intros w.
  - reflexivity.
  - cbn [bind exec]. destruct (raises lib R c w); [reflexivity | apply IH].
Qed.

Lemma run_bind (lib : Library) {A B} (p : Prog A) (f : A -> Prog B) (w : World) :
  run lib (p ≫= f) w = run lib (f (fst (run lib p w))) (snd (run lib p w)).
Proof.
  change (p ≫= f) with (bind p f).
  revert w. induction p as [a | R c k IH]; intros w.
  - reflexivity.
  - cbn [bind run]. apply IH.
Qed.

Lemma run_perform (lib : Library) {R} (c : Call R) (w : World) :
  run lib (perform c) w
  = (reply lib c w, effect lib c (record_event w (mkEvent R c None))).
Proof. reflexivity. Qed.

(** A run that ends normally is the run in which every call returns. *)
Lemma exec_Ok_run (lib : Library) {A} (p : Prog A) (w w' : World) (a : A) :
  exec lib p w = (Ok a, w') -> run lib p w = (a, w').
Proof.
  revert w. induction p as [b | R c k IH]; intros w; cbn [exec run].
  - now intros [= -> ->].
  - destruct (raises lib R c w); [discriminate | apply IH].
Qed.

(** Where no call raises, the run ends normally. *)
Lemma exec_quiet (lib : Library) {A} (p : Prog A) (w : World) :
  (forall R (c : Call R) w, raises lib R c w = None) ->
  exec lib p w = (Ok (fst (run lib p w)), snd (run lib p w)).
Proof.
  intros Hq. revert w. induction p as [b | R c k IH]; intros w; cbn [exec run].
  - reflexivity.
  - rewrite Hq. apply IH.
Qed.

(** ** The generators *)

Lemma growth_self_contained : self_contained create_market_growth_chart.
Proof. intros lib w. vm_compute. reflexivity. Qed.

Lemma regional_self_contained : self_contained create_regional_market_chart.
Proof. intros lib w. vm_compute. reflexivity. Qed.

Lemma germany_self_contained : self_contained create_germany_market_chart.
Proof. intros lib w. vm_compute. reflexivity. Qed.

Lemma cagr_self_contained : self_contained create_cagr_comparison_chart.
Proof. intros lib w. vm_compute. reflexivity. Qed.

Lemma timeline_self_contained : self_contained create_timeline_chart.
Proof. intros lib w. vm_compute. reflexivity. Qed.

Lemma portfolio_self_contained : self_contained create_portfolio_allocation_chart.
Proof. intros lib w. vm_compute. reflexivity. Qed.

Lemma run_get_premium_styles (lib : Library) (w : World) :
  run lib get_premium_styles w
  = (premium_styles lib, record_events w (styles_events lib)).
Proof. reflexivity. Qed.

(** ** The assembler *)

Lemma run_add_chart_to_story (lib : Library) (g : Prog FileData)
    (story : list Flowable) (width height : Q) (caption : string)
    (styles : StyleSheet) (w : World) :
  self_contained g ->
  run lib (add_chart_to_story story g width height caption styles) w
  = (story ++ chart_block (chart_file lib (fs w)) width height caption styles,
     mkWorld (with_chart_file lib (fs w) g) (argv w) (environ w) (stdout w) []
       (chart_insert_events lib (fs w) g ++ trace w)).
Proof.
  intros Hg. unfold add_chart_to_story.
  rewrite run_bind, (Hg lib w). cbn [fst snd].
  rewrite run_bind, run_perform. cbn [fst snd].
  rewrite run_bind, run_perform. cbn [fst snd].
  unfold with_chart_file, chart_file, chart_block, append. cbn.
  rewrite insert_insert_eq, <- !app_assoc. reflexivity.
Qed.

Ltac chart_step H :=
  rewrite run_bind, run_add_chart_to_story by apply H;
  cbn [fst snd fs argv environ stdout figure trace record_events]; cbv beta zeta.

Lemma run_build_premium_report (lib : Library) (w : World) :
  run lib (build_premium_report output_file) w = (output_file, report_world lib w).
Proof.
  unfold build_premium_report.
  rewrite run_bind, run_get_premium_styles. cbn [fst snd]. cbv beta zeta.
  chart_step growth_self_contained.
  chart_step cagr_self_contained.
  chart_step regional_self_contained.
  chart_step germany_self_contained.
  chart_step portfolio_self_contained.
  chart_step timeline_self_contained.
  match goal with
  | |- context [doc_build _ ?s _ _] =>
      replace s with (report_story lib (fs w))
  end.
  2: { unfold report_story, story_segments, extend, append.
       cbn [concat]. rewrite <- !app_assoc, app_nil_r. reflexivity. }
  rewrite run_bind, run_perform. cbn [fst snd]. cbv beta zeta.
  rewrite run_bind, run_perform. cbn [fst snd]. cbv beta zeta.
  cbn [run effect record_event with_fs with_stdout fs argv environ stdout figure
       trace filename].
  unfold report_world, report_events. rewrite <- !app_assoc. reflexivity.
Qed.

Lemma run_main (lib : Library) (w : World) :
  run lib main w = (output_file, main_world lib w).
Proof.
  unfold main. rewrite run_bind, run_perform. cbn [fst snd]. cbv beta zeta.
  apply run_build_premium_report.
Qed.

(** Every style the content builders look up is in the sheet the script
    prepares, whatever the sample sheet holds. *)
Lemma premium_styles_defined (lib : Library) (name : string) :
  In name style_names -> is_Some (premium_styles lib !! name).
Proof.
  intros H.
  lazy [premium_styles get_premium_styles run fst mbind mret Prog_bind Prog_ret bind
        perform reply style_name List.find style_kwargs String.eqb Ascii.eqb Bool.eqb].
  repeat destruct H as [<- | H]; try contradiction;
    repeat (apply lookup_insert_is_Some;
            first [left; reflexivity | right; split; [discriminate |]]).
Qed.

(** ** Reading the history of a run *)

Lemma build_calls_app (t1 t2 : list Event) :
  build_calls (t1 ++ t2) = build_calls t1 ++ build_calls t2.
Proof. apply flat_map_app. Qed.

Lemma file_writes_app (t1 t2 : list Event) :
  file_writes (t1 ++ t2) = file_writes t1 ++ file_writes t2.
Proof. apply flat_map_app. Qed.

Lemma chart_events_plain (g : Prog FileData) :
  In g chart_generators ->
  build_calls (chart_events g) = [] /\ file_writes (chart_events g) = [].
Proof.
  intros Hg. repeat destruct Hg as [<- | Hg]; try contradiction;
    split; vm_compute; reflexivity.
Qed.

Lemma inserted_are_generators (g : Prog FileData) :
  In g inserted_generators -> In g chart_generators.
Proof.
  intros Hg. repeat destruct Hg as [<- | Hg]; try contradiction;
    unfold chart_generators; simpl; tauto.
Qed.

Lemma build_calls_chart_insert (lib : Library) (fs : gmap string Node)
    (g : Prog FileData) :
  In g chart_generators -> build_calls (chart_insert_events lib fs g) = [].
Proof.
  intros Hg. transitivity (build_calls (chart_events g)); [reflexivity |].
  apply chart_events_plain, Hg.
Qed.

Lemma file_writes_chart_insert (lib : Library) (fs : gmap string Node)
    (g : Prog FileData) :
  In g chart_generators ->
  file_writes (chart_insert_events lib fs g) = [(chart_file lib fs, chart_data g)].
Proof.
  intros Hg.
  transitivity ((chart_file lib fs, chart_data g) :: file_writes (chart_events g));
    [reflexivity |].
  now rewrite (proj2 (chart_events_plain g Hg)).
Qed.

Lemma styles_events_plain (lib : Library) :
  build_calls (styles_events lib) = [] /\ file_writes (styles_events lib) = [].
Proof. split; reflexivity. Qed.

Ltac in_generators := unfold chart_generators; simpl; tauto.

Lemma build_calls_main_world (lib : Library) (w : World) :
  build_calls (trace (main_world lib w))
  = (report_doc, report_story lib (makedirs (fs w) output_dir))
    :: build_calls (trace w).
Proof.
  unfold main_world, report_world, report_events.
  cbn [trace fs with_fs record_event].
  rewrite !build_calls_app.
  rewrite !build_calls_chart_insert by in_generators.
  rewrite (proj1 (styles_events_plain lib)). reflexivity.
Qed.

Lemma file_writes_main_world (lib : Library) (w : World) :
  file_writes (trace (main_world lib w))
  = rev (combine (paths_list (chart_paths lib (makedirs (fs w) output_dir)))
           (map chart_data inserted_generators))
    ++ file_writes (trace w).
Proof.
  unfold main_world, report_world, report_events.
  cbn [trace fs with_fs record_event].
  rewrite !file_writes_app.
  rewrite !file_writes_chart_insert by in_generators.
  rewrite (proj2 (styles_events_plain lib)). reflexivity.
Qed.

Lemma exec_main_Ok (lib : Library) (w w' : World) (out : string) :
  exec lib main w = (Ok out, w') -> out = output_file /\ w' = main_world lib w.
Proof.
  intros Hrun. apply exec_Ok_run in Hrun. rewrite run_main in Hrun.
  now injection Hrun as <- <-.
Qed.

(** ** The assembler's story *)

(** C1, as amended. In a run that ends normally the layout engine's
    [doc.build] is called exactly once, and the story it receives is, in
    this order: the cover page break, the table of contents, the executive
    summary, the market overview, the growth chart, a page break,
    technology trends, the CAGR chart, the competitive landscape, the
    regional chart, regional insights, the Germany chart, the strategic
    recommendations, the portfolio chart, the risk analysis, the
    implementation timeline, the timeline chart, the success metrics, the
    conclusion and the references. *)
Theorem build_premium_report_story_order (lib : Library) (w w' : World) (out : string) :
  exec lib main w = (Ok out, w') ->
  build_calls (trace w')
  = (report_doc,
     concat (story_segments (premium_styles lib)
               (chart_paths lib (makedirs (fs w) output_dir))))
    :: build_calls (trace w).
Proof.
  intros Hrun. apply exec_main_Ok in Hrun as [_ ->].
  apply build_calls_main_world.
Qed.

Lemma build_premium_report_story_order_witness :
  exec quiet_library main busy_world
  = (Ok output_file, main_world quiet_library busy_world)
  /\ build_calls (trace (main_world quiet_library busy_world))
     = (report_doc,
        concat (story_segments (premium_styles quiet_library)
                  (chart_paths quiet_library (makedirs (fs busy_world) output_dir))))
       :: build_calls (trace busy_world).
Proof.
  assert (Hrun : exec quiet_library main busy_world
                 = (Ok output_file, main_world quiet_library busy_world)).
  { rewrite exec_quiet by reflexivity. now rewrite run_main. }
  split; [exact Hrun |].
  exact (build_premium_report_story_order quiet_library busy_world _ _ Hrun).
Defined.

(** The order as the specification lists it, with technology trends right
    after the growth chart, is not the story of any run: the story built
    has one more flowable, the page break after the growth chart. *)
Lemma listed_order_misses_page_break :
  ~ exists (styles : StyleSheet) (ps : ChartPaths),
      build_calls (trace (snd (exec quiet_library main empty_world)))
      = [(report_doc, concat (listed_segments styles ps))].
Proof.
  intros (styles & ps & H).
  apply (f_equal (map (fun call => length (snd call)))) in H.
  vm_compute in H. discriminate H.
Qed.

(** A run that is cut short made the calls of the run in which every call
    returns, up to the call that raised. *)
Lemma trace_effect (lib : Library) {R} (c : Call R) (w : World) (ev : Event) :
  trace (effect lib c (record_event w ev)) = ev :: trace w.
Proof. now destruct c as [| | | [] | | | | |]. Qed.

Lemma run_history (lib : Library) {A} (p : Prog A) (w : World) :
  exists evs : list Event, trace (snd (run lib p w)) = evs ++ trace w.
Proof.
  revert w. induction p as [a | R c k IH]; intros w; cbn [run].
  - now exists [].
  - destruct (IH (reply lib c w) (effect lib c (record_event w (mkEvent R c None))))
      as [evs Hevs].
    exists (evs ++ [mkEvent R c None]).
    now rewrite Hevs, trace_effect, <- app_assoc.
Qed.

Lemma exec_cut_short (lib : Library) {A} (p : Prog A) (w : World) (e : Exn) :
  fst (exec lib p w) = Raise e ->
  exists (R : Type) (c : Call R) (later before : list Event),
    trace (snd (run lib p w)) = later ++ mkEvent R c None :: before ++ trace w
    /\ trace (snd (exec lib p w)) = mkEvent R c (Some e) :: before ++ trace w.
Proof.
  revert w. induction p as [a | R c k IH]; intros w; cbn [exec run]; [discriminate |].
  destruct (raises lib R c w) as [e0 |] eqn:Hc.
  - intros [= ->].
    destruct (run_history lib (k (reply lib c w))
                (effect lib c (record_event w (mkEvent R c None)))) as [later Hlater].
    exists R, c, later, []. split; [| reflexivity].
    now rewrite Hlater, trace_effect.
  - intros Hraise.
    destruct (IH _ _ Hraise) as (R1 & c1 & later & before & Hrun & Hexec).
    exists R1, c1, later, (before ++ [mkEvent R c None]).
    rewrite Hrun, Hexec, trace_effect, <- !app_assoc. now split.
Qed.

(** In every run, cut short or not, [doc.build] is called at most once. *)
Lemma doc_build_at_most_once (lib : Library) (w : World) :
  exists calls : list (SimpleDocTemplate * list Flowable),
    build_calls (trace (snd (exec lib main w))) = calls ++ build_calls (trace w)
    /\ (length calls <= 1)%nat.
Proof.
  destruct (exec lib main w) as [[out | e] w'] eqn:Hrun.
  - apply exec_main_Ok in Hrun as [_ ->]. cbn [snd].
    rewrite build_calls_main_world. eexists [_]. split; [reflexivity | simpl; lia].
  - destruct (exec_cut_short lib main w e) as (R & c & later & before & Hfull & Hcut);
      [now rewrite Hrun |].
    rewrite Hrun in Hcut. cbn [snd] in *. rewrite run_main in Hfull. cbn [snd] in Hfull.
    apply (f_equal build_calls) in Hfull.
    rewrite build_calls_main_world in Hfull.
    change (mkEvent R c None :: before ++ trace w)
      with ([mkEvent R c None] ++ before ++ trace w) in Hfull.
    rewrite !build_calls_app in Hfull.
    change ((report_doc, report_story lib (makedirs (fs w) output_dir))
            :: build_calls (trace w))
      with ([(report_doc, report_story lib (makedirs (fs w) output_dir))]
            ++ build_calls (trace w)) in Hfull.
    rewrite !app_assoc in Hfull. apply app_inv_tail in Hfull.
    apply (f_equal (@length _)) in Hfull. rewrite !length_app in Hfull.
    exists (build_calls [mkEvent R c (Some e)] ++ build_calls before). split.
    + rewrite Hcut.
      change (mkEvent R c (Some e) :: before ++ trace w)
        with ([mkEvent R c (Some e)] ++ before ++ trace w).
      now rewrite !build_calls_app, app_assoc.
    + rewrite length_app.
      change (build_calls [mkEvent R c (Some e)]) with (build_calls [mkEvent R c None]).
      simpl in Hfull |- *. lia.
Qed.

(** ** The entry point *)

(** C2. [main] takes no argument. Whatever the command line, the
    environment and the files present, and whatever the libraries return,
    a run that ends normally has built its one document for the path
    [/Users/philippholke/Crimson Sun/bane/output/Global_IoT_Robotics_Antenna_Market_Strategy_2026_Premium.pdf],
    has written the report there, and returns that path. *)
Theorem main_writes_the_hardcoded_path (lib : Library) (w w' : World) (out : string) :
  exec lib main w = (Ok out, w') ->
  let path :=
    "/Users/philippholke/Crimson Sun/bane/output/Global_IoT_Robotics_Antenna_Market_Strategy_2026_Premium.pdf" in
  out = path
  /\ (exists (doc : SimpleDocTemplate) (story : list Flowable),
        build_calls (trace w') = (doc, story) :: build_calls (trace w)
        /\ filename doc = path
        /\ fs w' !! path = Some (File (PDF doc story))).
Proof.
  intros Hrun path. apply exec_main_Ok in Hrun as [-> ->].
  split; [reflexivity |].
  exists report_doc, (report_story lib (makedirs (fs w) output_dir)).
  split; [apply build_calls_main_world |]. split; [reflexivity |].
  unfold main_world, report_world. cbn [fs with_fs record_event].
  change path with output_file. apply lookup_insert_eq.
Qed.

Lemma main_writes_the_hardcoded_path_witness :
  exec quiet_library main busy_world
  = (Ok output_file, main_world quiet_library busy_world)
  /\ output_file
     = "/Users/philippholke/Crimson Sun/bane/output/Global_IoT_Robotics_Antenna_Market_Strategy_2026_Premium.pdf"
  /\ (exists (doc : SimpleDocTemplate) (story : list Flowable),
        build_calls (trace (main_world quiet_library busy_world))
        = (doc, story) :: build_calls (trace busy_world)
        /\ filename doc
           = "/Users/philippholke/Crimson Sun/bane/output/Global_IoT_Robotics_Antenna_Market_Strategy_2026_Premium.pdf"
        /\ fs (main_world quiet_library busy_world)
             !! "/Users/philippholke/Crimson Sun/bane/output/Global_IoT_Robotics_Antenna_Market_Strategy_2026_Premium.pdf"
           = Some (File (PDF doc story))).
Proof.
  assert (Hrun : exec quiet_library main busy_world
                 = (Ok output_file, main_world quiet_library busy_world)).
  { rewrite exec_quiet by reflexivity. now rewrite run_main. }
  split; [exact Hrun |].
  exact (main_writes_the_hardcoded_path quiet_library busy_world _ _ Hrun).
Defined.

(** ** Exceptions *)



(** ** Names of temporary files *)

Lemma string_length_app (a b : string) :
  String.length (a ++ b) = (String.length a + String.length b)%nat.
Proof.
  induction a as [|c a IH]; [reflexivity |].
  change (S (String.length (a ++ b)) = S (String.length a + String.length b)).
  now rewrite IH.
Qed.

Lemma str_mul_x_length (n : nat) : String.length (str_mul "x" (Z.of_nat n)) = n.
Proof.
  unfold str_mul. rewrite Nat2Z.id.
  induction n as [|n IH]; [reflexivity |].
  change (S (String.length (fold_right String.append EmptyString (repeat "x"%string n)))
          = S n).
  now rewrite IH.
Qed.

Lemma substring_all (s : string) : substring 0 (String.length s) s = s.
Proof. induction s as [|c s IH]; [reflexivity | simpl; now rewrite IH]. Qed.

Lemma substring_skip (a s : string) :
  substring (String.length a) (String.length s) (a ++ s) = s.
Proof.
  induction a as [|c a IH]; [apply substring_all | exact IH].
Qed.

Lemma endswith_app (a suffix : string) : endswith (a ++ suffix) suffix = true.
Proof.
  unfold endswith. rewrite string_length_app.
  replace (String.length a + String.length suffix - String.length suffix)%nat
    with (String.length a) by lia.
  rewrite substring_skip, String.eqb_refl.
  apply Nat.leb_le. lia.
Qed.

Lemma longest_name_bound (fs : gmap string Node) (k : string) (v : Node) :
  fs !! k = Some v -> (String.length k <= longest_name fs)%nat.
Proof.
  intros Hk. apply elem_of_map_to_list in Hk. unfold longest_name.
  induction (map_to_list fs) as [|kv l IH]; [inversion Hk |].
  apply elem_of_cons in Hk as [<- | Hk]; simpl; [lia |].
  specialize (IH Hk). lia.
Qed.

(** The quiet library hands out names as [tempfile] promises. *)
Lemma quiet_library_fresh : fresh_names quiet_library.
Proof.
  intros suffix fs. split.
  - destruct (fs !! mkstemp quiet_library suffix fs) as [v |] eqn:Hk; [| reflexivity].
    apply longest_name_bound in Hk. cbn [mkstemp quiet_library] in Hk.
    rewrite !string_length_app, str_mul_x_length in Hk. simpl in Hk. lia.
  - cbn [mkstemp quiet_library].
    rewrite <- string_app_assoc'. apply endswith_app.
Qed.

(** ** Directories *)

Lemma makedirs_step_keeps (fs : gmap string Node) (d k : string) (v : Node) :
  fs !! k = Some v ->
  match fs !! d with Some _ => fs | None => <[d := Dir]> fs end !! k = Some v.
Proof.
  intros Hk. destruct (fs !! d) eqn:Hd; [exact Hk |].
  rewrite lookup_insert_ne; [exact Hk | congruence].
Qed.

Lemma makedirs_fold_keeps (ds : list string) (fs : gmap string Node) (k : string)
    (v : Node) :
  fs !! k = Some v ->
  fold_left (fun fs d => match fs !! d with Some _ => fs | None => <[d := Dir]> fs end)
    ds fs !! k = Some v.
Proof.
  revert fs. induction ds as [|d ds IH]; intros fs Hk; [exact Hk |].
  simpl. apply IH, makedirs_step_keeps, Hk.
Qed.



Lemma makedirs_keeps (fs : gmap string Node) (name k : string) (v : Node) :
  fs !! k = Some v -> makedirs fs name !! k = Some v.
Proof. apply makedirs_fold_keeps. Qed.



(** ** Chart files *)

Section ChartFiles.
Variable lib : Library.
Hypothesis Hfresh : fresh_names lib.

Lemma chart_file_fresh (fs : gmap string Node) : fs !! chart_file lib fs = None.
Proof. apply Hfresh. Qed.

Lemma chart_file_not_report (fs : gmap string Node) : chart_file lib fs <> output_file.
Proof.
  intros Heq. pose proof (proj2 (Hfresh ".png" fs)) as Hpng.
  fold (chart_file lib fs) in Hpng. rewrite Heq in Hpng.
  vm_compute in Hpng. discriminate Hpng.
Qed.

Lemma with_chart_file_keeps (fs : gmap string Node) (g : Prog FileData)
    (k : string) (v : Node) :
  fs !! k = Some v -> with_chart_file lib fs g !! k = Some v.
Proof.
  intros Hk. unfold with_chart_file. rewrite lookup_insert_ne; [exact Hk |].
  intros Heq. rewrite <- Heq, chart_file_fresh in Hk. discriminate Hk.
Qed.

Lemma chart_files_keep (gs : list (Prog FileData)) (fs : gmap string Node)
    (k : string) (v : Node) :
  fs !! k = Some v -> fold_left (with_chart_file lib) gs fs !! k = Some v.
Proof.
  revert fs. induction gs as [|g gs IH]; intros fs Hk; [exact Hk |].
  simpl. apply IH, with_chart_file_keeps, Hk.
Qed.

(** The chart file made at step [n] holds the picture of the [n]-th
    generator once all six are made, was not there before, and is not the
    report. *)
Lemma chart_file_kept (fs0 : gmap string Node) (n : nat) (g : Prog FileData) :
  inserted_generators !! n = Some g ->
  let p := chart_file lib (fs_before_chart lib fs0 n) in
  fs_before_chart lib fs0 6 !! p = Some (File (chart_data g))
  /\ fs0 !! p = None
  /\ p <> output_file.
Proof.
  intros Hg p. split; [| split].
  - assert (Hsplit : fs_before_chart lib fs0 6
               = fold_left (with_chart_file lib) (skipn (S n) inserted_generators)
                   (with_chart_file lib (fs_before_chart lib fs0 n) g)).
    { do 6 (destruct n as [|n]; [injection Hg as <-; reflexivity |]).
      discriminate Hg. }
    rewrite Hsplit. apply chart_files_keep. apply lookup_insert_eq.
  - destruct (fs0 !! p) as [v |] eqn:Hp; [| reflexivity].
    apply (chart_files_keep (firstn n inserted_generators)) in Hp.
    fold (fs_before_chart lib fs0 n) in Hp.
    unfold p in Hp. rewrite chart_file_fresh in Hp. discriminate Hp.
  - apply chart_file_not_report.
Qed.

(** A chart file made earlier is not chosen again. *)
Lemma chart_files_differ (fs0 : gmap string Node) (i j : nat) :
  (i < j < 6)%nat ->
  chart_file lib (fs_before_chart lib fs0 i) <> chart_file lib (fs_before_chart lib fs0 j).
Proof.
  intros Hij Heq.
  assert (Hi : is_Some (inserted_generators !! i)).
  { apply lookup_lt_is_Some. simpl. lia. }
  destruct Hi as [g Hg].
  assert (Hthere : fs_before_chart lib fs0 j !! chart_file lib (fs_before_chart lib fs0 i)
                   = Some (File (chart_data g))).
  { assert (Hsplit : fs_before_chart lib fs0 j
               = fold_left (with_chart_file lib)
                   (skipn (S i) (firstn j inserted_generators))
                   (with_chart_file lib (fs_before_chart lib fs0 i) g)).
    { clear Heq.
      destruct j as [|[|[|[|[|[|j]]]]]]; try lia;
        destruct i as [|[|[|[|[|i]]]]]; try lia;
        injection Hg as <-; reflexivity. }
    rewrite Hsplit. apply chart_files_keep, lookup_insert_eq. }
  rewrite Heq, chart_file_fresh in Hthere. discriminate Hthere.
Qed.

End ChartFiles.

Lemma fs_main_world (lib : Library) (w : World) :
  fs (main_world lib w)
  = <[output_file := File (PDF report_doc (report_story lib (makedirs (fs w) output_dir)))]>
      (fs_before_chart lib (makedirs (fs w) output_dir) 6).
Proof. reflexivity. Qed.





(** ** The charts *)

Lemma generators_self_contained (g : Prog FileData) :
  In g chart_generators -> self_contained g.
Proof.
  intros Hg. repeat destruct Hg as [<- | Hg]; try contradiction.
  - apply growth_self_contained.
  - apply regional_self_contained.
  - apply germany_self_contained.
  - apply cagr_self_contained.
  - apply timeline_self_contained.
  - apply portfolio_self_contained.
Qed.

(** The six pictures are six different pictures: their titles differ. *)
Lemma chart_data_distinct : NoDup (map chart_data chart_generators).
Proof.
  apply (NoDup_fmap_1 chart_title). apply (bool_decide_unpack _).
  vm_compute. exact I.
Qed.

Lemma chart_generators_distinct : NoDup chart_generators.
Proof. apply (NoDup_fmap_1 chart_data), chart_data_distinct. Qed.

Lemma inserted_generators_distinct : NoDup inserted_generators.
Proof.
  apply (NoDup_fmap_1 chart_data), (NoDup_fmap_1 chart_title).
  apply (bool_decide_unpack _). vm_compute. exact I.
Qed.

(** The assembler calls the six generators, each once. *)
Lemma inserted_generators_perm : inserted_generators ≡ₚ chart_generators.
Proof.
  apply NoDup_Permutation.
  - apply inserted_generators_distinct.
  - apply chart_generators_distinct.
  - intros g. rewrite !list_elem_of_In.
    unfold inserted_generators, chart_generators. simpl. tauto.
Qed.

Lemma images_app (s1 s2 : list Flowable) : images (s1 ++ s2) = images s1 ++ images s2.
Proof. apply flat_map_app. Qed.

(** No content builder puts an image in the story. *)
Lemma builders_no_images (styles : StyleSheet) :
  Forall (fun build : StyleSheet -> list Flowable => images (build styles) = [])
    [ build_toc; build_executive_summary; build_market_overview;
      build_technology_trends; build_competitive_landscape; build_regional_insights;
      build_strategic_recommendations; build_risk_analysis;
      build_implementation_timeline; build_success_metrics; build_conclusion;
      build_references ].
Proof. repeat constructor; vm_compute; reflexivity. Qed.

Lemma images_report_story (lib : Library) (fs0 : gmap string Node) :
  images (report_story lib fs0) = paths_list (chart_paths lib fs0).
Proof.
  pose proof (builders_no_images (premium_styles lib)) as Hb.
  repeat match type of Hb with
         | Forall _ (_ :: _) =>
             let H := fresh "Hno" in
             apply Forall_cons_1 in Hb as [H Hb]; cbv beta in H
         end.
  unfold report_story, story_segments. cbn [concat].
  rewrite !images_app.
  rewrite Hno, Hno0, Hno1, Hno2, Hno3, Hno4, Hno5, Hno6, Hno7, Hno8, Hno9, Hno10.
  reflexivity.
Qed.

(** C7. There are six chart generators and they take no argument. Each is
    deterministic and self-contained: whatever the state of the process,
    the files, the environment and the style sheet, and whatever the
    libraries did before, a generator that returns has plotted the same
    data, fixed by the literals in its body. The six pictures differ from
    one another. The assembler calls each generator once, writes each
    picture to a file of its own, and puts that file in the story as one
    image: the story holds six images, one per chart. *)
Theorem charts_fixed_and_inserted_once :
  length chart_generators = 6%nat
  /\ NoDup (map chart_data chart_generators)
  /\ inserted_generators ≡ₚ chart_generators
  /\ (forall (g : Prog FileData), In g chart_generators ->
        forall (lib1 lib2 : Library) (w1 w2 w1' w2' : World) (d1 d2 : FileData),
          exec lib1 g w1 = (Ok d1, w1') ->
          exec lib2 g w2 = (Ok d2, w2') ->
          d1 = chart_data g /\ d2 = d1
          /\ fs w1' = fs w1 /\ environ w1' = environ w1 /\ stdout w1' = stdout w1)
  /\ (forall (g : Prog FileData), In g chart_generators ->
        fst (exec quiet_library g busy_world) = Ok (chart_data g))
  /\ (forall (lib : Library) (w w' : World) (out : string),
        exec lib main w = (Ok out, w') ->
        let ps := chart_paths lib (makedirs (fs w) output_dir) in
        exists story : list Flowable,
          build_calls (trace w') = (report_doc, story) :: build_calls (trace w)
          /\ images story = paths_list ps
          /\ file_writes (trace w')
             = rev (combine (paths_list ps) (map chart_data inserted_generators))
               ++ file_writes (trace w))
  /\ fst (exec quiet_library main busy_world) = Ok output_file.
Proof.
  split; [reflexivity |]. split; [apply chart_data_distinct |].
  split; [apply inserted_generators_perm |]. split; [| split; [| split]].
  - intros g Hg lib1 lib2 w1 w2 w1' w2' d1 d2 H1 H2.
    apply exec_Ok_run in H1, H2.
    rewrite (generators_self_contained g Hg) in H1, H2.
    injection H1 as <- <-. injection H2 as <- <-. repeat split.
  - intros g Hg. rewrite exec_quiet by reflexivity.
    now rewrite (generators_self_contained g Hg).
  - intros lib w w' out Hrun ps. apply exec_main_Ok in Hrun as [_ ->].
    exists (report_story lib (makedirs (fs w) output_dir)). split; [| split].
    + apply build_calls_main_world.
    + apply images_report_story.
    + apply file_writes_main_world.
  - rewrite exec_quiet by reflexivity. now rewrite run_main.
Qed.

(** ** Chapters *)

Lemma chapters_app (s1 s2 : list Flowable) :
  chapters (s1 ++ s2) = chapters s1 ++ chapters s2.
Proof. apply flat_map_app. Qed.

(** The story carries the headers of chapters 1 to 10, in order, between
    the table of contents and the references. *)
Lemma report_has_ten_chapters (lib : Library) (fs0 : gmap string Node) :
  chapters (report_story lib fs0) = [1; 2; 3; 4; 5; 6; 7; 8; 9; 10]%Z.
Proof.
  assert (Hb : Forall2 (fun (build : StyleSheet -> list Flowable) ns =>
                          chapters (build (premium_styles lib)) = ns)
                 [ build_toc; build_executive_summary; build_market_overview;
                   build_technology_trends; build_competitive_landscape;
                   build_regional_insights; build_strategic_recommendations;
                   build_risk_analysis; build_implementation_timeline;
                   build_success_metrics; build_conclusion; build_references ]
                 [ []; [1]; [2]; [3]; [4]; [5]; [6]; [7]; [8]; [9]; [10]; [] ]%Z).
  { generalize (premium_styles lib). intros styles.
    repeat constructor; vm_compute; reflexivity. }
  repeat match type of Hb with
         | Forall2 _ (_ :: _) _ =>
             let H := fresh "Hch" in
             apply Forall2_cons_1 in Hb as [H Hb]; cbv beta in H
         end.
  unfold report_story, story_segments. cbn [concat].
  rewrite !chapters_app.
  rewrite Hch, Hch0, Hch1, Hch2, Hch3, Hch4, Hch5, Hch6, Hch7, Hch8, Hch9, Hch10.
  reflexivity.
Qed.
(** * Further properties *)

(** ** GradientRect: where the bands lie and what colours they take *)

Lemma GradientRect_draw_bands (self : GradientRect.t) (canv : Canvas) :
  GradientRect.draw self canv = canv ++ concat (map (gradient_band self) (range 50)).
Proof.
  unfold GradientRect.draw. apply fold_left_append_each. intros acc i.
  apply GradientRect_draw_step_band.
Qed.

Lemma rects_bands (self : GradientRect.t) (l : list Z) :
  rects (concat (map (gradient_band self) l))
  = map (fun i =>
           if String.eqb (GradientRect.direction self) "horizontal"
           then (band_offset (GradientRect.width self) i, 0,
                 band_size (GradientRect.width self), GradientRect.height self)
           else (0, band_offset (GradientRect.height self) i,
                 GradientRect.width self, band_size (GradientRect.height self))) l.
Proof.
  induction l as [|i l IH]; [reflexivity |].
  cbn [map concat]. unfold rects in *. rewrite flat_map_app, IH.
  unfold gradient_band at 1. destruct (String.eqb _ _); reflexivity.
Qed.

(** X1. The 50 rectangles [GradientRect.draw] paints start at
    [i * extent / 50] along the gradient's side and are [extent / 50 + 1]
    long, so each band reaches one point into the next one, the first
    starts at 0, and the last ends one point beyond the declared width
    (horizontal) or height (any other direction). *)
Theorem GradientRect_bands_overlap_and_overshoot (self : GradientRect.t) :
  rects (GradientRect.draw self [])
  = map (fun i =>
           if String.eqb (GradientRect.direction self) "horizontal"
           then (band_offset (GradientRect.width self) i, 0,
                 band_size (GradientRect.width self), GradientRect.height self)
           else (0, band_offset (GradientRect.height self) i,
                 GradientRect.width self, band_size (GradientRect.height self)))
      (range 50)
  /\ (forall (extent : Q) (i : Z),
        band_offset extent i + band_size extent == band_offset extent (i + 1) + 1)
  /\ (forall extent : Q,
        band_offset extent 0 == 0
        /\ band_offset extent 49 + band_size extent == extent + 1).
Proof.
  split; [| split].
  - rewrite GradientRect_draw_bands. apply rects_bands.
  - intros extent i. unfold band_offset, band_size. rewrite inject_Z_plus. field.
  - intros extent. unfold band_offset, band_size. split; field.
Qed.







(** X3. Only the exact string ['horizontal'] gives horizontal bands.
    With any other [direction] (a capitalised or misspelt one included)
    [draw] paints what it paints for ['vertical']: bands stacked along the
    height, each as wide as the whole rectangle and starting at x = 0. *)
Theorem GradientRect_direction_fallback (self : GradientRect.t) (canv : Canvas) :
  GradientRect.direction self <> "horizontal"%string ->
  GradientRect.draw self canv
  = GradientRect.draw
      (GradientRect.__init__ (GradientRect.width self) (GradientRect.height self)
         (GradientRect.color1 self) (GradientRect.color2 self) "vertical") canv
  /\ Forall (fun '(x, y, w, h) => x = 0 /\ w = GradientRect.width self)
       (rects (GradientRect.draw self [])).
Proof.
  intros Hdir. apply String.eqb_neq in Hdir. split.
  - rewrite !GradientRect_draw_bands. do 2 f_equal.
    apply map_ext. intros i. unfold gradient_band.
    rewrite Hdir. reflexivity.
  - rewrite GradientRect_draw_bands, app_nil_l, rects_bands, Hdir.
    apply List.Forall_forall. intros [[[x y] w] h] Hin.
    apply in_map_iff in Hin as (i & [= <- <- <- <-] & _). now split.
Qed.

Lemma GradientRect_direction_fallback_witness :
  let self := GradientRect.__init__ 200 10 PremiumColors.NAVY PremiumColors.GOLD "Horizontal" in
  GradientRect.direction self <> "horizontal"%string
  /\ GradientRect.draw self []
     = GradientRect.draw
         (GradientRect.__init__ (GradientRect.width self) (GradientRect.height self)
            (GradientRect.color1 self) (GradientRect.color2 self) "vertical") []
  /\ Forall (fun '(x, y, w, h) => x = 0 /\ w = GradientRect.width self)
       (rects (GradientRect.draw self [])).
Proof.
  intros self.
  assert (Hdir : GradientRect.direction self <> "horizontal"%string) by discriminate.
  split; [exact Hdir |].
  exact (GradientRect_direction_fallback self [] Hdir).
Defined.

(** ** KeyMetricBox: what becomes of the label *)






Lemma split_from_blank (s : string) : blank s = true -> split_from "" s = [].
Proof.
  induction s as [|c s IH]; [reflexivity |]. simpl.
  intros H. apply andb_prop in H as [Hc Hs]. rewrite Hc. now apply IH.
Qed.


Lemma label_lines_groups `{FontMetrics} (self : KeyMetricBox.t) :
  KeyMetricBox.label_lines self
  = map join (greedy_fill (label_fits self) [] (split (KeyMetricBox.label self))).
Proof.
  rewrite label_lines_flush.
  exact (wrap_loop_greedy self _ (split_from_truthy _ _) [] [] ltac:(constructor)).
Qed.







(** X4. A label that is empty or holds blank characters only wraps to no
    line at all: [KeyMetricBox.draw] then issues the frame calls and the
    value, and no centred string for the label. *)
Theorem KeyMetricBox_blank_label_draws_no_line `{FontMetrics} (self : KeyMetricBox.t)
    (canv : Canvas) :
  blank (KeyMetricBox.label self) = true ->
  KeyMetricBox.label_lines self = []
  /\ KeyMetricBox.draw self canv = canv ++ frame_calls self
  /\ centred_strings (KeyMetricBox.draw self []) = [KeyMetricBox.value self].
Proof.
  intros Hblank.
  assert (Hlines : KeyMetricBox.label_lines self = []).
  { rewrite label_lines_groups. unfold split. now rewrite split_from_blank. }
  split; [exact Hlines |].
  rewrite !KeyMetricBox_draw_calls, Hlines. cbn [firstn label_calls].
  rewrite !app_nil_r. split; reflexivity.
Qed.

Lemma KeyMetricBox_blank_label_draws_no_line_witness :
  let self := KeyMetricBox.__init__ "42" "  " 120 80 None in
  blank (KeyMetricBox.label self) = true
  /\ KeyMetricBox.label_lines (H := fixed_pitch) self = []
  /\ KeyMetricBox.draw (H := fixed_pitch) self [saveState] = [saveState] ++ frame_calls self
  /\ centred_strings (KeyMetricBox.draw (H := fixed_pitch) self []) = [KeyMetricBox.value self].
Proof.
  intros self. split; [reflexivity |].
  apply (KeyMetricBox_blank_label_draws_no_line (H := fixed_pitch) self [saveState]).
  reflexivity.
Defined.



(** ** What is drawn, and the size declared *)

Lemma withinb_within (width height : Q) (box : Q * Q * Q * Q) :
  withinb width height box = true -> within width height box.
Proof.
  destruct box as [[[x1 y1] x2] y2]. unfold withinb, within.
  rewrite !andb_true_iff, !Qle_bool_iff. tauto.
Qed.

Lemma forallb_within (width height : Q) (boxes : list (Q * Q * Q * Q)) :
  forallb (withinb width height) boxes = true -> Forall (within width height) boxes.
Proof.
  intros Hall. apply List.Forall_forall. intros box Hbox.
  apply withinb_within. rewrite List.forallb_forall in Hall. now apply Hall.
Qed.


Lemma centred_calls_label_calls (self : KeyMetricBox.t) (lines : list string) (y : Q) :
  centred_calls (label_calls self y lines)
  = match lines with
    | [] => []
    | l1 :: rest =>
        (KeyMetricBox.box_width self / 2, y, l1)
        :: centred_calls (label_calls self (y - 12) rest)
    end.
Proof. destruct lines; reflexivity. Qed.




(** X23. [SectionDivider.draw] draws a line across the declared width
    and a circle of radius 4 on each end, so what it paints reaches 4 points
    to the left of its box and 4 points beyond its width, for every width.
    It writes no string: the [text] given to the constructor is never
    drawn. *)
Theorem SectionDivider_end_circles_stick_out (self : SectionDivider.t) (canv : Canvas) :
  let w := SectionDivider.div_width self in
  shape_extents (SectionDivider.draw self [])
  = [(0, 15, w, 15); (0 - 4, 15 - 4, 0 + 4, 15 + 4); (w - 4, 15 - 4, w + 4, 15 + 4)]
  /\ (forall availWidth availHeight : Q,
        SectionDivider.wrap self availWidth availHeight = (w, 30))
  /\ ~ Forall (within w 30) (shape_extents (SectionDivider.draw self []))
  /\ (forall text : string,
        SectionDivider.draw self canv
        = SectionDivider.draw (SectionDivider.__init__ w text) canv)
  /\ Forall (fun op => match op with
                       | drawString _ _ _ | drawCentredString _ _ _
                       | drawRightString _ _ _ => False
                       | _ => True
                       end) (SectionDivider.draw self []).
Proof.
  intros w. split; [reflexivity |]. split; [reflexivity |]. split; [| split].
  - intros Hall. cbn in Hall.
    apply Forall_cons_1 in Hall as [_ Hall]. apply Forall_cons_1 in Hall as [Hleft _].
    destruct Hleft as [Hleft _]. revert Hleft. apply Qlt_not_le. reflexivity.
  - reflexivity.
  - cbn. repeat constructor.
Qed.

(** X24. [ChapterHeader.draw] paints the number box over [0, 40] at
    heights 20 to 60, centres the number in it, and underlines the title
    from x = 55 over the width the title has in 22pt Helvetica-Bold, the
    font it is written in. It never reads [header_width]: the drawing fits
    the declared 60-point height and width exactly when the width is at
    least 40 and the title ends before it; a longer title runs past. *)
Theorem ChapterHeader_underline_follows_the_title `{FontMetrics} (self : ChapterHeader.t)
    (canv : Canvas) :
  let tw := stringWidth (ChapterHeader.title self) "Helvetica-Bold" 22 in
  let w := ChapterHeader.header_width self in
  shape_extents (ChapterHeader.draw self []) = [(0, 20, 0 + 40, 20 + 40); (55, 18, 55 + tw, 18)]
  /\ centred_calls (ChapterHeader.draw self [])
     = [(20, 32, str_of_Z (ChapterHeader.number self))]
  /\ (Forall (within w 60) (shape_extents (ChapterHeader.draw self []))
      <-> 40 <= w /\ 55 + tw <= w)
  /\ (forall width : Q,
        ChapterHeader.draw self canv
        = ChapterHeader.draw
            (ChapterHeader.__init__ (ChapterHeader.number self) (ChapterHeader.title self)
               width) canv).
Proof.
  intros tw w. split; [reflexivity |]. split; [reflexivity |]. split; [| reflexivity].
  change (shape_extents (ChapterHeader.draw self []))
    with [(0, 20, 0 + 40, 20 + 40); (55, 18, 55 + tw, 18)].
  split.
  - intros Hall.
    apply Forall_cons_1 in Hall as [Hbox Hall]. apply Forall_cons_1 in Hall as [Hline _].
    unfold within in Hbox, Hline. split; lra.
  - intros [Hbox Hline]. repeat constructor; unfold within; try lra.
Qed.

(** ** Page callbacks *)

Lemma create_cover_page_appends (canvas : Canvas) (doc : DocState) :
  create_cover_page canvas doc = canvas ++ create_cover_page [] doc.
Proof.
  unfold create_cover_page, append.
  cbv beta iota zeta delta [A4 fold_left].
  rewrite <- !app_assoc. reflexivity.
Qed.

Lemma page_header_footer_appends (canvas : Canvas) (doc : DocState) :
  page_header_footer canvas doc = canvas ++ page_header_footer [] doc.
Proof.
  unfold page_header_footer, append.
  cbv beta iota zeta delta [A4].
  rewrite <- !app_assoc. reflexivity.
Qed.

Ltac no_state_calls :=
  repeat (constructor; [split; discriminate |]); constructor.

(** X7. [create_cover_page] and [page_header_footer] only add to the
    canvas they are given; what they add starts with [saveState], ends with
    [restoreState], and has no other [saveState] or [restoreState] in
    between, so every colour, font and line width they set is undone when
    they return. *)
Theorem page_callbacks_restore_the_graphics_state (canvas : Canvas) (doc : DocState) :
  bracketed create_cover_page canvas doc /\ bracketed page_header_footer canvas doc.
Proof.
  split.
  - exists (removelast (tl (create_cover_page [] doc))). split.
    + rewrite create_cover_page_appends. f_equal.
    + vm_compute. no_state_calls.
  - exists (removelast (tl (page_header_footer [] doc))). split.
    + rewrite page_header_footer_appends. f_equal.
    + unfold page_header_footer, append. cbv beta iota zeta delta [A4 app tl removelast].
      no_state_calls.
Qed.

(** X25. Every rectangle, line and circle the two page callbacks paint
    lies on the A4 page, and every string they write is anchored on it,
    whatever the page number. *)
Theorem page_callbacks_draw_on_the_page (doc : DocState) :
  let on_page (ops : list CanvasOp) :=
    Forall (within (fst A4) (snd A4)) (shape_extents ops)
    /\ Forall (fun '(x, y) => 0 <= x <= fst A4 /\ 0 <= y <= snd A4) (string_anchors ops) in
  on_page (create_cover_page [] doc) /\ on_page (page_header_footer [] doc).
Proof.
  intros on_page. subst on_page. cbv beta.
  assert (Hanchors : forall l : list (Q * Q),
            forallb (fun '(x, y) => withinb (fst A4) (snd A4) (x, y, x, y)) l = true ->
            Forall (fun '(x, y) => 0 <= x <= fst A4 /\ 0 <= y <= snd A4) l).
  { intros l Hall. apply List.Forall_forall. intros [x y] Hxy.
    rewrite List.forallb_forall in Hall. specialize (Hall (x, y) Hxy). cbv beta iota in Hall.
    apply withinb_within in Hall. unfold within in Hall. tauto. }
  repeat split; first [apply forallb_within | apply Hanchors]; vm_compute; reflexivity.
Qed.

Lemma right_strings_app (a b : list CanvasOp) :
  right_strings (a ++ b) = right_strings a ++ right_strings b.
Proof. apply flat_map_app. Qed.

Lemma right_strings_header_footer (doc : DocState) :
  right_strings (page_header_footer [] doc)
  = [("Page " ++ str_of_Z (page doc))%string; "CONFIDENTIAL"%string].
Proof. reflexivity. Qed.

(** X8. [page_header_footer] writes, right-aligned, ["Page "] followed by
    the decimal page number and the word CONFIDENTIAL. Two pages get the
    same header and footer exactly when they have the same page number;
    [create_cover_page] does not read the document at all. *)
Theorem page_number_in_the_footer (canvas : Canvas) (doc1 doc2 : DocState) :
  right_strings (page_header_footer [] doc1)
  = [("Page " ++ str_of_Z (page doc1))%string; "CONFIDENTIAL"%string]
  /\ (page_header_footer canvas doc1 = page_header_footer canvas doc2
      <-> page doc1 = page doc2)
  /\ create_cover_page canvas doc1 = create_cover_page canvas doc2.
Proof.
  split; [apply right_strings_header_footer |]. split; [| reflexivity].
  split.
  - intros Heq. rewrite (page_header_footer_appends canvas doc1) in Heq.
    rewrite (page_header_footer_appends canvas doc2) in Heq.
    apply app_inv_head in Heq. apply (f_equal right_strings) in Heq.
    rewrite !right_strings_header_footer in Heq.
    injection Heq as Heq. apply (inj pretty). exact Heq.
  - intros Heq. rewrite !(page_header_footer_appends canvas).
    unfold page_header_footer. now rewrite Heq.
Qed.

(** ** The style sheet *)

Ltac run_styles :=
  lazy [own_styles premium_styles get_premium_styles run fst mbind mret Prog_bind
        Prog_ret bind perform reply style_name List.find style_kwargs String.eqb
        Ascii.eqb Bool.eqb sample_styles quiet_library].

Lemma premium_styles_union (lib : Library) :
  premium_styles lib = own_styles ∪ sample_styles lib.
Proof.
  run_styles.
  rewrite <- !insert_union_l. now rewrite (left_id ∅ (∪)).
Qed.

Lemma own_styles_names (name : string) :
  is_Some (own_styles !! name) <-> In name style_names.
Proof.
  split.
  - run_styles. intros Hsome.
    repeat (apply lookup_insert_is_Some in Hsome as [<- | [_ Hsome]];
            [simpl; tauto |]).
    rewrite lookup_empty in Hsome. now destruct Hsome.
  - intros Hin. apply premium_styles_defined, Hin.
Qed.

Lemma style_names_distinct : NoDup style_names.
Proof. apply (bool_decide_unpack _). vm_compute. exact I. Qed.

(** X9. When [get_premium_styles] returns, the sheet it returns is the
    sample sheet extended with the script's own styles: 13 styles under 13
    different names, each as the script defines it whatever the sample
    sheet holds, and every sample style under another name kept as it was.
    No file is touched. *)
Theorem get_premium_styles_extends_the_sample_sheet (lib : Library) (w w' : World)
    (styles : StyleSheet) :
  exec lib get_premium_styles w = (Ok styles, w') ->
  styles = own_styles ∪ sample_styles lib
  /\ (forall name, In name style_names ->
        is_Some (styles !! name) /\ styles !! name = own_styles !! name)
  /\ (forall name, ~ In name style_names -> styles !! name = sample_styles lib !! name)
  /\ NoDup style_names
  /\ length style_names = 13%nat
  /\ fs w' = fs w.
Proof.
  intros Hrun. apply exec_Ok_run in Hrun. rewrite run_get_premium_styles in Hrun.
  injection Hrun as <- <-.
  split; [apply premium_styles_union |]. split; [| split].
  - intros name Hin. split; [now apply premium_styles_defined |].
    rewrite premium_styles_union.
    apply own_styles_names in Hin as [s Hs].
    rewrite Hs. now apply lookup_union_Some_l.
  - intros name Hout. rewrite premium_styles_union.
    apply lookup_union_r.
    destruct (own_styles !! name) eqn:Hown; [| reflexivity].
    exfalso. apply Hout, own_styles_names. eauto.
  - split; [apply style_names_distinct |]. split; reflexivity.
Qed.

Lemma get_premium_styles_extends_the_sample_sheet_witness :
  let lib := sample_library in
  let styles := premium_styles sample_library in
  let w' := record_events busy_world (styles_events sample_library) in
  exec lib get_premium_styles busy_world = (Ok styles, w')
  /\ styles = own_styles ∪ sample_styles lib
  /\ (forall name, In name style_names ->
        is_Some (styles !! name) /\ styles !! name = own_styles !! name)
  /\ (forall name, ~ In name style_names -> styles !! name = sample_styles lib !! name)
  /\ NoDup style_names
  /\ length style_names = 13%nat
  /\ fs w' = fs busy_world.
Proof.
  intros lib styles w'.
  assert (Hrun : exec lib get_premium_styles busy_world = (Ok styles, w')).
  { unfold lib. rewrite exec_quiet by reflexivity.
    now rewrite run_get_premium_styles. }
  split; [exact Hrun |].
  exact (get_premium_styles_extends_the_sample_sheet lib busy_world w' styles Hrun).
Defined.

Lemma getitem_agree (s1 s2 : StyleSheet) (name : string) :
  s1 !! name = s2 !! name -> getitem s1 name = getitem s2 name.
Proof. unfold getitem. now intros ->. Qed.

Ltac same_styles H :=
  rewrite ?(H "ExecTitle"%string), ?(H "SectionHeader"%string),
    ?(H "SubsectionHeader"%string), ?(H "H3Header"%string), ?(H "PremiumBody"%string),
    ?(H "BulletText"%string), ?(H "InsightText"%string), ?(H "TableHeader"%string),
    ?(H "TOCEntry"%string), ?(H "TOCSection"%string), ?(H "Caption"%string),
    ?(H "Callout"%string) by (simpl; tauto);
  reflexivity.

Lemma builders_agree (s1 s2 : StyleSheet) :
  (forall name, In name used_style_names -> getitem s1 name = getitem s2 name) ->
  Forall (fun build : StyleSheet -> list Flowable => build s1 = build s2) content_builders.
Proof.
  intros H. unfold content_builders. repeat constructor.
  - unfold build_toc. same_styles H.
  - unfold build_executive_summary. same_styles H.
  - unfold build_market_overview. same_styles H.
  - unfold build_technology_trends. same_styles H.
  - unfold build_competitive_landscape. same_styles H.
  - unfold build_regional_insights. same_styles H.
  - unfold build_strategic_recommendations. same_styles H.
  - unfold build_risk_analysis. same_styles H.
  - unfold build_implementation_timeline. same_styles H.
  - unfold build_success_metrics. same_styles H.
  - unfold build_conclusion. same_styles H.
  - unfold build_references. same_styles H.
Qed.

(** X10. The content builders and [add_chart_to_story] look up twelve
    style names and no other: on two style sheets that agree on these
    twelve they build the same flowables, and so the same story. The styles
    of the sample sheet, and the script's own [TableCell], are never read. *)
Theorem builders_read_twelve_styles (s1 s2 : StyleSheet) :
  (forall name, In name used_style_names -> s1 !! name = s2 !! name) ->
  Forall (fun build : StyleSheet -> list Flowable => build s1 = build s2) content_builders
  /\ (forall (tmp_path caption : string) (width height : Q),
        chart_block tmp_path width height caption s1
        = chart_block tmp_path width height caption s2)
  /\ (forall ps : ChartPaths, story_segments s1 ps = story_segments s2 ps).
Proof.
  intros Hsame.
  assert (H : forall name, In name used_style_names -> getitem s1 name = getitem s2 name).
  { intros name Hin. apply getitem_agree, Hsame, Hin. }
  pose proof (builders_agree s1 s2 H) as Hb.
  assert (Hchart : forall (tmp_path caption : string) (width height : Q),
             chart_block tmp_path width height caption s1
             = chart_block tmp_path width height caption s2).
  { intros. unfold chart_block. rewrite (H "Caption"%string) by (simpl; tauto).
    reflexivity. }
  split; [exact Hb |]. split; [exact Hchart |].
  intros ps. unfold content_builders in Hb.
  repeat match type of Hb with
         | Forall _ (_ :: _) =>
             let Hx := fresh "Hsame" in
             apply Forall_cons_1 in Hb as [Hx Hb]; cbv beta in Hx
         end.
  unfold story_segments, growth_chart_block, cagr_chart_block, regional_chart_block,
    germany_chart_block, portfolio_chart_block, timeline_chart_block.
  rewrite !Hchart.
  rewrite Hsame0, Hsame1, Hsame2, Hsame3, Hsame4, Hsame5, Hsame6, Hsame7, Hsame8,
    Hsame9, Hsame10, Hsame11.
  reflexivity.
Qed.

Lemma builders_read_twelve_styles_witness :
  let s1 := premium_styles sample_library in
  let s2 := delete "TableCell"%string own_styles in
  (forall name, In name used_style_names -> s1 !! name = s2 !! name)
  /\ Forall (fun build : StyleSheet -> list Flowable => build s1 = build s2)
       content_builders
  /\ (forall (tmp_path caption : string) (width height : Q),
        chart_block tmp_path width height caption s1
        = chart_block tmp_path width height caption s2)
  /\ (forall ps : ChartPaths, story_segments s1 ps = story_segments s2 ps).
Proof.
  intros s1 s2.
  assert (Hsame : forall name, In name used_style_names -> s1 !! name = s2 !! name).
  { intros name Hin.
    repeat destruct Hin as [<- | Hin]; try contradiction; vm_compute; reflexivity. }
  split; [exact Hsame |].
  exact (builders_read_twelve_styles s1 s2 Hsame).
Defined.

(** ** Adding a chart *)

Lemma exec_perform (lib : Library) {R} (c : Call R) (w : World) :
  exec lib (perform c) w
  = match raises lib R c w with
    | Some e => (Raise e, record_event w (mkEvent R c (Some e)))
    | None => (Ok (reply lib c w), effect lib c (record_event w (mkEvent R c None)))
    end.
Proof. unfold perform. cbn [exec]. now destruct (raises lib R c w). Qed.

(** X11. For every chart function: when [add_chart_to_story] returns,
    the chart function has returned a picture, a temporary file with the
    suffix [.png] has been created and the picture written to it, and the
    story is the story given followed by a 15-point spacer, the image of
    that file at the width and height given, the caption in the [Caption]
    style, and a 10-point spacer. Standard output is as the chart function
    left it. *)
Theorem add_chart_to_story_appends_the_image (lib : Library) (chart_func : Prog FileData)
    (story story' : list Flowable) (width height : Q) (caption : string)
    (styles : StyleSheet) (w w' : World) :
  exec lib (add_chart_to_story story chart_func width height caption styles) w
  = (Ok story', w') ->
  exists (chart_buf : FileData) (w1 : World),
    exec lib chart_func w = (Ok chart_buf, w1)
    /\ let tmp_path := mkstemp lib ".png" (fs w1) in
       story' = story ++ [ Spacer 1 15; Image tmp_path width height;
                           Paragraph caption (getitem styles "Caption"); Spacer 1 10 ]
       /\ fs w' = <[tmp_path := File chart_buf]> (fs w1)
       /\ trace w'
          = mkEvent _ (file_write tmp_path chart_buf) None
            :: mkEvent _ (NamedTemporaryFile ".png" false) None :: trace w1
       /\ stdout w' = stdout w1.
Proof.
  unfold add_chart_to_story. rewrite exec_bind.
  destruct (exec lib chart_func w) as [[chart_buf | e] w1]; [| discriminate].
  rewrite exec_bind, exec_perform.
  destruct (raises lib _ (NamedTemporaryFile ".png" false) w1); [discriminate |].
  rewrite exec_bind, exec_perform.
  destruct (raises lib _ (file_write _ _) _); [discriminate |].
  cbn [exec mret Prog_ret]. intros [= <- <-].
  exists chart_buf, w1. split; [reflexivity |].
  cbn. unfold append. rewrite <- !app_assoc, insert_insert_eq. repeat split.
Qed.

Lemma add_chart_to_story_appends_the_image_witness :
  let p := add_chart_to_story [PageBreak] create_regional_market_chart 350 230
             "Figure 3: Global Antenna Market Distribution by Region (2025)"
             (premium_styles quiet_library) in
  let story' := fst (run quiet_library p busy_world) in
  let w' := snd (run quiet_library p busy_world) in
  exec quiet_library p busy_world = (Ok story', w')
  /\ exists (chart_buf : FileData) (w1 : World),
       exec quiet_library create_regional_market_chart busy_world = (Ok chart_buf, w1)
       /\ let tmp_path := mkstemp quiet_library ".png" (fs w1) in
          story' = [PageBreak]
                   ++ [ Spacer 1 15; Image tmp_path 350 230;
                        Paragraph "Figure 3: Global Antenna Market Distribution by Region (2025)"
                          (getitem (premium_styles quiet_library) "Caption");
                        Spacer 1 10 ]
          /\ fs w' = <[tmp_path := File chart_buf]> (fs w1)
          /\ trace w'
             = mkEvent _ (file_write tmp_path chart_buf) None
               :: mkEvent _ (NamedTemporaryFile ".png" false) None :: trace w1
          /\ stdout w' = stdout w1.
Proof.
  intros p story' w'.
  assert (Hrun : exec quiet_library p busy_world = (Ok story', w')).
  { apply exec_quiet. reflexivity. }
  split; [exact Hrun |].
  exact (add_chart_to_story_appends_the_image quiet_library _ _ _ _ _ _ _ _ _ Hrun).
Defined.



(** ** The assembler at any output path *)

Lemma run_build_premium_report_at (lib : Library) (output_path : string) (w : World) :
  run lib (build_premium_report output_path) w
  = (output_path,
     mkWorld
       (<[output_path := File (PDF (report_doc_at output_path) (report_story lib (fs w)))]>
          (fs_before_chart lib (fs w) 6))
       (argv w) (environ w) (stdout w ++ [report_message_at output_path]) []
       (mkEvent _ (print (report_message_at output_path)) None
        :: mkEvent _ (doc_build (report_doc_at output_path) (report_story lib (fs w))
                        create_cover_page page_header_footer) None
        :: assembly_events lib (fs w) ++ trace w)).
Proof.
  unfold build_premium_report.
  rewrite run_bind, run_get_premium_styles. cbn [fst snd]. cbv beta zeta.
  chart_step growth_self_contained.
  chart_step cagr_self_contained.
  chart_step regional_self_contained.
  chart_step germany_self_contained.
  chart_step portfolio_self_contained.
  chart_step timeline_self_contained.
  match goal with
  | |- context [doc_build _ ?s _ _] =>
      replace s with (report_story lib (fs w))
  end.
  2: { unfold report_story, story_segments, extend, append.
       cbn [concat]. rewrite <- !app_assoc, app_nil_r. reflexivity. }
  rewrite run_bind, run_perform. cbn [fst snd]. cbv beta zeta.
  rewrite run_bind, run_perform. cbn [fst snd]. cbv beta zeta.
  cbn [run effect record_event with_fs with_stdout fs argv environ stdout figure
       trace filename].
  unfold assembly_events. rewrite <- !app_assoc. reflexivity.
Qed.

Lemma build_calls_assembly (lib : Library) (fs0 : gmap string Node) :
  build_calls (assembly_events lib fs0) = [].
Proof.
  unfold assembly_events. rewrite !build_calls_app.
  rewrite !build_calls_chart_insert by in_generators.
  now rewrite (proj1 (styles_events_plain lib)).
Qed.

Lemma file_writes_assembly (lib : Library) (fs0 : gmap string Node) :
  file_writes (assembly_events lib fs0)
  = rev (combine (paths_list (chart_paths lib fs0)) (map chart_data inserted_generators)).
Proof.
  unfold assembly_events. rewrite !file_writes_app.
  rewrite !file_writes_chart_insert by in_generators.
  now rewrite (proj2 (styles_events_plain lib)).
Qed.

(** X13. For every [output_path]: when [build_premium_report] returns,
    it returns [output_path]; the document was built for that path on A4
    with margins 50, 50, 60 and 60, with [create_cover_page] for the first
    page and [page_header_footer] for the later ones; the six pictures were
    written before [doc.build] was called, and the message, the last call,
    after it. The story does not depend on the path, and no directory is
    created: besides the six temporary files only the PDF is written. *)
Theorem build_premium_report_writes_where_told (lib : Library)
    (output_path out : string) (w w' : World) :
  exec lib (build_premium_report output_path) w = (Ok out, w') ->
  let story := report_story lib (fs w) in
  let doc := report_doc_at output_path in
  out = output_path
  /\ fs w' = <[output_path := File (PDF doc story)]> (fs_before_chart lib (fs w) 6)
  /\ stdout w' = stdout w ++ [("Premium report generated: " ++ output_path)%string]
  /\ trace w'
     = mkEvent _ (print ("Premium report generated: " ++ output_path)%string) None
       :: mkEvent _ (doc_build doc story create_cover_page page_header_footer) None
       :: assembly_events lib (fs w) ++ trace w
  /\ build_calls (assembly_events lib (fs w)) = []
  /\ file_writes (assembly_events lib (fs w))
     = rev (combine (paths_list (chart_paths lib (fs w)))
              (map chart_data inserted_generators)).
Proof.
  intros Hrun story doc. apply exec_Ok_run in Hrun.
  rewrite run_build_premium_report_at in Hrun. injection Hrun as <- <-.
  repeat apply conj;
    first [apply build_calls_assembly | apply file_writes_assembly | reflexivity].
Qed.

Lemma build_premium_report_writes_where_told_witness :
  let p := build_premium_report "report.pdf" in
  let w' := snd (run quiet_library p busy_world) in
  exec quiet_library p busy_world = (Ok "report.pdf"%string, w')
  /\ let story := report_story quiet_library (fs busy_world) in
     let doc := report_doc_at "report.pdf" in
     "report.pdf"%string = "report.pdf"%string
     /\ fs w' = <["report.pdf"%string := File (PDF doc story)]>
                  (fs_before_chart quiet_library (fs busy_world) 6)
     /\ stdout w' = stdout busy_world ++ ["Premium report generated: report.pdf"%string]
     /\ trace w'
        = mkEvent _ (print "Premium report generated: report.pdf"%string) None
          :: mkEvent _ (doc_build doc story create_cover_page page_header_footer) None
          :: assembly_events quiet_library (fs busy_world) ++ trace busy_world
     /\ build_calls (assembly_events quiet_library (fs busy_world)) = []
     /\ file_writes (assembly_events quiet_library (fs busy_world))
        = rev (combine (paths_list (chart_paths quiet_library (fs busy_world)))
                 (map chart_data inserted_generators)).
Proof.
  intros p w'.
  assert (Hrun : exec quiet_library p busy_world = (Ok "report.pdf"%string, w')).
  { unfold p, w'. rewrite exec_quiet by reflexivity.
    now rewrite run_build_premium_report_at. }
  split; [exact Hrun |].
  exact (build_premium_report_writes_where_told quiet_library _ _ _ _ Hrun).
Defined.

(** ** What a run prints *)

(** ** What a run prints *)

Lemma printed_app (t1 t2 : list Event) : printed (t1 ++ t2) = printed t1 ++ printed t2.
Proof. apply flat_map_app. Qed.

Lemma printed_cons (ev : Event) (t : list Event) :
  printed (ev :: t) = printed [ev] ++ printed t.
Proof. apply (printed_app [ev] t). Qed.

Lemma stdout_effect (lib : Library) {R} (c : Call R) (w : World) :
  stdout (effect lib c (record_event w (mkEvent R c None)))
  = stdout w ++ printed [mkEvent R c None].
Proof. destruct c as [| | | [] | | | | |]; cbn; now rewrite ?app_nil_r. Qed.

(** Standard output grows by what the calls of the run printed. *)
Lemma exec_stdout (lib : Library) {A} (p : Prog A) (w : World) :
  exists evs : list Event,
    trace (snd (exec lib p w)) = evs ++ trace w
    /\ stdout (snd (exec lib p w)) = stdout w ++ rev (printed evs).
Proof.
  revert w. induction p as [a | R c k IH]; intros w; cbn [exec].
  - exists []. split; [reflexivity |]. cbn. now rewrite app_nil_r.
  - destruct (raises lib R c w) as [e |] eqn:Hc.
    + exists [mkEvent R c (Some e)]. split; [reflexivity |].
      cbn. destruct c; cbn; now rewrite app_nil_r.
    + destruct (IH (reply lib c w) (effect lib c (record_event w (mkEvent R c None))))
        as (evs & Htrace & Hout).
      exists (evs ++ [mkEvent R c None]). split.
      * now rewrite Htrace, trace_effect, <- app_assoc.
      * rewrite Hout, stdout_effect, printed_app, rev_app_distr, app_assoc.
        f_equal. cbn. destruct c; try reflexivity.
Qed.

Lemma printed_chart_insert (lib : Library) (fs : gmap string Node) (g : Prog FileData) :
  In g chart_generators -> printed (chart_insert_events lib fs g) = [].
Proof.
  intros Hg. transitivity (printed (chart_events g)); [reflexivity |].
  repeat destruct Hg as [<- | Hg]; try contradiction; vm_compute; reflexivity.
Qed.

Lemma printed_assembly (lib : Library) (fs0 : gmap string Node) :
  printed (assembly_events lib fs0) = [].
Proof.
  unfold assembly_events. rewrite !printed_app.
  rewrite !printed_chart_insert by in_generators. reflexivity.
Qed.

Lemma trace_main_world (lib : Library) (w : World) :
  trace (main_world lib w)
  = mkEvent _ (print report_message) None
    :: (mkEvent _ (doc_build report_doc (report_story lib (makedirs (fs w) output_dir))
                     create_cover_page page_header_footer) None
        :: assembly_events lib (makedirs (fs w) output_dir)
        ++ [mkEvent _ (os_makedirs output_dir true) None])
    ++ trace w.
Proof.
  unfold main_world, report_world, report_events, assembly_events.
  cbn [trace fs with_fs record_event app]. rewrite <- !app_assoc. reflexivity.
Qed.

(** X14. The line [Premium report generated: <path>] is written to
    standard output exactly when the run ends normally, and then the PDF is
    at that path. A run that ends with an exception, wherever it was
    raised, has written nothing to standard output. *)
Theorem message_printed_only_after_the_build (lib : Library) (w : World) :
  let w' := snd (exec lib main w) in
  match fst (exec lib main w) with
  | Ok out =>
      stdout w' = stdout w ++ [("Premium report generated: " ++ out)%string]
      /\ exists story : list Flowable,
           fs w' !! out = Some (File (PDF report_doc story))
  | Raise _ => stdout w' = stdout w
  end.
Proof.
  intros w'. subst w'.
  destruct (exec lib main w) as [[out | e] w'] eqn:Hrun; cbn [fst snd].
  - apply exec_main_Ok in Hrun as [-> ->]. split; [reflexivity |].
    eexists. rewrite fs_main_world. apply lookup_insert_eq.
  - destruct (exec_cut_short lib main w e) as (R & c & later & before & Hfull & Hcut);
      [now rewrite Hrun |].
    destruct (exec_stdout lib main w) as (evs & Htrace & Hout).
    rewrite Hrun in Hcut, Htrace, Hout. cbn [snd] in *.
    rewrite Hout. rewrite Hcut in Htrace.
    change (mkEvent R c (Some e) :: before ++ trace w)
      with ((mkEvent R c (Some e) :: before) ++ trace w) in Htrace.
    apply app_inv_tail in Htrace. subst evs.
    rewrite run_main in Hfull. cbn [snd] in Hfull. rewrite trace_main_world in Hfull.
    change (later ++ mkEvent R c None :: before ++ trace w)
      with (later ++ (mkEvent R c None :: before) ++ trace w) in Hfull.
    rewrite app_comm_cons, app_assoc in Hfull. apply app_inv_tail in Hfull.
    assert (Hquiet : forall fs0,
              printed (mkEvent _ (doc_build report_doc (report_story lib fs0)
                                    create_cover_page page_header_footer) None
                       :: assembly_events lib fs0
                       ++ [mkEvent _ (os_makedirs output_dir true) None]) = []).
    { intros fs0.
      change (printed (assembly_events lib fs0
                       ++ [mkEvent _ (os_makedirs output_dir true) None]) = []).
      now rewrite printed_app, printed_assembly. }
    apply (f_equal (@tail Event)) in Hfull.
    assert (Hrest : printed before = []).
    { destruct later as [| ev later]; cbn [app tail] in Hfull.
      - rewrite <- Hfull. apply Hquiet.
      - apply (f_equal printed) in Hfull. rewrite Hquiet, printed_app in Hfull.
        symmetry in Hfull. apply app_eq_nil in Hfull as [_ Hfull].
        rewrite printed_cons in Hfull.
        now apply app_eq_nil in Hfull as [_ Hfull]. }
    rewrite printed_cons, Hrest, app_nil_r.
    assert (Hfailed : printed [mkEvent R c (Some e)] = []) by (destruct c; reflexivity).
    rewrite Hfailed. cbn. now rewrite app_nil_r.
Qed.

(** ** Run after run *)

(** ** Run after run *)

Section Runs.

Variable lib : Library.

Hypothesis Hfresh : fresh_names lib.

Lemma chart_paths_distinct (fs0 : gmap string Node) :
  NoDup (paths_list (chart_paths lib fs0)).
Proof.
  unfold paths_list, chart_paths.
  cbn [growth_png cagr_png regional_png germany_png portfolio_png timeline_png].
  repeat (constructor;
          [rewrite ?elem_of_cons, elem_of_nil;
           let H := fresh in
           intros H; repeat destruct H as [H | H]; try exact H;
           (eapply chart_files_differ; [exact Hfresh | | exact H]); lia |]).
  constructor.
Qed.

(** The chart file made at step [n] of a run started on [fs0] is new to
    [fs0], is not the report, and holds its chart when the run is over. *)
Lemma chart_file_of_run (fs0 : gmap string Node) (story : list Flowable) (n : nat)
    (g : Prog FileData) :
  inserted_generators !! n = Some g ->
  <[output_file := File (PDF report_doc story)]> (fs_before_chart lib fs0 6)
    !! chart_file lib (fs_before_chart lib fs0 n)
  = Some (File (chart_data g))
  /\ fs0 !! chart_file lib (fs_before_chart lib fs0 n) = None
  /\ chart_file lib (fs_before_chart lib fs0 n) <> output_file.
Proof.
  intros Hg.
  destruct (chart_file_kept lib Hfresh fs0 n g Hg) as (Hkept & Hnew & Hne).
  cbv zeta in Hkept, Hnew, Hne. split; [| split; [exact Hnew | exact Hne]].
  rewrite lookup_insert_ne; [exact Hkept |].
  intros Heq. apply Hne. symmetry. exact Heq.
Qed.

Lemma kept_by_a_run (fs0 : gmap string Node) (story : list Flowable) (p : string)
    (v : Node) :
  p <> output_file -> fs0 !! p = Some v ->
  <[output_file := File (PDF report_doc story)]> (fs_before_chart lib fs0 6) !! p = Some v.
Proof.
  intros Hne Hp. rewrite lookup_insert_ne.
  - apply chart_files_keep; [exact Hfresh | exact Hp].
  - intros Heq. apply Hne. symmetry. exact Heq.
Qed.

Lemma chart_path_made (fs0 : gmap string Node) (p : string) :
  In p (paths_list (chart_paths lib fs0)) ->
  exists (n : nat) (g : Prog FileData),
    inserted_generators !! n = Some g /\ p = chart_file lib (fs_before_chart lib fs0 n).
Proof.
  unfold paths_list, chart_paths.
  cbn [growth_png cagr_png regional_png germany_png portfolio_png timeline_png].
  intros Hp. repeat destruct Hp as [<- | Hp]; try contradiction.
  - now exists 0%nat, create_market_growth_chart.
  - now exists 1%nat, create_cagr_comparison_chart.
  - now exists 2%nat, create_regional_market_chart.
  - now exists 3%nat, create_germany_market_chart.
  - now exists 4%nat, create_portfolio_allocation_chart.
  - now exists 5%nat, create_timeline_chart.
Qed.

End Runs.

(** X15. The temporary files pile up. After a second run on the files
    the first run left, the six PNG files of the first run are still there,
    six new ones have been added (twelve different paths), and the report,
    written anew at the same path, shows the six new files. *)
Theorem second_run_adds_six_more_files (lib : Library) (w w1 w2 : World)
    (out1 out2 : string) :
  fresh_names lib ->
  exec lib main w = (Ok out1, w1) ->
  exec lib main w1 = (Ok out2, w2) ->
  let first := paths_list (chart_paths lib (makedirs (fs w) output_dir)) in
  let second := paths_list (chart_paths lib (makedirs (fs w1) output_dir)) in
  NoDup (first ++ second)
  /\ Forall2 (fun p g => fs w2 !! p = Some (File (chart_data g))) first inserted_generators
  /\ Forall2 (fun p g => fs w2 !! p = Some (File (chart_data g))) second inserted_generators
  /\ (exists story : list Flowable,
        fs w2 !! output_file = Some (File (PDF report_doc story))
        /\ images story = second).
Proof.
  intros Hfresh Hrun1 Hrun2 first second.
  apply exec_main_Ok in Hrun1 as [_ ->]. apply exec_main_Ok in Hrun2 as [_ ->].
  rewrite fs_main_world. subst first second.
  set (fs0 := makedirs (fs w) output_dir).
  set (fs1 := makedirs (fs (main_world lib w)) output_dir).
  assert (Hfirst : forall n g, inserted_generators !! n = Some g ->
            let p := chart_file lib (fs_before_chart lib fs0 n) in
            fs1 !! p = Some (File (chart_data g)) /\ p <> output_file).
  { intros n g Hg p.
    destruct (chart_file_of_run lib Hfresh fs0 (report_story lib fs0) n g Hg)
      as (Hthere & _ & Hne).
    split; [| exact Hne]. unfold fs1. apply makedirs_keeps.
    rewrite fs_main_world. exact Hthere. }
  repeat apply conj.
  - apply NoDup_app. repeat apply conj.
    + apply chart_paths_distinct, Hfresh.
    + intros p Hp1 Hp2. apply list_elem_of_In in Hp1, Hp2.
      apply chart_path_made in Hp1 as (n & g & Hg & ->).
      apply chart_path_made in Hp2 as (m & g' & Hg' & Heq).
      destruct (Hfirst n g Hg) as [Hthere _].
      destruct (chart_file_of_run lib Hfresh fs1 [] m g' Hg') as (_ & Hnew & _).
      rewrite <- Heq in Hnew. cbv zeta in Hthere. congruence.
    + apply chart_paths_distinct, Hfresh.
  - assert (Hkept : forall n g, inserted_generators !! n = Some g ->
              <[output_file := File (PDF report_doc (report_story lib fs1))]>
                (fs_before_chart lib fs1 6) !! chart_file lib (fs_before_chart lib fs0 n)
              = Some (File (chart_data g))).
    { intros n g Hg. destruct (Hfirst n g Hg) as [Hthere Hne].
      apply kept_by_a_run; [exact Hfresh | exact Hne | exact Hthere]. }
    repeat (constructor; [apply (Hkept _ _); reflexivity |]). constructor.
  - assert (Hmade : forall n g, inserted_generators !! n = Some g ->
              <[output_file := File (PDF report_doc (report_story lib fs1))]>
                (fs_before_chart lib fs1 6) !! chart_file lib (fs_before_chart lib fs1 n)
              = Some (File (chart_data g))).
    { intros n g Hg. apply (chart_file_of_run lib Hfresh fs1 _ n g Hg). }
    repeat (constructor; [apply (Hmade _ _); reflexivity |]). constructor.
  - exists (report_story lib fs1). split; [apply lookup_insert_eq |].
    apply images_report_story.
Qed.

Lemma second_run_adds_six_more_files_witness :
  let w1 := main_world quiet_library busy_world in
  let w2 := main_world quiet_library w1 in
  fresh_names quiet_library
  /\ exec quiet_library main busy_world = (Ok output_file, w1)
  /\ exec quiet_library main w1 = (Ok output_file, w2)
  /\ let first := paths_list (chart_paths quiet_library
                                (makedirs (fs busy_world) output_dir)) in
     let second := paths_list (chart_paths quiet_library (makedirs (fs w1) output_dir)) in
     NoDup (first ++ second)
     /\ Forall2 (fun p g => fs w2 !! p = Some (File (chart_data g)))
          first inserted_generators
     /\ Forall2 (fun p g => fs w2 !! p = Some (File (chart_data g)))
          second inserted_generators
     /\ (exists story : list Flowable,
           fs w2 !! output_file = Some (File (PDF report_doc story))
           /\ images story = second).
Proof.
  intros w1 w2.
  assert (Hrun1 : exec quiet_library main busy_world = (Ok output_file, w1)).
  { rewrite exec_quiet by reflexivity. now rewrite run_main. }
  assert (Hrun2 : exec quiet_library main w1 = (Ok output_file, w2)).
  { rewrite exec_quiet by reflexivity. now rewrite run_main. }
  split; [exact quiet_library_fresh |]. split; [exact Hrun1 |]. split; [exact Hrun2 |].
  exact (second_run_adds_six_more_files quiet_library busy_world w1 w2 _ _
           quiet_library_fresh Hrun1 Hrun2).
Defined.

(** ** When the layout engine fails *)









(** ** The pictures *)

Lemma generators_figures :
  Forall (fun g : Prog FileData =>
            chart_events g
            = mkEvent _ (plt close) None
              :: mkEvent _ (plt_savefig png_options) None
              :: rev (map (fun c => mkEvent _ (plt c) None) (figure_of (chart_data g)))
            /\ chart_data g = PNG (figure_of (chart_data g)) png_options
            /\ exists (kwargs : Kwargs) (drawing : list PlotCall),
                 figure_of (chart_data g)
                 = subplots kwargs :: drawing ++ [call "plt" "tight_layout" [] []]
                 /\ forallb (fun c => negb (opens_or_closes c)) drawing = true)
    chart_generators.
Proof.
  unfold chart_generators.
  repeat (constructor;
          [split; [vm_compute; reflexivity |]; split; [vm_compute; reflexivity |];
           match goal with
           | |- exists kwargs drawing, figure_of (chart_data ?g) = _ /\ _ =>
               exists (match figure_of (chart_data g) with
                       | subplots kwargs :: _ => kwargs
                       | _ => []
                       end),
                      (removelast (tl (figure_of (chart_data g))));
               split; vm_compute; reflexivity
           end |]).
  constructor.
Qed.

(** X17. Each of the six chart generators, when it returns, has opened one
    figure with [plt.subplots], drawn on it, called [plt.tight_layout] as
    its last drawing call, saved the figure as PNG at 150 dpi with a tight
    bounding box on white, and closed it. The picture returned holds every
    call made on the figure: nothing is drawn after saving, no second
    figure is opened, and no figure is left open. *)
Theorem generators_save_all_they_draw (g : Prog FileData) (lib : Library) (w w' : World)
    (d : FileData) :
  In g chart_generators ->
  exec lib g w = (Ok d, w') ->
  exists (kwargs : Kwargs) (drawing : list PlotCall),
    let fig := subplots kwargs :: drawing ++ [call "plt" "tight_layout" [] []] in
    d = PNG fig png_options
    /\ trace w'
       = mkEvent _ (plt close) None
         :: mkEvent _ (plt_savefig png_options) None
         :: rev (map (fun c => mkEvent _ (plt c) None) fig) ++ trace w
    /\ forallb (fun c => negb (opens_or_closes c)) drawing = true
    /\ figure w' = [].
Proof.
  intros Hg Hrun. apply exec_Ok_run in Hrun.
  rewrite (generators_self_contained g Hg) in Hrun. injection Hrun as <- <-.
  pose proof generators_figures as Hall. rewrite List.Forall_forall in Hall.
  destruct (Hall g Hg) as (Hevents & Hdata & kwargs & drawing & Hfig & Hdrawing).
  exists kwargs, drawing. cbv zeta. rewrite <- Hfig. cbn [trace figure].
  rewrite Hevents. repeat split; assumption.
Qed.

Lemma generators_save_all_they_draw_witness :
  let g := create_timeline_chart in
  let d := fst (run quiet_library g busy_world) in
  let w' := snd (run quiet_library g busy_world) in
  In g chart_generators
  /\ exec quiet_library g busy_world = (Ok d, w')
  /\ exists (kwargs : Kwargs) (drawing : list PlotCall),
       let fig := subplots kwargs :: drawing ++ [call "plt" "tight_layout" [] []] in
       d = PNG fig png_options
       /\ trace w'
          = mkEvent _ (plt close) None
            :: mkEvent _ (plt_savefig png_options) None
            :: rev (map (fun c => mkEvent _ (plt c) None) fig) ++ trace busy_world
       /\ forallb (fun c => negb (opens_or_closes c)) drawing = true
       /\ figure w' = [].
Proof.
  intros g d w'.
  assert (Hg : In g chart_generators) by (unfold chart_generators; simpl; tauto).
  assert (Hrun : exec quiet_library g busy_world = (Ok d, w')).
  { apply exec_quiet. reflexivity. }
  split; [exact Hg |]. split; [exact Hrun |].
  exact (generators_save_all_they_draw g quiet_library busy_world w' d Hg Hrun).
Defined.

(** ** The table of contents *)

Lemma build_toc_entries (styles : StyleSheet) :
  build_toc styles
  = [Paragraph "Table of Contents" (getitem styles "ExecTitle"); Spacer 1 20]
    ++ map (toc_entry styles) toc_items ++ [PageBreak].
Proof. reflexivity. Qed.

Lemma toc_entry_text (styles : StyleSheet) (num title page : string) :
  paragraph_text (toc_entry styles (num, title, page))
  = str_prefix (((((toc_prefix num ++ title) ++ " ") ++ str_mul "." 50) ++ " ") ++ page) 80.
Proof.
  unfold toc_entry, toc_prefix. rewrite !string_app_assoc'.
  destruct (truthy num); reflexivity.
Qed.

Lemma substring_length_le (n : nat) (s : string) :
  (String.length (substring 0 n s) <= n)%nat.
Proof.
  revert s. induction n as [|n IH]; intros [|c s]; simpl; try lia.
  specialize (IH s). lia.
Qed.

Lemma substring_app_l (n : nat) (a b : string) :
  (n <= String.length a)%nat -> substring 0 n (a ++ b) = substring 0 n a.
Proof.
  revert a. induction n as [|n IH]; intros a Hn.
  - destruct a; destruct b; reflexivity.
  - destruct a as [|c a]; [simpl in Hn; lia |].
    change (String c (substring 0 n (a ++ b)) = String c (substring 0 n a)).
    rewrite IH; [reflexivity | simpl in Hn; lia].
Qed.

(** X18. [build_toc] appends one paragraph per entry, and cuts the text
    of each to 80 characters after adding 50 leader dots. So no entry is
    longer than 80 characters, and an entry whose prefix and title (ASCII
    text) take 28 characters or more is drawn without its page number: the
    paragraph is the same whatever the page. Of the 27 entries only four end with
    their page number, and the entry of Regulatory Environment, page 14,
    ends with 1. *)
Theorem toc_page_numbers_are_cut_off (styles : StyleSheet) :
  build_toc styles
  = [Paragraph "Table of Contents" (getitem styles "ExecTitle"); Spacer 1 20]
    ++ map (toc_entry styles) toc_items ++ [PageBreak]
  /\ (forall item : string * string * string,
        (String.length (paragraph_text (toc_entry styles item)) <= 80)%nat)
  /\ (forall num title page page' : string,
        ascii_only num = true -> ascii_only title = true ->
        (28 <= String.length (toc_prefix num) + String.length title)%nat ->
        toc_entry styles (num, title, page) = toc_entry styles (num, title, page'))
  /\ List.filter shows_page toc_items
     = [ ("1", "Executive Summary", "3"); (EmptyString, "Market Share Dynamics", "12");
         ("10", "Conclusion", "25"); (EmptyString, "References", "26") ]%string
  /\ paragraph_text (toc_entry styles (EmptyString, "Regulatory Environment", "14"))
     = ("     Regulatory Environment " ++ str_mul "." 50 ++ " 1")%string.
Proof.
  split; [apply build_toc_entries |]. split; [| split; [| split]].
  - intros [[num title] page]. rewrite toc_entry_text. apply substring_length_le.
  - intros num title page page' _ _ Hlen.
    assert (Htext : paragraph_text (toc_entry styles (num, title, page))
                    = paragraph_text (toc_entry styles (num, title, page'))).
    { assert (Hlong : (Z.to_nat 80
                       <= String.length ((((toc_prefix num ++ title) ++ " ")
                                          ++ str_mul "." 50) ++ " "))%nat).
      { rewrite !string_length_app.
        change (String.length (str_mul "." 50)) with 50%nat. simpl. lia. }
      rewrite !toc_entry_text. unfold str_prefix.
      now rewrite !(substring_app_l _ _ _ Hlong). }
    unfold toc_entry in *. destruct (truthy num); cbn [paragraph_text] in Htext;
      now rewrite Htext.
  - vm_compute. reflexivity.
  - vm_compute. reflexivity.
Qed.
(** ** Looking into a story *)

(** ** Tables, boxes and headers in the story *)

(** The story holds the same tables, boxes and headers whatever the styles
    and the chart files. *)
Lemma story_tables_ok (styles : StyleSheet) (ps : ChartPaths) :
  forallb table_ok (all_flowables (concat (story_segments styles ps))) = true.
Proof. vm_compute. reflexivity. Qed.

Lemma story_counts (styles : StyleSheet) (ps : ChartPaths) :
  let story := concat (story_segments styles ps) in
  count is_gradient_rect (all_flowables story) = 0%nat
  /\ count is_section_divider (all_flowables story) = 0%nat
  /\ count is_key_metric_box (all_flowables story) = 8%nat
  /\ count is_key_metric_box story = 0%nat
  /\ count is_chapter_header (all_flowables story) = 10%nat
  /\ count is_chapter_header story = 10%nat
  /\ count is_table (all_flowables story) = 10%nat
  /\ count is_table story = 10%nat.
Proof. repeat split; vm_compute; reflexivity. Qed.

(** X19. The story holds ten tables, none nested in another. Each has at
    least one row, as many cells in every row as it has column widths, and
    style commands that only name cells of the table (counting from the
    start or, with negative indices, from the end). *)
Theorem tables_are_well_formed (lib : Library) (fs0 : gmap string Node) :
  Forall (fun f => table_ok f = true) (all_flowables (report_story lib fs0))
  /\ count is_table (all_flowables (report_story lib fs0)) = 10%nat
  /\ count is_table (report_story lib fs0) = 10%nat.
Proof.
  unfold report_story. split.
  - apply List.Forall_forall, List.forallb_forall, story_tables_ok.
  - apply (story_counts (premium_styles lib) (chart_paths lib fs0)).
Qed.

(** X20. Of the four flowable classes the script defines, the report uses
    two: the story holds ten chapter headers, all at the top level, and
    eight key metric boxes, all inside table cells. No [GradientRect] and no
    [SectionDivider] is put in the story, at any depth. *)
Theorem report_uses_two_of_its_four_flowables (lib : Library) (fs0 : gmap string Node) :
  let story := report_story lib fs0 in
  count is_gradient_rect (all_flowables story) = 0%nat
  /\ count is_section_divider (all_flowables story) = 0%nat
  /\ count is_key_metric_box (all_flowables story) = 8%nat
  /\ count is_key_metric_box story = 0%nat
  /\ count is_chapter_header (all_flowables story) = 10%nat
  /\ count is_chapter_header story = 10%nat.
Proof.
  intros story. subst story. unfold report_story.
  destruct (story_counts (premium_styles lib) (chart_paths lib fs0))
    as (Hg & Hd & Hk & Hk' & Hh & Hh' & _).
  repeat split; assumption.
Qed.

(** ** Chapters *)

Lemma chapter_headers_app (s1 s2 : list Flowable) :
  chapter_headers (s1 ++ s2) = chapter_headers s1 ++ chapter_headers s2.
Proof. apply flat_map_app. Qed.

Lemma story_chapter_headers (styles : StyleSheet) (ps : ChartPaths) :
  chapter_headers (concat (story_segments styles ps))
  = [ (1, "Executive Summary"); (2, "Market Overview and Sizing");
      (3, "Technology Trends and Product Evolution");
      (4, "Competitive Landscape Analysis"); (5, "Regional Insights: Germany");
      (6, "Strategic Recommendations for 2026"); (7, "Risk Analysis and Mitigation");
      (8, "Implementation Timeline"); (9, "Success Metrics and KPIs");
      (10, "Conclusion") ]%Z%string.
Proof. vm_compute. reflexivity. Qed.

(** X21. Each of the ten chapter builders returns a story that opens with
    the chapter's header, 450 points wide, and a 20-point spacer, and ends
    with a page break; the chapters are numbered 1 to 10 in story order.
    The numbers are those of the numbered entries of the table of contents
    and the titles are the same, except for chapter 5: its header reads
    [Regional Insights: Germany], a proper beginning of the title the table
    of contents lists. *)
Theorem chapters_open_with_their_header (styles : StyleSheet) :
  Forall2 (fun (build : StyleSheet -> list Flowable) (n : Z) =>
             exists (title : string) (body : list Flowable),
               build styles
               = OfChapterHeader (ChapterHeader.__init__ n title 450)
                 :: Spacer 1 20 :: body ++ [PageBreak])
    chapter_builders [1; 2; 3; 4; 5; 6; 7; 8; 9; 10]%Z
  /\ (forall (lib : Library) (fs0 : gmap string Node),
        Forall2 (fun '(n, title) '(num, listed) =>
                   str_of_Z n = num
                   /\ if (n =? 5)%Z
                      then title <> listed
                           /\ str_prefix listed (Z.of_nat (String.length title)) = title
                      else title = listed)
          (chapter_headers (report_story lib fs0)) (toc_sections toc_items)).
Proof.
  split.
  - unfold chapter_builders.
    repeat (constructor;
            [match goal with
             | |- exists title body, ?build styles = _ =>
                 exists (match build styles with
                         | OfChapterHeader h :: _ => ChapterHeader.title h
                         | _ => EmptyString
                         end),
                        (removelast (tl (tl (build styles))));
                 vm_compute; reflexivity
             end |]).
    constructor.
  - intros lib fs0. unfold report_story. rewrite story_chapter_headers.
    repeat (constructor; [vm_compute; repeat split; discriminate |]).
    constructor.
Qed.

